(** * Telegram assignment bot: storage and conversation state machine

    A shallow embedding of [assignment_bot/storage.py] (the SQLite
    persistence layer) and of the handlers of [assignment_bot/bot.py] that
    change the store, followed by the properties that the specification
    states about them.

    Conventions.
    - A Python [str] is a [string]; a character is a code point below 256.
      The few literals of the source outside that range (pictographs in
      fixed message texts) are written as the bytes found in the source file.
    - A Python [int] is a [Z]; [None] is [None] of an [option].
    - A table is the list of its rows in the order of their insertion; a
      [dict] with string keys is a [gmap string _].
    - The identifiers and the limit that a storage method binds to a
      statement are taken to fit SQLite's signed 64-bit INTEGER, as the
      identifiers of Telegram do; the [OverflowError] of the binding for
      a larger number is not modelled.
    - The clock ([_utcnow]) and the answers of ERPNext and Telegram are
      inputs of the operation that consults them. *)

From Stdlib Require Import Ascii String ZArith DecimalString DecimalZ DecimalPos.
From stdpp Require Import base numbers list gmap strings sorting.

Local Open Scope Z_scope.

(** ** Python string primitives *)

Module Py.

(** [str.isspace] on one character: TAB..CR, FS..US, SPACE, NEL, NBSP. *)
Definition isspace (c : ascii) : bool :=
  let n := N_of_ascii c in
  (((9 <=? n) && (n <=? 13)) || ((28 <=? n) && (n <=? 32))
   || (n =? 133) || (n =? 160))%N.

Fixpoint lstrip (s : string) : string :=
  match s with
  | String c s' => if isspace c then lstrip s' else s
  | EmptyString => EmptyString
  end.

Fixpoint rstrip (s : string) : string :=
  match s with
  | EmptyString => EmptyString
  | String c s' =>
      match rstrip s' with
      | EmptyString => if isspace c then EmptyString else String c EmptyString
      | r => String c r
      end
  end.

(** [s.strip()] *)
Definition strip (s : string) : string := rstrip (lstrip s).

(** Truth value of a [str] and of an [Optional[str]]. *)
Definition truthy (s : string) : bool :=
  match s with EmptyString => false | _ => true end.

Definition truthy_opt (o : option string) : bool :=
  match o with Some s => truthy s | None => false end.

(** [o or d] for an [Optional[str]]. *)
Definition or_else (o : option string) (d : string) : string :=
  match o with
  | Some s => if truthy s then s else d
  | None => d
  end.

(** [s.split()]: the maximal runs of non-whitespace characters. *)
Fixpoint split (s : string) : list string :=
  match s with
  | EmptyString => []
  | String c s' =>
      if isspace c then split s'
      else
        match s' with
        | EmptyString => [String c EmptyString]
        | String c' _ =>
            if isspace c' then String c EmptyString :: split s'
            else
              match split s' with
              | w :: ws => String c w :: ws
              | [] => [String c EmptyString]
              end
        end
  end.

(** [sep.join(l)] *)
Fixpoint join (sep : string) (l : list string) : string :=
  match l with
  | [] => EmptyString
  | [x] => x
  | x :: l' => x +:+ sep +:+ join sep l'
  end.

(** [str.lower] on one character: A..Z and the capital letters of
    Latin-1 (U+00C0..U+00DE without the multiplication sign). *)
Definition lower_char (c : ascii) : ascii :=
  let n := N_of_ascii c in
  if (((65 <=? n) && (n <=? 90))
      || ((192 <=? n) && (n <=? 222) && negb (n =? 215)))%N
  then ascii_of_N (n + 32) else c.

Fixpoint lower (s : string) : string :=
  match s with
  | EmptyString => EmptyString
  | String c s' => String (lower_char c) (lower s')
  end.

(** [str(n)] for an [int]. *)
Definition str (n : Z) : string := NilZero.string_of_int (Z.to_int n).

Definition digit_of (c : ascii) : option Z :=
  let n := N_of_ascii c in
  if ((48 <=? n) && (n <=? 57))%N then Some (Z.of_N n - 48) else None.

(** The digits of an integer literal as [int(s)] reads them: decimal
    digits, single underscores allowed between two digits. *)
Fixpoint digits (acc : Z) (after_digit : bool) (s : string) : option Z :=
  match s with
  | EmptyString => if after_digit then Some acc else None
  | String c s' =>
      match digit_of c with
      | Some d => digits (10 * acc + d) true s'
      | None =>
          if Ascii.eqb c "_" && after_digit then digits acc false s'
          else None
      end
  end.

(** The white space that [int] skips before the sign and after the digits:
    TAB..CR and SPACE, which the C function reads as space, and NEL and
    NBSP, which the conversion turns into spaces first. FS..US are space
    for [str.isspace] but not here. *)
Definition int_isspace (c : ascii) : bool :=
  let n := N_of_ascii c in
  (((9 <=? n) && (n <=? 13)) || (n =? 32) || (n =? 133) || (n =? 160))%N.

Fixpoint int_lstrip (s : string) : string :=
  match s with
  | String c s' => if int_isspace c then int_lstrip s' else s
  | EmptyString => EmptyString
  end.

Fixpoint int_rstrip (s : string) : string :=
  match s with
  | EmptyString => EmptyString
  | String c s' =>
      match int_rstrip s' with
      | EmptyString => if int_isspace c then EmptyString else String c EmptyString
      | r => String c r
      end
  end.

(** [int(s)]: [None] stands for [ValueError]. The limit that the
    interpreter may set on the number of digits is left out. *)
Definition int (s : string) : option Z :=
  match int_rstrip (int_lstrip s) with
  | String "-" r => Z.opp <$> digits 0 false r
  | String "+" r => digits 0 false r
  | r => digits 0 false r
  end.

Fixpoint split_at (sep : ascii) (s : string) : string * option string :=
  match s with
  | EmptyString => (EmptyString, None)
  | String c s' =>
      if Ascii.eqb c sep then (EmptyString, Some s')
      else let '(h, t) := split_at sep s' in (String c h, t)
  end.

(** [s.split(sep, maxsplit)] for a one-character separator. *)
Fixpoint split_sep (sep : ascii) (maxsplit : nat) (s : string) : list string :=
  match maxsplit with
  | O => [s]
  | S k =>
      match split_at sep s with
      | (h, Some t) => h :: split_sep sep k t
      | (h, None) => [h]
      end
  end.

(** [s.startswith(p)] *)
Fixpoint startswith (s p : string) : bool :=
  match p, s with
  | EmptyString, _ => true
  | String a p', String b s' => Ascii.eqb a b && startswith s' p'
  | String _ _, EmptyString => false
  end.

(** [p in s] for strings. *)
Fixpoint contains (s p : string) : bool :=
  startswith s p ||
  match s with
  | EmptyString => false
  | String _ s' => contains s' p
  end.

(** [re.fullmatch(r"[A-Fa-f0-9]", c)] *)
Definition is_hex (c : ascii) : bool :=
  let n := N_of_ascii c in
  (((48 <=? n) && (n <=? 57)) || ((65 <=? n) && (n <=? 70))
   || ((97 <=? n) && (n <=? 102)))%N.

Fixpoint all_hex (s : string) : bool :=
  match s with
  | EmptyString => true
  | String c s' => is_hex c && all_hex s'
  end.

(** [bool(re.fullmatch(r"[A-Fa-f0-9]{lo,hi}", s))] *)
Definition fullmatch_hex (lo hi : nat) (s : string) : bool :=
  all_hex s && (lo <=? String.length s)%nat && (String.length s <=? hi)%nat.

End Py.

(** ** SQLite values, scalar functions and ordering *)

Module Sql.

Inductive value :=
| Null
| Integer (n : Z)
| Text (s : string).

Definition of_text (o : option string) : value :=
  match o with Some s => Text s | None => Null end.

(** [x || y]: NULL when an operand is NULL. *)
Definition concat (x y : value) : value :=
  match x, y with
  | Text a, Text b => Text (a +:+ b)
  | Text a, Integer n => Text (a +:+ Py.str n)
  | Integer n, Text b => Text (Py.str n +:+ b)
  | Integer n, Integer m => Text (Py.str n +:+ Py.str m)
  | _, _ => Null
  end.

Fixpoint ltrim (s : string) : string :=
  match s with
  | String c s' => if Ascii.eqb c " " then ltrim s' else s
  | EmptyString => EmptyString
  end.

Fixpoint rtrim (s : string) : string :=
  match s with
  | EmptyString => EmptyString
  | String c s' =>
      match rtrim s' with
      | EmptyString => if Ascii.eqb c " " then EmptyString else String c EmptyString
      | r => String c r
      end
  end.

(** [TRIM(x)]: removes spaces (and only spaces) from both ends. *)
Definition trim (x : value) : value :=
  match x with
  | Text s => Text (rtrim (ltrim s))
  | Integer n => Text (Py.str n)
  | Null => Null
  end.

Definition ifnull (x y : value) : value :=
  match x with Null => y | _ => x end.

Definition value_eqb (x y : value) : bool :=
  match x, y with
  | Integer a, Integer b => a =? b
  | Text a, Text b => String.eqb a b
  | _, _ => false
  end.

(** [NULLIF(x, y)]: NULL when [x = y], else [x]. *)
Definition nullif (x y : value) : value :=
  if value_eqb x y then Null else x.

(** [COALESCE(x, y, z)] *)
Definition coalesce3 (x y z : value) : value := ifnull x (ifnull y z).

(** The order of [ORDER BY ... ASC]: NULL first, then numbers by value,
    then text by the BINARY collation. *)
Definition leb (x y : value) : bool :=
  match x, y with
  | Null, _ => true
  | Integer _, Null => false
  | Integer a, Integer b => a <=? b
  | Integer _, Text _ => true
  | Text a, Text b => String.leb a b
  | Text _, _ => false
  end.

Definition le (x y : value) : Prop := leb x y = true.

Section OrderBy.
Context {A : Type} (key : A → value).

Fixpoint insert_row (r : A) (l : list A) : list A :=
  match l with
  | [] => [r]
  | x :: l' => if leb (key r) (key x) then r :: l else x :: insert_row r l'
  end.

(** [ORDER BY key]: rows with equal keys stay in scan order. *)
Definition order_by (l : list A) : list A := foldr insert_row [] l.
End OrderBy.

(** [LIMIT n]: a negative [n] means no limit. *)
Definition limit {A} (n : Z) (l : list A) : list A :=
  if n <? 0 then l else take (Z.to_nat n) l.

(** [UPDATE t SET ... WHERE p]: the new table and [rowcount]. *)
Definition update {A} (p : A → bool) (f : A → A) (t : list A) : list A * nat :=
  ((λ r, if p r then f r else r) <$> t, length (filter (λ r, p r = true) t)).

(** [SELECT ... WHERE p] followed by [fetchone()]. *)
Definition fetchone {A} (p : A → bool) (t : list A) : option A :=
  head (filter (λ r, p r = true) t).

(** [DELETE FROM t WHERE p] *)
Definition delete {A} (p : A → bool) (t : list A) : list A :=
  filter (λ r, p r = false) t.

End Sql.

(** ** The four tables of [_initialise_schema] *)

Module users.
Record row := mk {
  telegram_id : Z;
  username : option string;
  first_name : option string;
  last_name : option string;
  started_at : string;
  updated_at : string }.
End users.

Module chats.
Record row := mk {
  chat_id : Z;
  title : option string;
  created_at : string;
  updated_at : string }.
End chats.

Module assignments.
Record row := mk {
  chat_id : Z;
  user_id : Z;
  assigned_at : string;
  api_key : option string;
  api_secret : option string;
  credentials_status : option string;
  customer_docname : option string }.
End assignments.

(** The state blob of an item draft: the dictionary built by
    [handle_new_item] and extended by the item flow. A field is [None] when
    its key is absent. [json.dumps] and [json.loads] are inverse on these
    values, so the [state] column holds the value itself. *)
Record Draft := mkDraft {
  stage : option string;
  data : option (gmap string string);
  draft_chat_id : option Z;
  choices : option (gmap string (list string));
  pages : option (gmap string Z) }.

Module item_drafts.
Record row := mk {
  user_id : Z;
  state : Draft;
  updated_at : string }.
End item_drafts.

Record Database := mkDatabase {
  tbl_users : list users.row;
  tbl_chats : list chats.row;
  tbl_assignments : list assignments.row;
  tbl_item_drafts : list item_drafts.row }.

Definition empty_database : Database := mkDatabase [] [] [] [].

(** ** Connections and exceptions *)

Inductive exn :=
| AssignmentError (msg : string)
| IntegrityError (msg : string)
| KeyError (key : string).

(** A block of statements run on a connection: it sees and changes the
    connection's working copy, and ends normally or by raising. *)
Definition conn (A : Type) : Type := Database → (exn + A) * Database.

Global Instance conn_ret : MRet conn := λ A a db, (inr a, db).
Global Instance conn_bind : MBind conn := λ A B f m db,
  match m db with
  | (inr a, db') => f a db'
  | (inl e, db') => (inl e, db')
  end.

Definition raise {A} (e : exn) : conn A := λ db, (inl e, db).
Definition read {A} (q : Database → A) : conn A := λ db, (inr (q db), db).
Definition write (f : Database → Database) : conn unit := λ db, (inr tt, f db).

(** [with self._lock, self._connection() as conn: body]. The block runs on
    a fresh connection; [conn.commit()] is reached only when the block ends
    normally. When it raises, the connection is closed without a commit and
    its uncommitted statements are lost. The lock admits one block at a
    time. *)
Definition _connection {A} (body : conn A) : conn A := λ db,
  match body db with
  | (inr a, db') => (inr a, db')
  | (inl e, _) => (inl e, db)
  end.

Definition set_users (t : list users.row) (db : Database) : Database :=
  mkDatabase t (tbl_chats db) (tbl_assignments db) (tbl_item_drafts db).
Definition set_chats (t : list chats.row) (db : Database) : Database :=
  mkDatabase (tbl_users db) t (tbl_assignments db) (tbl_item_drafts db).
Definition set_assignments (t : list assignments.row) (db : Database) : Database :=
  mkDatabase (tbl_users db) (tbl_chats db) t (tbl_item_drafts db).
Definition set_item_drafts (t : list item_drafts.row) (db : Database) : Database :=
  mkDatabase (tbl_users db) (tbl_chats db) (tbl_assignments db) t.

(** [INSERT INTO users]: [telegram_id] is the primary key. *)
Definition insert_user (r : users.row) : conn unit := λ db,
  if existsb (λ x, users.telegram_id x =? users.telegram_id r) (tbl_users db)
  then (inl (IntegrityError "UNIQUE constraint failed: users.telegram_id"), db)
  else (inr tt, set_users (tbl_users db ++ [r]) db).

(** [INSERT INTO chats]: [chat_id] is the primary key. *)
Definition insert_chat (r : chats.row) : conn unit := λ db,
  if existsb (λ x, chats.chat_id x =? chats.chat_id r) (tbl_chats db)
  then (inl (IntegrityError "UNIQUE constraint failed: chats.chat_id"), db)
  else (inr tt, set_chats (tbl_chats db ++ [r]) db).

(** [INSERT INTO assignments]: [chat_id] is the primary key and [user_id]
    is UNIQUE. Foreign keys are not enforced: the pragma that turns them on
    is issued on the connection of [_initialise_schema] only. *)
Definition insert_assignment (r : assignments.row) : conn unit := λ db,
  if existsb (λ x, assignments.chat_id x =? assignments.chat_id r) (tbl_assignments db)
  then (inl (IntegrityError "UNIQUE constraint failed: assignments.chat_id"), db)
  else if existsb (λ x, assignments.user_id x =? assignments.user_id r) (tbl_assignments db)
  then (inl (IntegrityError "UNIQUE constraint failed: assignments.user_id"), db)
  else (inr tt, set_assignments (tbl_assignments db ++ [r]) db).

(** ** [storage.py]: [Candidate] and [AssignmentStorage] *)

Record Candidate := mkCandidate {
  telegram_id : Z;
  username : option string;
  first_name : option string;
  last_name : option string;
  started_at : string }.

(** [Candidate.display_label] *)
Definition display_label (c : Candidate) : string :=
  let name_parts :=
    omap (λ part : option string, if Py.truthy_opt part then part else None)
         [first_name c; last_name c] in
  match name_parts with
  | _ :: _ => Py.join " " name_parts
  | [] =>
      if Py.truthy_opt (username c) then "@" +:+ default "" (username c)
      else Py.str (telegram_id c)
  end.

Definition candidate_of_row (r : users.row) : Candidate :=
  mkCandidate (users.telegram_id r) (users.username r) (users.first_name r)
              (users.last_name r) (users.started_at r).

(** The dictionary returned by [get_group_assignment] and
    [get_user_assignment]: one row of the join of assignments, chats and
    users. *)
Record Assignment := mkAssignment {
  chat_id : Z;
  user_id : Z;
  assigned_at : string;
  api_key : option string;
  api_secret : option string;
  credentials_status : option string;
  customer_docname : option string;
  title : option string;
  a_username : option string;
  a_first_name : option string;
  a_last_name : option string }.

Definition joined (a : assignments.row) (c : chats.row) (u : users.row) : Assignment :=
  mkAssignment (assignments.chat_id a) (assignments.user_id a)
    (assignments.assigned_at a) (assignments.api_key a) (assignments.api_secret a)
    (assignments.credentials_status a) (assignments.customer_docname a)
    (chats.title c) (users.username u) (users.first_name u) (users.last_name u).

(** [FROM assignments AS a JOIN chats AS c ON c.chat_id = a.chat_id
     JOIN users AS u ON u.telegram_id = a.user_id WHERE p a] *)
Definition assignment_join (p : assignments.row → bool) (db : Database) : list Assignment :=
  a ← filter (λ a, p a = true) (tbl_assignments db);
  c ← filter (λ c, chats.chat_id c = assignments.chat_id a) (tbl_chats db);
  u ← filter (λ u, users.telegram_id u = assignments.user_id a) (tbl_users db);
  [joined a c u].

Module Storage.

Definition record_user (now : string) (telegram_id : Z)
    (username first_name last_name : option string) : conn bool :=
  _connection (
    row ← read (λ db, Sql.fetchone (λ u, users.telegram_id u =? telegram_id) (tbl_users db));
    match row with
    | Some _ =>
        write (λ db, set_users
          (Sql.update (λ u, users.telegram_id u =? telegram_id)
             (λ u, users.mk (users.telegram_id u) username first_name last_name
                     (users.started_at u) now)
             (tbl_users db)).1 db);;
        mret false
    | None =>
        insert_user (users.mk telegram_id username first_name last_name now now);;
        mret true
    end).

(** Backward-compatible wrapper for [record_user]. *)
Definition record_private_user := record_user.

Definition get_user (telegram_id : Z) : conn (option Candidate) :=
  _connection (
    row ← read (λ db, Sql.fetchone (λ u, users.telegram_id u =? telegram_id) (tbl_users db));
    mret (candidate_of_row <$> row)).

(** The [ORDER BY] expression of [list_unassigned_users]:
    [COALESCE(NULLIF(TRIM(u.first_name || ' ' || IFNULL(u.last_name, '')), ''),
              u.username, u.telegram_id)] *)
Definition order_key (u : users.row) : Sql.value :=
  Sql.coalesce3
    (Sql.nullif
       (Sql.trim
          (Sql.concat
             (Sql.concat (Sql.of_text (users.first_name u)) (Sql.Text " "))
             (Sql.ifnull (Sql.of_text (users.last_name u)) (Sql.Text ""))))
       (Sql.Text ""))
    (Sql.of_text (users.username u))
    (Sql.Integer (users.telegram_id u)).

(** [FROM users AS u LEFT JOIN assignments AS a ON a.user_id = u.telegram_id
     WHERE a.user_id IS NULL] *)
Definition unassigned (db : Database) (u : users.row) : bool :=
  negb (existsb (λ a, assignments.user_id a =? users.telegram_id u) (tbl_assignments db)).

(** [users] is a rowid table with [telegram_id] as its rowid: a scan of it
    visits the rows by ascending [telegram_id]. *)
Definition rowid (u : users.row) : Sql.value := Sql.Integer (users.telegram_id u).

Definition list_unassigned_users (limit : Z) : conn (list Candidate) :=
  rows ← _connection (read (λ db,
    Sql.limit limit
      (Sql.order_by order_key
         (filter (λ u, unassigned db u = true)
            (Sql.order_by rowid (tbl_users db))))));
  mret (candidate_of_row <$> rows).

Definition record_group_chat (now : string) (chat_id : Z) (title : option string)
    : conn unit :=
  _connection (
    existing ← read (λ db, Sql.fetchone (λ c, chats.chat_id c =? chat_id) (tbl_chats db));
    match existing with
    | Some _ =>
        write (λ db, set_chats
          (Sql.update (λ c, chats.chat_id c =? chat_id)
             (λ c, chats.mk (chats.chat_id c)
                     (match title with Some t => Some t | None => chats.title c end)
                     (chats.created_at c) now)
             (tbl_chats db)).1 db)
    | None => insert_chat (chats.mk chat_id title now now)
    end).

Definition get_chat (chat_id : Z) : conn (option chats.row) :=
  _connection (read (λ db, Sql.fetchone (λ c, chats.chat_id c =? chat_id) (tbl_chats db))).

Definition get_group_assignment (chat_id : Z) : conn (option Assignment) :=
  _connection (read (λ db,
    head (assignment_join (λ a, assignments.chat_id a =? chat_id) db))).

Definition get_user_assignment (telegram_id : Z) : conn (option Assignment) :=
  _connection (read (λ db,
    head (assignment_join (λ a, assignments.user_id a =? telegram_id) db))).

Definition assign_sales_manager (now : string) (chat_id user_id : Z) : conn unit :=
  _connection (
    chat_row ← read (λ db, Sql.fetchone (λ c, chats.chat_id c =? chat_id) (tbl_chats db));
    (if chat_row is None
     then insert_chat (chats.mk chat_id None now now)
     else mret tt);;
    user_row ← read (λ db, Sql.fetchone (λ u, users.telegram_id u =? user_id) (tbl_users db));
    (if user_row is None
     then raise (AssignmentError "Foydalanuvchi botga shaxsiy chatda /start yubormagan.")
     else mret tt);;
    existing_group ← read (λ db,
      Sql.fetchone (λ a, assignments.chat_id a =? chat_id) (tbl_assignments db));
    (if existing_group is Some _
     then raise (AssignmentError "Bu guruh uchun sales manager allaqachon tanlangan.")
     else mret tt);;
    existing_user ← read (λ db,
      Sql.fetchone (λ a, assignments.user_id a =? user_id) (tbl_assignments db));
    (if existing_user is Some _
     then raise (AssignmentError
            "Bu foydalanuvchi boshqa guruhda sales manager sifatida tayinlangan.")
     else mret tt);;
    insert_assignment
      (assignments.mk chat_id user_id now None None (Some "pending_key") None)).

(** [UPDATE assignments SET ... WHERE user_id = ?], raising when
    [rowcount == 0]. *)
Definition update_assignment_of_user (user_id : Z)
    (f : assignments.row → assignments.row) : conn unit :=
  _connection (
    updated ← (λ db,
      let '(t, rowcount) :=
        Sql.update (λ a, assignments.user_id a =? user_id) f (tbl_assignments db) in
      (inr rowcount, set_assignments t db));
    if (updated =? 0)%nat
    then raise (AssignmentError "Foydalanuvchi sales manager sifatida topilmadi.")
    else mret tt).

Definition store_api_key (user_id : Z) (api_key : string) : conn unit :=
  update_assignment_of_user user_id (λ a,
    assignments.mk (assignments.chat_id a) (assignments.user_id a)
      (assignments.assigned_at a) (Some api_key) (assignments.api_secret a)
      (Some "pending_secret") (assignments.customer_docname a)).

Definition store_api_secret (user_id : Z) (api_secret : string) (verified : bool)
    : conn unit :=
  let status := if verified then "active" else "pending_secret" in
  update_assignment_of_user user_id (λ a,
    assignments.mk (assignments.chat_id a) (assignments.user_id a)
      (assignments.assigned_at a) (assignments.api_key a) (Some api_secret)
      (Some status) (assignments.customer_docname a)).

Definition reset_credentials (user_id : Z) : conn unit :=
  update_assignment_of_user user_id (λ a,
    assignments.mk (assignments.chat_id a) (assignments.user_id a)
      (assignments.assigned_at a) None None
      (Some "pending_key") (assignments.customer_docname a)).

(** Dangerous helper used only for tests. *)
Definition reset_all : conn unit :=
  _connection (
    write (set_assignments []);;
    write (set_chats []);;
    write (set_users [])).

(** Remove all assignments and credential data, keeping user records. *)
Definition clear_all_assignments : conn unit :=
  _connection (write (set_assignments [])).

Definition get_item_draft (user_id : Z) : conn (option Draft) :=
  _connection (
    row ← read (λ db,
      Sql.fetchone (λ d, item_drafts.user_id d =? user_id) (tbl_item_drafts db));
    mret (item_drafts.state <$> row)).

(** [INSERT ... ON CONFLICT(user_id) DO UPDATE SET state, updated_at] *)
Definition save_item_draft (now : string) (user_id : Z) (state : Draft) : conn unit :=
  _connection (write (λ db,
    if existsb (λ d, item_drafts.user_id d =? user_id) (tbl_item_drafts db)
    then set_item_drafts
           (Sql.update (λ d, item_drafts.user_id d =? user_id)
              (λ d, item_drafts.mk (item_drafts.user_id d) state now)
              (tbl_item_drafts db)).1 db
    else set_item_drafts (tbl_item_drafts db ++ [item_drafts.mk user_id state now]) db)).

Definition delete_item_draft (user_id : Z) : conn unit :=
  _connection (write (λ db,
    set_item_drafts
      (Sql.delete (λ d, item_drafts.user_id d =? user_id) (tbl_item_drafts db)) db)).

Definition store_customer_doc (chat_id : Z) (docname : string) : conn unit :=
  _connection (write (λ db,
    set_assignments
      (Sql.update (λ a, assignments.chat_id a =? chat_id)
         (λ a, assignments.mk (assignments.chat_id a) (assignments.user_id a)
                 (assignments.assigned_at a) (assignments.api_key a)
                 (assignments.api_secret a) (assignments.credentials_status a)
                 (Some docname))
         (tbl_assignments db)).1 db)).

End Storage.

(** ** [config.py] and the objects of the Telegram library *)

Record AssignmentBotConfig := mkConfig {
  admin_ids : gset Z;
  erpnext_base_url : option string }.

Definition is_admin (config : AssignmentBotConfig) (telegram_id : Z) : bool :=
  bool_decide (telegram_id ∈ admin_ids config).

Inductive ChatType := PRIVATE | GROUP | SUPERGROUP | CHANNEL.

Global Instance ChatType_eq_dec : EqDecision ChatType.
Proof. solve_decision. Defined.

Definition is_group (t : ChatType) : bool :=
  match t with GROUP | SUPERGROUP => true | _ => false end.

Record Chat := mkChat {
  chat_ident : Z;
  chat_type : ChatType;
  chat_title : option string }.

Record User := mkUser {
  user_ident : Z;
  user_username : option string;
  user_first_name : option string;
  user_last_name : option string;
  is_bot : bool }.

Record Message := mkMessage {
  message_chat : Chat;
  message_text : option string }.

Record InlineKeyboardButton := mkButton {
  button_text : string;
  callback_data : option string;
  switch_inline_query_current_chat : option string }.

Definition InlineKeyboardMarkup : Type := list (list InlineKeyboardButton).

Record CallbackQuery := mkQuery {
  query_from_user : option User;
  query_data : option string;
  query_message : option Message }.

(** What a handler sends out, in order. [reply_text] names the chat of the
    message that is replied to. *)
Inductive Out :=
| reply_text (to_chat : Z) (text : string) (reply_markup : option InlineKeyboardMarkup)
| send_message (to_chat : Z) (text : string)
| answer (text : option string) (show_alert : bool)
| edit_message_text (text : string) (reply_markup : option InlineKeyboardMarkup).

(** What the outside world answers during one update: the clock (one
    reading serves every statement of the update), the answer to the request
    of [_verify_credentials], and for each other helper the value of
    [await asyncio.to_thread(_request)], or of its [except] branch when the
    request raised. *)
Inductive VerifyAnswer :=
| VerifyResponse (status_code : Z) (detail : string)
| VerifyRaised (exc : string).

Record World := mkWorld {
  now : string;
  verify_answer : VerifyAnswer;
  resource_names_answer : bool * option string * list string;
  create_item_answer : bool * option string;
  find_customer_answer : bool * option string * option string;
  create_customer_answer : bool * option string * option string;
  get_chat_member_raises : bool;
  private_message_forbidden : bool }.

Record AssignmentBot := mkBot {
  config : AssignmentBotConfig;
  _bot_username : option string }.

(** A handler: it works on the store, sends messages, and ends normally or
    by an exception that nothing in the handler catches. *)
Definition handler (A : Type) : Type := Database → (exn + A) * list Out * Database.

Global Instance handler_ret : MRet handler := λ A a db, (inr a, [], db).
Global Instance handler_bind : MBind handler := λ A B f m db,
  match m db with
  | (inr a, outs, db') =>
      let '(r, outs', db'') := f a db' in (r, outs ++ outs', db'')
  | (inl e, outs, db') => (inl e, outs, db')
  end.

Definition send (o : Out) : handler unit := λ db, (inr tt, [o], db).

(** A call of a storage method; its exception leaves the handler. *)
Definition call {A} (m : conn A) : handler A := λ db,
  let '(r, db') := m db in (r, [], db').

(** [try: m except AssignmentError as exc: ...] *)
Definition try_call {A} (m : conn A) : handler (string + A) := λ db,
  match m db with
  | (inr a, db') => (inr (inr a), [], db')
  | (inl (AssignmentError msg), db') => (inr (inl msg), [], db')
  | (inl e, db') => (inl e, [], db')
  end.

Definition throw {A} (e : exn) : handler A := λ db, (inl e, [], db).

Definition nl : string := String "010" EmptyString.
Definition dquote : string := String "034" EmptyString.

Definition CHOICE_PAGE_SIZE : Z := 6.
Definition CHOICE_COLUMNS : nat := 2.

(** [CHOICE_CONFIG]: for a kind, its [choices_key] and its [prompt]. *)
Definition CHOICE_CONFIG : gmap string (string * string) :=
  {[ "item_group" :=
       ("item_groups",
        "3-qadam: Item Group tanlang (tugmani bosing yoki nomini yozing).");
     "uom" :=
       ("uoms",
        "4-qadam: O'lchov birligini tanlang (tugmani bosing yoki nomini yozing).") ]}.

(** [_chunk(items, size)] *)
Fixpoint _chunk_go {A} (size : nat) (batch : list A) (items : list A) : list (list A) :=
  match items with
  | [] => match batch with [] => [] | _ => [batch] end
  | item :: rest =>
      let batch' := batch ++ [item] in
      if (length batch' =? size)%nat then batch' :: _chunk_go size [] rest
      else _chunk_go size batch' rest
  end.
Definition _chunk {A} (items : list A) (size : nat) : list (list A) :=
  _chunk_go size [] items.

(** ** [bot.py]: helpers *)

Definition _validate_api_key (value : string) : bool := Py.fullmatch_hex 15 15 value.

Definition _validate_api_secret (value : string) : bool := Py.fullmatch_hex 15 16 value.

Definition truthy_parts (parts : list (option string)) : list string :=
  omap (λ part : option string, if Py.truthy_opt part then part else None) parts.

Definition _format_assignment_label (assignment : Assignment) : string :=
  let label := Py.join " " (truthy_parts [a_first_name assignment; a_last_name assignment]) in
  let label :=
    if negb (Py.truthy label) && Py.truthy_opt (a_username assignment)
    then "@" +:+ default "" (a_username assignment) else label in
  if negb (Py.truthy label) then Py.str (user_id assignment) else label.

Definition _verify_credentials (self : AssignmentBot) (w : World)
    (api_key api_secret : string) : bool * option string :=
  if negb (Py.truthy_opt (erpnext_base_url (config self))) then (true, None)
  else if negb (Py.truthy api_key) || negb (Py.truthy api_secret)
  then (false, Some "API kalit yoki secret topilmadi.")
  else
    match verify_answer w with
    | VerifyResponse status_code detail =>
        if (200 <=? status_code) && (status_code <? 300) then (true, None)
        else (false, Some ("HTTP " +:+ Py.str status_code +:+ ": " +:+ detail))
    | VerifyRaised exc => (false, Some exc)
    end.

Definition _fetch_resource_names (self : AssignmentBot) (w : World)
    : bool * option string * list string :=
  if negb (Py.truthy_opt (erpnext_base_url (config self)))
  then (false, Some "ERPNext URL sozlanmagan.", [])
  else resource_names_answer w.

Definition _create_item (self : AssignmentBot) (w : World) : bool * option string :=
  if negb (Py.truthy_opt (erpnext_base_url (config self)))
  then (false, Some "ERPNext URL sozlanmagan.")
  else create_item_answer w.

Definition _find_customer (self : AssignmentBot) (w : World)
    : bool * option string * option string :=
  if negb (Py.truthy_opt (erpnext_base_url (config self)))
  then (false, None, Some "ERPNext URL not configured")
  else find_customer_answer w.

Definition _create_customer (self : AssignmentBot) (w : World)
    : bool * option string * option string :=
  if negb (Py.truthy_opt (erpnext_base_url (config self)))
  then (false, None, Some "ERPNext URL not configured")
  else create_customer_answer w.

Definition _derive_customer_name (title : option string) (chat_id : Z) : string :=
  let synthetic := "Auto Customer " +:+ Py.str chat_id in
  match title with
  | Some title =>
      if Py.truthy title then
        let parts := Py.split title in
        let candidate :=
          if (2 <? length parts)%nat then Py.join " " (drop 2 parts) else title in
        let candidate := Py.strip candidate in
        if Py.truthy candidate then candidate else synthetic
      else synthetic
  | None => synthetic
  end.

Definition _ensure_customer_exists (self : AssignmentBot) (w : World)
    (assignment : Assignment) (api_key api_secret : option string) : handler unit :=
  if Py.truthy_opt (customer_docname assignment) then mret tt
  else if negb (Py.truthy_opt api_key) || negb (Py.truthy_opt api_secret) then mret tt
  else if negb (Py.truthy_opt (erpnext_base_url (config self))) then mret tt
  else
    let customer_name := _derive_customer_name (title assignment) (chat_id assignment) in
    let '(_, docname, _) := _find_customer self w in
    let created :=
      if negb (Py.truthy_opt docname) then
        let '(success, docname, _) := _create_customer self w in
        if negb success then None else Some docname
      else Some docname in
    match created with
    | None => mret tt
    | Some docname =>
        if negb (Py.truthy_opt docname) then mret tt
        else
          call (Storage.store_customer_doc (chat_id assignment) (default "" docname));;
          send (send_message (chat_id assignment)
                  ("Yangi mijoz yaratildi: " +:+ customer_name +:+ " ("
                   +:+ default "" docname +:+ ")."))
    end.

(** [_match_choice] *)
Fixpoint first_match (text_value : string) (choices : list string) : option string :=
  match choices with
  | [] => None
  | option :: rest =>
      if String.eqb (Py.lower option) (Py.lower text_value) then Some option
      else first_match text_value rest
  end.

Definition _match_choice (text_value : string) (choices : list string) : option string :=
  match choices with
  | [] => Some text_value
  | _ => first_match text_value choices
  end.

(** Where [_send_choice_keyboard] shows the keyboard: [query.edit_message_text]
    when a query is given, else [message.reply_text]. *)
Inductive Via := ViaQuery | ViaMessage (message_chat_id : Z).

Definition show (via : Via) (text : string) (markup : option InlineKeyboardMarkup) : Out :=
  match via with
  | ViaQuery => edit_message_text text markup
  | ViaMessage c => reply_text c text markup
  end.

Definition draft_choices (draft : Draft) (choices_key : string) : list string :=
  default [] (default ∅ (choices draft) !! choices_key).

Definition max_page (choices : list string) : Z :=
  Z.max 0 ((Z.of_nat (length choices) - 1) `div` CHOICE_PAGE_SIZE).

(** [page = max(0, min(page, max_page))] *)
Definition clamp_page (choices : list string) (page : Z) : Z :=
  Z.max 0 (Z.min page (max_page choices)).

Definition choice_label (option : string) : string :=
  if (String.length option <=? 32)%nat then option
  else String.substring 0 29 option +:+ "‚Ä¶".

Definition choice_button (kind : string) (chat_id user_id : Z) (idx : Z) (option : string)
    : InlineKeyboardButton :=
  mkButton (choice_label option)
    (Some ("pick_" +:+ kind +:+ ":" +:+ Py.str chat_id +:+ ":" +:+ Py.str user_id
           +:+ ":" +:+ Py.str idx))
    None.

Definition nav_button (label kind : string) (chat_id user_id page : Z)
    : InlineKeyboardButton :=
  mkButton label
    (Some ("page_" +:+ kind +:+ ":" +:+ Py.str chat_id +:+ ":" +:+ Py.str user_id
           +:+ ":" +:+ Py.str page))
    None.

Record Rendering := mkRendering {
  shown_page : Z;
  shown_page_count : Z;
  shown_options : list (Z * string);
  shown_markup : InlineKeyboardMarkup;
  shown_text : string }.

(** The page, the options with their absolute indices, the keyboard and the
    text that [_send_choice_keyboard] computes for a non-empty [choices]. *)
Definition render_choices (kind prompt : string) (choices : list string)
    (page chat_id user_id : Z) : Rendering :=
  let page := clamp_page choices page in
  let start := page * CHOICE_PAGE_SIZE in
  let end_ := Z.min (Z.of_nat (length choices)) (start + CHOICE_PAGE_SIZE) in
  let chunk := take (Z.to_nat (end_ - start)) (drop (Z.to_nat start) choices) in
  let indexed := imap (λ i option, (start + Z.of_nat i, option)) chunk in
  let rows :=
    _chunk (map (λ io, choice_button kind chat_id user_id io.1 io.2) indexed)
           CHOICE_COLUMNS in
  let nav_buttons :=
    (if 0 <? page
     then [nav_button "‚¨ÖÔ∏è Oldingi" kind chat_id user_id (page - 1)] else [])
    ++ (if end_ <? Z.of_nat (length choices)
        then [nav_button "Keyingi ‚û°Ô∏è" kind chat_id user_id (page + 1)] else []) in
  let rows := match nav_buttons with [] => rows | _ => rows ++ [nav_buttons] end in
  let info := "Sahifa " +:+ Py.str (page + 1) +:+ "/" +:+ Py.str (max_page choices + 1)
              +:+ ". Jami: " +:+ Py.str (Z.of_nat (length choices)) +:+ "." in
  mkRendering page (max_page choices + 1) indexed rows (prompt +:+ nl +:+ info).

Definition _send_choice_keyboard (kind : string) (draft : Draft) (chat_id user_id : Z)
    (via : Via) : handler unit :=
  match CHOICE_CONFIG !! kind with
  | None => mret tt
  | Some (choices_key, prompt) =>
      let choices := draft_choices draft choices_key in
      match choices with
      | [] => send (show via "Tanlash uchun ma'lumot topilmadi." None)
      | _ =>
          let page := default 0 (default ∅ (pages draft) !! kind) in
          let r := render_choices kind prompt choices page chat_id user_id in
          send (show via (shown_text r)
                  (match shown_markup r with [] => None | rows => Some rows end))
      end
  end.

(** ** [bot.py]: the item draft workflow *)

Definition with_stage (s : string) (d : Draft) : Draft :=
  mkDraft (Some s) (data d) (draft_chat_id d) (choices d) (pages d).

(** [draft.setdefault("data", {})[key] = value] *)
Definition with_data (key value : string) (d : Draft) : Draft :=
  mkDraft (stage d) (Some (<[key:=value]> (default ∅ (data d)))) (draft_chat_id d)
          (choices d) (pages d).

(** [draft.setdefault("choices", {})[key] = names] *)
Definition with_choices (key : string) (names : list string) (d : Draft) : Draft :=
  mkDraft (stage d) (data d) (draft_chat_id d)
          (Some (<[key:=names]> (default ∅ (choices d)))) (pages d).

(** [draft.setdefault("pages", {})[kind] = page] *)
Definition with_page (kind : string) (page : Z) (d : Draft) : Draft :=
  mkDraft (stage d) (data d) (draft_chat_id d) (choices d)
          (Some (<[kind:=page]> (default ∅ (pages d)))).

(** [draft.setdefault("chat_id", chat_id)] *)
Definition with_default_chat (chat_id : Z) (d : Draft) : Draft :=
  mkDraft (stage d) (data d) (Some (default chat_id (draft_chat_id d)))
          (choices d) (pages d).

(** Truth value of the draft dictionary: false when it has no key. *)
Definition draft_truthy (d : Draft) : bool :=
  match d with
  | mkDraft None None None None None => false
  | _ => true
  end.

Definition with_detail (text : string) (error_detail : option string) : string :=
  text +:+ (if Py.truthy_opt error_detail
            then nl +:+ "Ma'lumot: " +:+ default "" error_detail else "").

Definition _prompt_item_group (self : AssignmentBot) (w : World)
    (user_id : Z) (message_chat_id : Z) (draft : Draft) : handler unit :=
  let '(success, error_detail, groups) := _fetch_resource_names self w in
  if negb success || bool_decide (groups = []) then
    send (reply_text message_chat_id
            (with_detail "Item group ro'yxatini olishda xatolik yuz berdi." error_detail)
            None);;
    call (Storage.delete_item_draft user_id)
  else
    let draft :=
      with_default_chat message_chat_id
        (with_page "item_group" 0
           (with_choices "item_groups" groups (with_stage "await_item_group" draft))) in
    call (Storage.save_item_draft (now w) user_id draft);;
    _send_choice_keyboard "item_group" draft message_chat_id user_id
      (ViaMessage message_chat_id).

Definition _prompt_uom (self : AssignmentBot) (w : World)
    (user_id : Z) (message_chat_id : Z) (draft : Draft) : handler unit :=
  let '(success, error_detail, uoms) := _fetch_resource_names self w in
  if negb success || bool_decide (uoms = []) then
    send (reply_text message_chat_id
            (with_detail "O'lchov birliklari ro'yxatini olishda xatolik yuz berdi."
               error_detail)
            None);;
    call (Storage.delete_item_draft user_id)
  else
    let draft :=
      with_page "uom" 0 (with_choices "uoms" uoms (with_stage "await_uom" draft)) in
    call (Storage.save_item_draft (now w) user_id draft);;
    _send_choice_keyboard "uom" draft message_chat_id user_id
      (ViaMessage message_chat_id);;
    if Py.truthy_opt (_bot_username self) then
      send (reply_text message_chat_id
              "Yuqoridagi tugmalar bilan tanlang yoki pastdagi qidiruv tugmasini bosing."
              (Some [[mkButton "üîç UOM qidirish" None (Some "")]]))
    else mret tt.

(** [data[key]]: a missing key raises [KeyError], which no handler catches;
    the update ends there with what was sent and stored so far. *)
Definition getitem (data : gmap string string) (key : string) : string + string :=
  match data !! key with Some v => inr v | None => inl key end.

(** The arguments of [_create_item], read in the order of the call. *)
Definition item_fields (data : gmap string string)
    : string + (string * string * string * string) :=
  match getitem data "item_code" with
  | inl k => inl k
  | inr item_code =>
      match getitem data "item_name" with
      | inl k => inl k
      | inr item_name =>
          match getitem data "item_group" with
          | inl k => inl k
          | inr item_group =>
              match getitem data "stock_uom" with
              | inl k => inl k
              | inr stock_uom => inr (item_code, item_name, item_group, stock_uom)
              end
          end
      end
  end.

(** [selected = ...; if not selected: ...]: the selection when it is
    neither [None] nor empty. *)
Definition if_selected (selected : option string) : option string :=
  match selected with
  | Some s => if Py.truthy s then Some s else None
  | None => None
  end.

(** The [await_uom] branch of [_progress_item_creation] once a unit is
    selected: the item is created from the four collected fields. *)
Definition _create_item_from_draft (self : AssignmentBot) (w : World)
    (user_id : Z) (message_chat_id : Z) (draft : Draft) (selected : string)
    : handler unit :=
  match item_fields (<["stock_uom":=selected]> (default ∅ (data draft))) with
  | inl key => throw (KeyError key)
  | inr (item_code, item_name, item_group, stock_uom) =>
      let '(success, error_detail) := _create_item self w in
      if success then
        send (reply_text message_chat_id
          ("‚úÖ Item ERPNext ga muvaffaqiyatli yaratildi." +:+ nl
           +:+ "‚Ä¢ Item Code: " +:+ item_code +:+ nl
           +:+ "‚Ä¢ Item Name: " +:+ item_name +:+ nl
           +:+ "‚Ä¢ Item Group: " +:+ item_group +:+ nl
           +:+ "‚Ä¢ UOM: " +:+ stock_uom) None);;
        call (Storage.delete_item_draft user_id)
      else
        send (reply_text message_chat_id
          (with_detail "Item yaratishda xatolik yuz berdi." error_detail) None)
  end.

Definition _progress_item_creation (self : AssignmentBot) (w : World)
    (user_id : Z) (message_chat_id : Z) (assignment : Assignment) (draft : Draft)
    (text : string) : handler unit :=
  if negb (Py.truthy_opt (api_key assignment)) || negb (Py.truthy_opt (api_secret assignment))
  then
    send (reply_text message_chat_id
            "API credentiallari topilmadi. Avval ularni qayta kiriting." None);;
    call (Storage.delete_item_draft user_id)
  else
    let text_value := Py.strip text in
    if negb (Py.truthy text_value) then
      send (reply_text message_chat_id
              "Bo'sh qiymat qabul qilinmaydi. Qaytadan kiriting." None)
    else if bool_decide (stage draft = Some "await_item_code") then
      call (Storage.save_item_draft (now w) user_id
              (with_stage "await_item_name" (with_data "item_code" text_value draft)));;
      send (reply_text message_chat_id "2-qadam: Item Name ni kiriting." None)
    else if bool_decide (stage draft = Some "await_item_name") then
      _prompt_item_group self w user_id message_chat_id
        (with_data "item_name" text_value draft)
    else if bool_decide (stage draft = Some "await_item_group") then
      match if_selected (_match_choice text_value (draft_choices draft "item_groups")) with
      | Some selected =>
          _prompt_uom self w user_id message_chat_id
            (with_data "item_group" selected draft)
      | None =>
          send (reply_text message_chat_id
            "Noto'g'ri item group. Ro'yxatdan birini tanlang yoki aniq nomini kiriting."
            None)
      end
    else if bool_decide (stage draft = Some "await_uom") then
      match if_selected (_match_choice text_value (draft_choices draft "uoms")) with
      | Some selected =>
          _create_item_from_draft self w user_id message_chat_id draft selected
      | None =>
          send (reply_text message_chat_id
            "Noto'g'ri o'lchov birligi. Ro'yxatdan birini tanlang yoki aniq nomini kiriting."
            None)
      end
    else
      send (reply_text message_chat_id "Jarayon topilmadi. /new orqali qayta boshlang." None);;
      call (Storage.delete_item_draft user_id).

(** ** [bot.py]: handlers *)

Definition record_sender (w : World) (user : User) : handler bool :=
  call (Storage.record_user (now w) (user_ident user) (user_username user)
          (user_first_name user) (user_last_name user)).

Definition handle_start (self : AssignmentBot) (w : World)
    (chat : option Chat) (user : option User) : handler unit :=
  match chat, user with
  | Some chat, Some user =>
      if bool_decide (chat_type chat = PRIVATE) then
        record_sender w user;;
        assignment ← call (Storage.get_user_assignment (user_ident user));
        let greeting :=
          match assignment with
          | Some assignment =>
              let status := Py.or_else (credentials_status assignment) "pending_key" in
              let group_label :=
                if Py.truthy_opt (title assignment) then default "" (title assignment)
                else Py.str (chat_id assignment) in
              if String.eqb status "pending_key" then
                "Siz " +:+ dquote +:+ group_label +:+ dquote
                +:+ " guruhida sales manager sifatida tayinlandingiz." +:+ nl
                +:+ "Iltimos ERPNext profilidan API kalitni (masalan: 3739e78cec4e139) yozib yuboring."
              else if String.eqb status "pending_secret" then
                "API kalit saqlangan. Endi ERPNext profilidagi API secret ni yuboring "
                +:+ "(masalan: 2a428d03deaceb8)."
              else
                "ERPNext API kalitlari saqlangan. Agar yangilash kerak bo'lsa, admin bilan bog'laning."
          | None =>
              "Assalomu alaykum!" +:+ nl +:+ nl
              +:+ "Sales manager tanlovi admin tomonidan amalga oshirilgach, "
              +:+ "bot sizga shaxsiy xabar yuboradi."
          end in
        send (send_message (chat_ident chat) greeting)
      else
        record_sender w user;;
        call (Storage.record_group_chat (now w) (chat_ident chat) (chat_title chat));;
        send (reply_text (chat_ident chat)
                ("Salom! Bu bot orqali guruh uchun bitta sales manager tayinlanadi." +:+ nl
                 +:+ "Admin uchun buyruq: `/assign_manager`") None)
  | _, _ => mret tt
  end.

Definition message_chat_id (message : Message) : Z := chat_ident (message_chat message).

Definition _maybe_progress_group_item_flow (self : AssignmentBot) (w : World)
    (chat : Chat) (user : User) (message : Message) : handler unit :=
  let text := Py.strip (default "" (message_text message)) in
  if negb (Py.truthy text) then mret tt
  else
    assignment ← call (Storage.get_group_assignment (chat_ident chat));
    match assignment with
    | None => mret tt
    | Some assignment =>
        if bool_decide (user_id assignment ≠ user_ident user)
           || bool_decide (credentials_status assignment ≠ Some "active")
        then mret tt
        else
          draft ← call (Storage.get_item_draft (user_ident user));
          match draft with
          | None => mret tt
          | Some draft =>
              if negb (draft_truthy draft) || negb (Py.truthy_opt (stage draft)) then mret tt
              else if bool_decide (default 0 (draft_chat_id draft) ≠ 0)
                      && bool_decide (draft_chat_id draft ≠ Some (chat_ident chat))
              then
                send (reply_text (message_chat_id message)
                  "Item yaratish boshqa guruhda boshlangan. /new bilan shu guruhda qayta boshlang."
                  None);;
                call (Storage.delete_item_draft (user_ident user))
              else
                _progress_item_creation self w (user_ident user) (message_chat_id message)
                  assignment (with_default_chat (chat_ident chat) draft) text
          end
    end.

Definition handle_group_activity (self : AssignmentBot) (w : World)
    (chat : option Chat) (user : option User) (message : option Message) : handler unit :=
  match chat, message with
  | Some chat, Some message =>
      call (Storage.record_group_chat (now w) (chat_ident chat) (chat_title chat));;
      match user with
      | Some user =>
          if negb (is_bot user) then
            record_sender w user;;
            _maybe_progress_group_item_flow self w chat user message
          else mret tt
      | None => mret tt
      end
  | _, _ => mret tt
  end.

Definition handle_new_item (self : AssignmentBot) (w : World)
    (chat : option Chat) (user : option User) (message : option Message) : handler unit :=
  match chat, user, message with
  | Some chat, Some user, Some message =>
      let reply text := send (reply_text (message_chat_id message) text None) in
      if negb (is_group (chat_type chat)) then
        reply "Bu buyruq faqat guruh chatida ishlaydi."
      else
        assignment ← call (Storage.get_group_assignment (chat_ident chat));
        match assignment with
        | None => reply "Faqat ushbu guruhga tayinlangan sales manager /new yozishi mumkin."
        | Some assignment =>
            if bool_decide (user_id assignment ≠ user_ident user) then
              reply "Faqat ushbu guruhga tayinlangan sales manager /new yozishi mumkin."
            else if bool_decide (credentials_status assignment ≠ Some "active") then
              reply "Avval ERPNext API kalitlarini to'liq tasdiqlang."
            else if negb (Py.truthy_opt (erpnext_base_url (config self))) then
              reply "ERPNext URL sozlanmagan. Administrator bilan bog'laning."
            else
              _ensure_customer_exists self w assignment (api_key assignment)
                (api_secret assignment);;
              call (Storage.save_item_draft (now w) (user_ident user)
                      (mkDraft (Some "await_item_code") (Some ∅) (Some (chat_ident chat))
                               None None));;
              reply ("Yangi Item yaratishni boshladik." +:+ nl
                     +:+ "1-qadam: Item Code (ID) ni kiriting. Masalan: ITEM-001" +:+ nl
                     +:+ "Har bir qadamga javobni shu guruhda yozing. Jarayonni qayta boshlash uchun /new ni yana kiriting.")
        end
  | _, _, _ => mret tt
  end.

Definition handle_private_message (self : AssignmentBot) (w : World)
    (message : option Message) (user : option User) : handler unit :=
  match message, user with
  | Some message, Some user =>
      let reply text := send (reply_text (message_chat_id message) text None) in
      let text := Py.strip (default "" (message_text message)) in
      if negb (Py.truthy text) then mret tt
      else
        assignment ← call (Storage.get_user_assignment (user_ident user));
        match assignment with
        | None => reply "Siz sales manager sifatida tayinlanmagansiz."
        | Some assignment =>
            let status := Py.or_else (credentials_status assignment) "pending_key" in
            if String.eqb status "pending_key" then
              if negb (_validate_api_key text) then
                reply "API kalit formati noto'g'ri. Masalan: 3739e78cec4e139"
              else
                call (Storage.store_api_key (user_ident user) text);;
                reply "API kalit saqlandi. Endi API secret key yuboring."
            else if String.eqb status "pending_secret" then
              if negb (_validate_api_secret text) then
                reply "API secret formati noto'g'ri. Masalan: 2a428d03deaceb8 (15-16 ta hex belgi)"
              else
                let api_key := Py.or_else (api_key assignment) "" in
                let '(verified, error_detail) := _verify_credentials self w api_key text in
                call (Storage.store_api_secret (user_ident user) text verified);;
                (if verified then
                   reply ("API kalit muvaffaqqiyatli kiritildi." +:+ nl
                          +:+ "ERPNext bilan ham muvaffaqqiyatli ulandi.");;
                   _ensure_customer_exists self w assignment (Some api_key) (Some text)
                 else
                   reply (with_detail
                     "API secret saqlandi, biroq ERPNext bilan ulanish amalga oshmadi. Lutfan ma'lumotlarni tekshiring."
                     error_detail));;
                let group_id := chat_id assignment in
                let label := _format_assignment_label assignment in
                let group_message :=
                  if verified then label +:+ " ERPNext API kalitlarini kiritdi."
                  else label +:+ " API ma'lumotlarini yubordi, ammo ERPNext bilan ulanish amalga oshmadi." in
                send (send_message group_id group_message)
            else
              reply "API ma'lumotlari allaqachon saqlangan. Yangi Item jarayonini guruhda /new orqali boshlang."
        end
  | _, _ => mret tt
  end.

Definition handle_reset_api (self : AssignmentBot) (w : World)
    (chat : option Chat) (user : option User) (message : option Message) : handler unit :=
  match chat, user, message with
  | Some chat, Some user, Some message =>
      if bool_decide (chat_type chat ≠ PRIVATE) then mret tt
      else
        assignment ← call (Storage.get_user_assignment (user_ident user));
        match assignment with
        | None =>
            send (reply_text (message_chat_id message) "Sizga hali guruh biriktirilmagan." None)
        | Some assignment =>
            call (Storage.reset_credentials (user_ident user));;
            send (reply_text (message_chat_id message)
                    "API kalitlari reset qilindi. Iltimos, yangi API kalitni yuboring." None);;
            send (send_message (chat_id assignment)
                    (_format_assignment_label assignment +:+ " API kalitlarini yangilamoqda."))
        end
  | _, _, _ => mret tt
  end.

Definition handle_assign_command (self : AssignmentBot) (w : World)
    (chat : option Chat) (user : option User) (message : option Message) : handler unit :=
  match chat, user, message with
  | Some chat, Some user, Some message =>
      let reply text markup := send (reply_text (message_chat_id message) text markup) in
      if negb (is_group (chat_type chat)) then
        reply "Bu buyruq faqat guruhlarda ishlaydi." None
      else if negb (is_admin (config self) (user_ident user)) then
        reply "Bu buyruq faqat administrator uchun." None
      else
        call (Storage.record_group_chat (now w) (chat_ident chat) (chat_title chat));;
        existing ← call (Storage.get_group_assignment (chat_ident chat));
        match existing with
        | Some existing =>
            let label :=
              Py.strip (Py.join " " (truthy_parts
                [Some (Py.or_else (a_first_name existing) "");
                 Some (Py.or_else (a_last_name existing) "")])) in
            let label :=
              if negb (Py.truthy label) && Py.truthy_opt (a_username existing)
              then "@" +:+ default "" (a_username existing) else label in
            let label :=
              if negb (Py.truthy label) then Py.str (user_id existing) else label in
            reply ("Bu guruh uchun allaqachon sales manager tayinlangan: " +:+ label +:+ ".")
                  None
        | None =>
            candidates ← call (Storage.list_unassigned_users 25);
            match candidates with
            | [] =>
                reply ("Hali hech kim botga shaxsiy chatda /start yubormagan. "
                       +:+ "Iltimos, nomzodlar /start yuborsin.") None
            | _ =>
                let keyboard_rows :=
                  map (map (λ candidate,
                         mkButton (display_label candidate)
                           (Some ("assign_sm:" +:+ Py.str (chat_ident chat) +:+ ":"
                                  +:+ Py.str (telegram_id candidate)))
                           None))
                      (_chunk candidates 2) in
                reply ("Sales manager qilib tayinlamoqchi bo'lgan foydalanuvchini tanlang." +:+ nl
                       +:+ "Ro'yxatda ko'rinmasa, ular botga /start yuborganini tekshiring.")
                      (Some keyboard_rows)
            end
        end
  | _, _, _ => mret tt
  end.

Definition handle_assign_callback (self : AssignmentBot) (w : World)
    (query : option CallbackQuery) : handler unit :=
  match query with
  | None => mret tt
  | Some query =>
      send (answer None false);;
      match query_from_user query with
      | None => mret tt
      | Some user =>
          let edit text := send (edit_message_text text None) in
          if negb (is_admin (config self) (user_ident user)) then
            edit "Faqat administrator tanlovni tasdiqlashi mumkin."
          else
            let data := default "" (query_data query) in
            match Py.split_sep ":" (String.length data) data with
            | [_; chat_id_raw; candidate_id_raw] =>
                match Py.int chat_id_raw, Py.int candidate_id_raw with
                | Some chat_id, Some candidate_id =>
                    match message_chat <$> query_message query with
                    | Some chat =>
                        if bool_decide (chat_ident chat ≠ chat_id) then
                          edit "Tanlov bu guruhga tegishli emas."
                        else
                          call (Storage.record_group_chat (now w) chat_id (chat_title chat));;
                          candidate ← call (Storage.get_user candidate_id);
                          match candidate with
                          | None => edit "Bu foydalanuvchi botga /start yubormagan."
                          | Some candidate =>
                              if get_chat_member_raises w then
                                edit "Foydalanuvchi guruh a'zosi emas yoki aniqlanmadi."
                              else
                                assigned ← try_call
                                  (Storage.assign_sales_manager (now w) chat_id candidate_id);
                                match assigned with
                                | inl exc => edit exc
                                | inr _ =>
                                    let private_message :=
                                      "üéâ Tabriklaymiz!" +:+ nl +:+ nl
                                      +:+ "Siz " +:+ dquote
                                      +:+ (if Py.truthy_opt (chat_title chat)
                                           then default "" (chat_title chat)
                                           else Py.str chat_id)
                                      +:+ dquote
                                      +:+ " guruhida sales manager sifatida tayinlandingiz." +:+ nl
                                      +:+ "Bot orqali keladigan so'rovlarni kuzatib boring." +:+ nl +:+ nl
                                      +:+ "Endi ERPNext profilidan API kalitni shu chatga yuboring (masalan: 3739e78cec4e139)." +:+ nl
                                      +:+ "Kalit saqlangach bot sizdan API secret ni so'raydi." in
                                    (if private_message_forbidden w then mret tt
                                     else send (send_message candidate_id private_message));;
                                    let dm_status :=
                                      if private_message_forbidden w
                                      then "Foydalanuvchiga shaxsiy xabar yuborilmadi. "
                                           +:+ "Iltimos, ularga botga /start yuborishlarini eslatib qo'ying."
                                      else "Shaxsiy xabar yuborildi." in
                                    edit (display_label candidate
                                          +:+ " sales manager sifatida tayinlandi." +:+ nl
                                          +:+ dm_status)
                                end
                          end
                    | None => edit "Tanlov bu guruhga tegishli emas."
                    end
                | _, _ => edit "Tanlov ma'lumotlari buzilgan."
                end
            | _ => edit "Noto'g'ri format."
            end
      end
  end.

(** The four fields of [query.data.split(":", 3)] with the two identifiers
    read by [int]; [None] stands for the [ValueError] of the unpacking or of
    [int]. *)
Definition parse_choice_data (data : string) : option (string * Z * Z * string) :=
  match Py.split_sep ":" 3 data with
  | [action; chat_id_raw; user_id_raw; value] =>
      chat_id ← Py.int chat_id_raw;
      target_user_id ← Py.int user_id_raw;
      Some (action, chat_id, target_user_id, value)
  | _ => None
  end.

(** [_, kind = action.split("_", 1)] for an action with an underscore. *)
Definition kind_of_action (action : string) : string :=
  default "" (Py.split_at "_" action).2.

Definition handle_choice_callback (self : AssignmentBot) (w : World)
    (query : option CallbackQuery) : handler unit :=
  match query with
  | None => mret tt
  | Some query =>
      if negb (Py.truthy_opt (query_data query)) then mret tt
      else
        let alert text := send (answer (Some text) true) in
        match parse_choice_data (default "" (query_data query)) with
        | None => alert "Noto'g'ri format."
        | Some (action, chat_id, target_user_id, value) =>
            if bool_decide (user_ident <$> query_from_user query ≠ Some target_user_id) then
              alert "Bu tugmalar siz uchun emas."
            else
              assignment ← call (Storage.get_group_assignment chat_id);
              match assignment with
              | None => alert "Guruh tayinlanishi topilmadi."
              | Some assignment =>
                  if bool_decide (user_id assignment ≠ target_user_id) then
                    alert "Guruh tayinlanishi topilmadi."
                  else if bool_decide (credentials_status assignment ≠ Some "active") then
                    alert "Avval API credentiallari tasdiqlansin."
                  else
                    draft ← call (Storage.get_item_draft target_user_id);
                    match draft with
                    | None => alert "Jarayon topilmadi. /new bilan qayta boshlang."
                    | Some draft =>
                        if negb (draft_truthy draft) then
                          alert "Jarayon topilmadi. /new bilan qayta boshlang."
                        else if bool_decide (draft_chat_id draft ≠ Some chat_id) then
                          alert "Jarayon topilmadi. /new bilan qayta boshlang.";;
                          call (Storage.delete_item_draft target_user_id)
                        else if Py.startswith action "page_" then
                          let kind := kind_of_action action in
                          if bool_decide (CHOICE_CONFIG !! kind = None) then
                            alert "Noto'g'ri tur."
                          else
                            match Py.int value with
                            | None => alert "Noto'g'ri sahifa."
                            | Some page =>
                                let draft := with_page kind (Z.max 0 page) draft in
                                call (Storage.save_item_draft (now w) target_user_id draft);;
                                _send_choice_keyboard kind draft chat_id target_user_id ViaQuery;;
                                send (answer None false)
                            end
                        else if Py.startswith action "pick_" then
                          let kind := kind_of_action action in
                          match Py.int value with
                          | None => alert "Noto'g'ri tanlov."
                          | Some index =>
                              match CHOICE_CONFIG !! kind with
                              | None => alert "Noto'g'ri tur."
                              | Some (choices_key, _) =>
                                  let options := draft_choices draft choices_key in
                                  if (index <? 0) || (Z.of_nat (length options) <=? index) then
                                    alert "Variant topilmadi."
                                  else
                                    let selected := default "" (options !! Z.to_nat index) in
                                    send (answer (Some (selected +:+ " tanlandi.")) false);;
                                    send (edit_message_text (selected +:+ " tanlandi.") None);;
                                    msg_chat ←
                                      match query_message query with
                                      | Some msg => mret (message_chat_id msg)
                                      | None =>
                                          send (send_message chat_id (selected +:+ " tanlandi."));;
                                          mret chat_id
                                      end;
                                    _progress_item_creation self w target_user_id msg_chat
                                      assignment draft selected
                              end
                          end
                        else alert "Noma'lum amal."
                    end
              end
        end
  end.

Definition handle_clear_assignments (self : AssignmentBot) (w : World)
    (chat : option Chat) (user : option User) (message : option Message) : handler unit :=
  match user, message with
  | Some user, Some message =>
      if negb (is_admin (config self) (user_ident user)) then
        send (reply_text (message_chat_id message) "Bu buyruq faqat adminlar uchun." None)
      else
        call Storage.clear_all_assignments;;
        send (reply_text (message_chat_id message)
                "Barcha sales manager tayinlovlari va API ma'lumotlari o'chirildi." None)
  | _, _ => mret tt
  end.

(** ** Updates

    The handlers registered by [_register_handlers] that write to the store.
    [handle_help], [handle_report], [handle_status], [handle_inline_query] and
    [handle_error] only read it and are left out. *)
Inductive Update :=
| start (chat : option Chat) (user : option User)
| group_activity (chat : option Chat) (user : option User) (message : option Message)
| new_item (chat : option Chat) (user : option User) (message : option Message)
| private_message (message : option Message) (user : option User)
| reset_api (chat : option Chat) (user : option User) (message : option Message)
| assign_command (chat : option Chat) (user : option User) (message : option Message)
| assign_callback (query : option CallbackQuery)
| choice_callback (query : option CallbackQuery)
| clear_assignments (chat : option Chat) (user : option User) (message : option Message).

Definition handle (self : AssignmentBot) (w : World) (u : Update) : handler unit :=
  match u with
  | start chat user => handle_start self w chat user
  | group_activity chat user message => handle_group_activity self w chat user message
  | new_item chat user message => handle_new_item self w chat user message
  | private_message message user => handle_private_message self w message user
  | reset_api chat user message => handle_reset_api self w chat user message
  | assign_command chat user message => handle_assign_command self w chat user message
  | assign_callback query => handle_assign_callback self w query
  | choice_callback query => handle_choice_callback self w query
  | clear_assignments chat user message => handle_clear_assignments self w chat user message
  end.

(** The store after one update, and after a sequence of them. *)
Definition step (self : AssignmentBot) (db : Database) (wu : World * Update) : Database :=
  (handle self wu.1 wu.2 db).2.

Definition run (self : AssignmentBot) (updates : list (World * Update)) : Database :=
  foldl (step self) empty_database updates.

Definition sent {A} (r : (exn + A) * list Out * Database) : list Out := r.1.2.

(** * Vocabulary of the properties *)

(** ** Storage operations as data *)

Inductive Op :=
| record_user (now : string) (telegram_id : Z) (username first_name last_name : option string)
| record_private_user (now : string) (telegram_id : Z)
    (username first_name last_name : option string)
| get_user (telegram_id : Z)
| list_unassigned_users (limit : Z)
| record_group_chat (now : string) (chat_id : Z) (title : option string)
| get_chat (chat_id : Z)
| get_group_assignment (chat_id : Z)
| get_user_assignment (telegram_id : Z)
| assign_sales_manager (now : string) (chat_id user_id : Z)
| store_api_key (user_id : Z) (api_key : string)
| store_api_secret (user_id : Z) (api_secret : string) (verified : bool)
| reset_credentials (user_id : Z)
| reset_all
| clear_all_assignments
| get_item_draft (user_id : Z)
| save_item_draft (now : string) (user_id : Z) (state : Draft)
| delete_item_draft (user_id : Z)
| store_customer_doc (chat_id : Z) (docname : string).

(** The store after a call; the returned value or exception is dropped. *)
Definition exec (db : Database) (op : Op) : Database :=
  match op with
  | record_user now i u f l => (Storage.record_user now i u f l db).2
  | record_private_user now i u f l => (Storage.record_private_user now i u f l db).2
  | get_user i => (Storage.get_user i db).2
  | list_unassigned_users limit => (Storage.list_unassigned_users limit db).2
  | record_group_chat now c t => (Storage.record_group_chat now c t db).2
  | get_chat c => (Storage.get_chat c db).2
  | get_group_assignment c => (Storage.get_group_assignment c db).2
  | get_user_assignment i => (Storage.get_user_assignment i db).2
  | assign_sales_manager now c u => (Storage.assign_sales_manager now c u db).2
  | store_api_key u k => (Storage.store_api_key u k db).2
  | store_api_secret u s v => (Storage.store_api_secret u s v db).2
  | reset_credentials u => (Storage.reset_credentials u db).2
  | reset_all => (Storage.reset_all db).2
  | clear_all_assignments => (Storage.clear_all_assignments db).2
  | get_item_draft u => (Storage.get_item_draft u db).2
  | save_item_draft now u s => (Storage.save_item_draft now u s db).2
  | delete_item_draft u => (Storage.delete_item_draft u db).2
  | store_customer_doc c d => (Storage.store_customer_doc c d db).2
  end.

Definition chat_ids (db : Database) : list Z := assignments.chat_id <$> tbl_assignments db.
Definition user_ids (db : Database) : list Z := assignments.user_id <$> tbl_assignments db.

(** Invariant A and invariant B. *)
Definition one_to_one (db : Database) : Prop :=
  NoDup (chat_ids db) ∧ NoDup (user_ids db).

Definition new_assignment (now : string) (chat_id user_id : Z) : assignments.row :=
  assignments.mk chat_id user_id now None None (Some "pending_key") None.

(** The chats table as [assign_sales_manager] leaves it when it commits. *)
Definition with_chat (now : string) (chat_id : Z) (db : Database) : Database :=
  match Sql.fetchone (λ c, chats.chat_id c =? chat_id) (tbl_chats db) with
  | Some _ => db
  | None => set_chats (tbl_chats db ++ [chats.mk chat_id None now now]) db
  end.

(** ** Assigning a sales manager *)

Definition user_recorded (db : Database) (u : Z) : Prop :=
  ∃ r, r ∈ tbl_users db ∧ users.telegram_id r = u.

Definition chat_assigned (db : Database) (c : Z) : Prop :=
  ∃ a, a ∈ tbl_assignments db ∧ assignments.chat_id a = c.

Definition user_assigned_elsewhere (db : Database) (u c : Z) : Prop :=
  ∃ a, a ∈ tbl_assignments db ∧ assignments.user_id a = u ∧ assignments.chat_id a ≠ c.

Definition raises_AssignmentError {A} (r : (exn + A) * Database) : Prop :=
  ∃ msg, r.1 = inl (AssignmentError msg).

(** Two rows in the order of their sort keys. *)
Definition key_le {A : Type} (key : A → Sql.value) (a b : A) : Prop :=
  Sql.le (key a) (key b).

(** The sort key in words: the space-trimmed [first_name last_name] when
    [first_name] is present and the trimmed text is not empty, else the
    username when present, else the numeric id. *)
Definition sort_key_in_words (u : users.row) : Sql.value :=
  let otherwise :=
    match users.username u with
    | Some name => Sql.Text name
    | None => Sql.Integer (users.telegram_id u)
    end in
  match users.first_name u with
  | Some first =>
      let full := Sql.rtrim (Sql.ltrim ((first +:+ " ") +:+ default "" (users.last_name u))) in
      if Py.truthy full then Sql.Text full else otherwise
  | None => otherwise
  end.

(** Two users recorded through the storage interface: the first has no
    first name, the last name Alice and the username zed; the second is
    called Bob. *)
Definition two_candidates : Database :=
  foldl exec empty_database
    [record_user "2025-01-01T00:00:00Z" 1 (Some "zed") None (Some "Alice");
     record_user "2025-01-01T00:00:00Z" 2 None (Some "Bob") None].

Definition by_display_label (l : list Candidate) : Prop :=
  StronglySorted (λ a b, String.le (display_label a) (display_label b)) l.

(** ** The customer name *)

(** A word: not empty, no whitespace in it. *)
Fixpoint no_space (s : string) : bool :=
  match s with
  | EmptyString => true
  | String c s' => negb (Py.isspace c) && no_space s'
  end.

Definition word (s : string) : Prop := no_space s = true ∧ s ≠ "".

(** ** Free-text answers at a choice stage *)

(** A choice stage: its stage tag, the key of its cached list, the data key
    it fills and its retry prompt. *)
Inductive ChoiceStage := item_group_stage | uom_stage.

Definition stage_tag (k : ChoiceStage) : string :=
  match k with item_group_stage => "await_item_group" | uom_stage => "await_uom" end.

Definition stage_choices_key (k : ChoiceStage) : string :=
  match k with item_group_stage => "item_groups" | uom_stage => "uoms" end.

Definition retry_prompt (k : ChoiceStage) : string :=
  match k with
  | item_group_stage =>
      "Noto'g'ri item group. Ro'yxatdan birini tanlang yoki aniq nomini kiriting."
  | uom_stage =>
      "Noto'g'ri o'lchov birligi. Ro'yxatdan birini tanlang yoki aniq nomini kiriting."
  end.

(** What the flow does with an accepted value. *)
Definition accept (k : ChoiceStage) (self : AssignmentBot) (w : World)
    (user_id message_chat_id : Z) (draft : Draft) (selected : string) : handler unit :=
  match k with
  | item_group_stage =>
      _prompt_uom self w user_id message_chat_id (with_data "item_group" selected draft)
  | uom_stage => _create_item_from_draft self w user_id message_chat_id draft selected
  end.

(** [selected] is the first option of [l] that equals [t] up to case. *)
Definition first_equal_ignoring_case (t : string) (l : list string) (selected : string)
    : Prop :=
  ∃ before after,
    l = before ++ selected :: after
    ∧ Py.lower selected = Py.lower t
    ∧ ∀ o, o ∈ before → Py.lower o ≠ Py.lower t.

Definition choice_answer_outcome (k : ChoiceStage) (self : AssignmentBot) (w : World)
    (user_id message_chat_id : Z) (assignment : Assignment) (draft : Draft)
    (text : string) (db : Database) : Prop :=
  let t := Py.strip text in
  let l := draft_choices draft (stage_choices_key k) in
  let result :=
    _progress_item_creation self w user_id message_chat_id assignment draft text db in
  match _match_choice t l with
  | Some selected =>
      ((l = [] ∧ selected = t) ∨ first_equal_ignoring_case t l selected)
      ∧ result = accept k self w user_id message_chat_id draft selected db
  | None =>
      l ≠ [] ∧ (∀ o, o ∈ l → Py.lower o ≠ Py.lower t)
      ∧ result = (inr tt, [reply_text message_chat_id (retry_prompt k) None], db)
  end.

Definition demo_bot : AssignmentBot :=
  mkBot (mkConfig {[ 1 ]} (Some "https://erp.example")) None.

Definition demo_world : World :=
  mkWorld "2025-01-01T00:00:00Z" (VerifyResponse 200 "")
    (true, None, ["Nos"; "Kg"]) (true, None) (true, None, None)
    (true, Some "CUST-0001", None) false false.

Definition active_assignment : Assignment :=
  mkAssignment 555 111 "2025-01-01T00:00:00Z" (Some "3739e78cec4e139")
    (Some "2a428d03deaceb8") (Some "active") None (Some "Savdo") None (Some "Ali") None.

Definition draft_at_group (groups : list string) : Draft :=
  mkDraft (Some "await_item_group")
    (Some {[ "item_code" := "ITEM-001"; "item_name" := "Widget" ]})
    (Some 555) (Some {[ "item_groups" := groups ]}) (Some {[ "item_group" := 0 ]}).

Definition stored_stage_and_group (db : Database) : list (option string * option string) :=
  (λ d, (stage (item_drafts.state d),
         default ∅ (data (item_drafts.state d)) !! "item_group")) <$> tbl_item_drafts db.

(** ** Pagination of the choices *)

Definition page_count (n : Z) : Z := (n + 5) `div` 6.

Definition rejected (outs : list Out) : Prop := ∃ text, outs = [answer (Some text) true].

Definition pick_outcome (self : AssignmentBot) (w : World) (query : CallbackQuery)
    (chat_id user_id : Z) (d : Draft) (db : Database) : Prop :=
  let r := handle_choice_callback self w (Some query) db in
  r.1.1 = inr tt
  ∧ rejected r.1.2
  ∧ (draft_chat_id d = Some chat_id → r.2 = db)
  ∧ (r.2 = db ∨ r.2 = (Storage.delete_item_draft user_id db).2).

Definition rendering_outcome (kind prompt : string) (choices : list string)
    (page chat_id user_id : Z) : Prop :=
  let n := Z.of_nat (length choices) in
  let r := render_choices kind prompt choices page chat_id user_id in
  shown_page_count r = page_count n
  ∧ 6 * (page_count n - 1) < n ≤ 6 * page_count n
  ∧ shown_page r = Z.max 0 (Z.min page (page_count n - 1))
  ∧ 0 ≤ shown_page r ≤ page_count n - 1
  ∧ shown_options r =
      imap (λ i option, (6 * shown_page r + Z.of_nat i, option))
           (take 6 (drop (Z.to_nat (6 * shown_page r)) choices))
  ∧ shown_text r =
      prompt +:+ nl +:+ "Sahifa " +:+ Py.str (shown_page r + 1) +:+ "/"
      +:+ Py.str (page_count n) +:+ ". Jami: " +:+ Py.str n +:+ ".".

Definition thirteen : list string :=
  ["G01"; "G02"; "G03"; "G04"; "G05"; "G06"; "G07"; "G08"; "G09"; "G10"; "G11"; "G12";
   "G13"].

(** An update of the credential columns of an assignment row, and the same
    update on a joined row. *)
Definition amend_row (key secret status docname : option string → option string)
    (r : assignments.row) : assignments.row :=
  assignments.mk (assignments.chat_id r) (assignments.user_id r)
    (assignments.assigned_at r) (key (assignments.api_key r))
    (secret (assignments.api_secret r)) (status (assignments.credentials_status r))
    (docname (assignments.customer_docname r)).

Definition amend (key secret status docname : option string → option string)
    (a : Assignment) : Assignment :=
  mkAssignment (chat_id a) (user_id a) (assigned_at a) (key (api_key a))
    (secret (api_secret a)) (status (credentials_status a))
    (docname (customer_docname a)) (title a) (a_username a) (a_first_name a)
    (a_last_name a).

Definition key_text_outcome (self : AssignmentBot) (w : World) (message : Message)
    (user : User) (a : Assignment) (db : Database) : Prop :=
  let text := Py.strip (default "" (message_text message)) in
  let r := handle_private_message self w (Some message) (Some user) db in
  let reply t := reply_text (message_chat_id message) t None in
  if negb (Py.truthy text) then r = (inr tt, [], db)
  else if _validate_api_key text then
    r.1 = (inr tt, [reply "API kalit saqlandi. Endi API secret key yuboring."])
    ∧ (Storage.get_user_assignment (user_ident user) r.2).1
      = inr (Some (amend (λ _, Some text) id (λ _, Some "pending_secret") id a))
  else r = (inr tt, [reply "API kalit formati noto'g'ri. Masalan: 3739e78cec4e139"], db).

Definition secret_text_outcome (self : AssignmentBot) (w : World) (message : Message)
    (user : User) (a : Assignment) (db : Database) : Prop :=
  let text := Py.strip (default "" (message_text message)) in
  let r := handle_private_message self w (Some message) (Some user) db in
  let reply t := reply_text (message_chat_id message) t None in
  if negb (Py.truthy text) then r = (inr tt, [], db)
  else if _validate_api_secret text then
    let verified := (_verify_credentials self w (Py.or_else (api_key a) "") text).1 in
    r.1.1 = inr tt
    ∧ ∃ a', (Storage.get_user_assignment (user_ident user) r.2).1 = inr (Some a')
            ∧ chat_id a' = chat_id a
            ∧ api_key a' = api_key a
            ∧ api_secret a' = Some text
            ∧ credentials_status a'
              = Some (if verified then "active" else "pending_secret")
  else
    r = (inr tt,
         [reply "API secret formati noto'g'ri. Masalan: 2a428d03deaceb8 (15-16 ta hex belgi)"],
         db).

(** ** A secret that fails verification *)

Definition failed_verification_outcome (self : AssignmentBot) (w : World)
    (message : Message) (user : User) (a : Assignment) (detail : option string)
    (db : Database) : Prop :=
  let text := Py.strip (default "" (message_text message)) in
  let r := handle_private_message self w (Some message) (Some user) db in
  r.1 =
    (inr tt,
     [reply_text (message_chat_id message)
        ("API secret saqlandi, biroq ERPNext bilan ulanish amalga oshmadi. Lutfan ma'lumotlarni tekshiring."
         +:+ (if Py.truthy_opt detail then nl +:+ "Ma'lumot: " +:+ default "" detail
              else ""))
        None;
      send_message (chat_id a)
        (_format_assignment_label a
         +:+ " API ma'lumotlarini yubordi, ammo ERPNext bilan ulanish amalga oshmadi.")])
  ∧ (Storage.get_user_assignment (user_ident user) r.2).1
    = inr (Some (amend id (λ _, Some text) (λ _, Some "pending_secret") id a)).

(** ** Credential status over a run *)

(** Chat, user and credential status of every assignment row. *)
Definition statuses (db : Database) : list (Z * Z * option string) :=
  (λ r, (assignments.chat_id r, assignments.user_id r, assignments.credentials_status r))
    <$> tbl_assignments db.

(** The status recorded for a chat: [None] when the chat has no assignment. *)
Definition credentials_status_of (db : Database) (chat : Z) : option (option string) :=
  snd <$> head (filter (λ x, x.1.1 = chat) (statuses db)).

Definition known_status (s : option string) : Prop :=
  s = Some "pending_key" ∨ s = Some "pending_secret" ∨ s = Some "active".

Definition well_formed (db : Database) : Prop :=
  one_to_one db ∧ Forall (λ x, known_status x.2) (statuses db).

(** [statuses] after the rows of [user] got the status [s]. *)
Definition set_status (user : Z) (s : string) (l : list (Z * Z * option string))
    : list (Z * Z * option string) :=
  (λ x, if x.1.2 =? user then (x.1, Some s) else x) <$> l.

(** Storage calls that leave every chat, user and status of the
    assignments table as it is. *)
Definition quiet (op : Op) : bool :=
  match op with
  | assign_sales_manager _ _ _ | store_api_key _ _ | store_api_secret _ _ _
  | reset_credentials _ | reset_all | clear_all_assignments => false
  | _ => true
  end.

Definition preserves (P : Database → Prop) {A} (h : handler A) : Prop :=
  ∀ db, P db → P (h db).2.

Definition keeps (P : Database → Prop) {A} (m : conn A) : Prop :=
  ∀ db, P db → P (m db).2.

Definition message_text_of (message : Message) : string :=
  Py.strip (default "" (message_text message)).

(** What lets [handle_private_message] store the status [active]: the
    verification request was answered with a 2xx status, or no ERPNext base
    URL is configured and the verification is skipped. *)
Definition verification_passed (self : AssignmentBot) (w : World) : Prop :=
  Py.truthy_opt (erpnext_base_url (config self)) = false
  ∨ ∃ status_code detail,
      verify_answer w = VerifyResponse status_code detail ∧ 200 ≤ status_code < 300.

(** The external verification call was made and returned an affirmative
    result. *)
Definition externally_verified (self : AssignmentBot) (w : World) : Prop :=
  Py.truthy_opt (erpnext_base_url (config self)) = true
  ∧ ∃ status_code detail,
      verify_answer w = VerifyResponse status_code detail ∧ 200 ≤ status_code < 300.

Inductive transition (self : AssignmentBot) (w : World) (u : Update)
    : option string → option string → Prop :=
| unchanged s : transition self w u s s
| key_stored message user :
    u = private_message (Some message) (Some user) →
    _validate_api_key (message_text_of message) = true →
    transition self w u (Some "pending_key") (Some "pending_secret")
| secret_verified message user :
    u = private_message (Some message) (Some user) →
    _validate_api_secret (message_text_of message) = true →
    verification_passed self w →
    transition self w u (Some "pending_secret") (Some "active")
| credentials_reset chat user message s :
    u = reset_api chat user message →
    transition self w u s (Some "pending_key").

Definition status_step (self : AssignmentBot) (w : World) (u : Update)
    (before after : option (option string)) : Prop :=
  match before, after with
  | Some s, Some s' => transition self w u s s'
  | None, Some s' => s' = Some "pending_key"
  | _, None => True
  end.

Definition is_assign (op : Op) : bool :=
  match op with assign_sales_manager _ _ _ => true | _ => false end.

Definition is_clear (op : Op) : bool :=
  match op with clear_all_assignments => true | _ => false end.

Definition is_reset_of (user : Z) (op : Op) : bool :=
  match op with reset_credentials u => bool_decide (u = user) | _ => false end.

Definition private_message_effect (self : AssignmentBot) (w : World)
    (message : Message) (user : User) (a : Assignment) (db db' : Database) : Prop :=
  (credentials_status a = Some "pending_key"
   ∧ _validate_api_key (message_text_of message) = true
   ∧ statuses db' = set_status (user_ident user) "pending_secret" (statuses db))
  ∨ (credentials_status a = Some "pending_secret"
     ∧ _validate_api_secret (message_text_of message) = true
     ∧ ∃ verified,
         (verified = true → verification_passed self w)
         ∧ statuses db'
           = set_status (user_ident user) (if verified then "active" else "pending_secret")
               (statuses db)).

(** ** Scenarios *)

Definition unverified_bot : AssignmentBot := mkBot (mkConfig {[ 1 ]} None) None.

Definition world_refusing : World :=
  mkWorld "2025-01-01T00:00:00Z" (VerifyResponse 401 "Unauthorized")
    (true, None, thirteen) (true, None) (true, None, None)
    (true, Some "CUST-0001", None) false false.

Definition world_unreachable : World :=
  mkWorld "2025-01-01T00:00:00Z" (VerifyRaised "connection refused")
    (true, None, thirteen) (true, None) (true, None, None)
    (true, Some "CUST-0001", None) false false.

Definition world_thirteen : World :=
  mkWorld "2025-01-01T00:00:00Z" (VerifyResponse 200 "")
    (true, None, thirteen) (true, None) (true, None, None)
    (true, Some "CUST-0001", None) false false.

Definition administrator : User := mkUser 1 None (Some "Admin") None false.
Definition manager : User := mkUser 111 None (Some "Ali") None false.
Definition manager_chat : Chat := mkChat 111 PRIVATE None.
Definition group_555 : Chat := mkChat 555 GROUP (Some "Savdo").
Definition group_777 : Chat := mkChat 777 GROUP (Some "Ombor").

Definition says (chat : Chat) (text : string) : option Message :=
  Some (mkMessage chat (Some text)).

Definition presses (user : User) (chat : Chat) (data : string) : option CallbackQuery :=
  Some (mkQuery (Some user) (Some data) (Some (mkMessage chat None))).

(** The manager starts the bot, is assigned to group 555 and sends a key. *)
Definition until_pending_secret (w : World) : list (World * Update) :=
  [(w, start (Some manager_chat) (Some manager));
   (w, assign_callback (presses administrator group_555 "assign_sm:555:111"));
   (w, private_message (says manager_chat "3739e78cec4e139") (Some manager))].

(** The manager becomes active in group 777 and drafts an item there up
    to the group stage; the administrator clears the assignments and assigns
    the manager to group 555, where the manager becomes active again. *)
Definition until_draft_elsewhere : list (World * Update) :=
  let w := world_thirteen in
  [(w, start (Some manager_chat) (Some manager));
   (w, assign_callback (presses administrator group_777 "assign_sm:777:111"));
   (w, private_message (says manager_chat "3739e78cec4e139") (Some manager));
   (w, private_message (says manager_chat "2a428d03deaceb8") (Some manager));
   (w, new_item (Some group_777) (Some manager) (says group_777 "/new"));
   (w, group_activity (Some group_777) (Some manager) (says group_777 "ITEM-001"));
   (w, group_activity (Some group_777) (Some manager) (says group_777 "Widget"));
   (w, clear_assignments (Some group_777) (Some administrator) (says group_777 "/clear"));
   (w, assign_callback (presses administrator group_555 "assign_sm:555:111"));
   (w, private_message (says manager_chat "3739e78cec4e139") (Some manager));
   (w, private_message (says manager_chat "2a428d03deaceb8") (Some manager))].

(** A message to [chat] that contains [detail]. *)
Definition detail_sent_to (chat : Z) (detail : string) (outs : list Out) : Prop :=
  ∃ text, send_message chat text ∈ outs ∧ Py.contains text detail = true.

(** * Configuration and read-only handlers *)

(** ** [config.py]: reading the configuration from the environment *)

Module Config.

(** [a or b] for two [Optional[str]]. *)
Definition or_opt (a b : option string) : option string :=
  if Py.truthy_opt a then a else b.

(** [s.rstrip("/")] *)
Fixpoint rstrip_slash (s : string) : string :=
  match s with
  | EmptyString => EmptyString
  | String c s' =>
      match rstrip_slash s' with
      | EmptyString => if Ascii.eqb c "/" then EmptyString else String c EmptyString
      | r => String c r
      end
  end.

(** [s.split(",")]: no more pieces than characters plus one. *)
Definition split_commas (s : string) : list string :=
  Py.split_sep "," (String.length s) s.

Definition _parse_int_set (raw : string) : gset Z :=
  if negb (Py.truthy raw) then ∅
  else
    foldl (λ (result : gset Z) chunk,
             let chunk := Py.strip chunk in
             if negb (Py.truthy chunk) then result
             else
               match Py.int chunk with
               | Some n => result ∪ {[ n ]}
               | None => result
               end)
          ∅ (split_commas raw).

(** An item of a JSON array as [_parse_fields] looks at it: a string or
    something else. *)
Inductive json :=
| JString (s : string)
| JOther.

Inductive error :=
| RuntimeError (msg : string).

(** What the host answers: [json.loads] of a text that starts with a
    bracket, the items of the array or [None] for [JSONDecodeError]; and
    [Path(p).expanduser()], which raises [RuntimeError] when the home
    directory cannot be determined. *)
Record Host := mkHost {
  json_loads : string → option (list json);
  expanduser : string → error + string }.

Definition _parse_fields (host : Host) (raw : option string) : list string :=
  if negb (Py.truthy_opt raw) then []
  else
    let value := Py.strip (default "" raw) in
    if negb (Py.truthy value) then []
    else if Py.startswith value "[" then
      match json_loads host value with
      | None => []
      | Some data => omap (λ item, match item with JString s => Some s | JOther => None end) data
      end
    else
      omap (λ part, if Py.truthy (Py.strip part) then Some (Py.strip part) else None)
           (split_commas value).

Definition DEFAULT_DB_PATH : string := "assignment_bot.sqlite3".

(** The dataclass with all its fields; the handlers read [admin_ids] and
    [erpnext_base_url]. *)
Record AssignmentBotConfig := mk {
  token : string;
  admin_ids : gset Z;
  db_path : string;
  bot_name : string;
  erpnext_base_url : option string;
  erpnext_verify_endpoint : string;
  report_resource : string;
  report_fields : list string;
  report_limit : Z;
  default_customer_group : string;
  default_customer_type : string }.

(** [source.get(key, default).strip() or default] *)
Definition stripped_or (source : gmap string string) (key fallback : string) : string :=
  let v := Py.strip (default fallback (source !! key)) in
  if Py.truthy v then v else fallback.

Definition load_assignment_config (host : Host) (source : gmap string string)
    : error + AssignmentBotConfig :=
  let token :=
    or_opt (source !! "ASSIGNMENT_BOT_TOKEN")
      (or_opt (source !! "TELEGRAM_BOT_TOKEN") (source !! "BOT_TOKEN")) in
  if negb (Py.truthy_opt token) then
    inl (RuntimeError "ASSIGNMENT_BOT_TOKEN (or TELEGRAM_BOT_TOKEN) is required.")
  else
    let admin_values :=
      Py.or_else
        (or_opt (source !! "ASSIGNMENT_ADMIN_IDS")
           (or_opt (source !! "ASSIGNMENT_ADMIN_ID")
              (or_opt (source !! "TELEGRAM_ADMIN_IDS")
                 (or_opt (source !! "BOT_ADMIN_ID") (source !! "ADMIN_USER_ID")))))
        "" in
    let admin_ids := _parse_int_set admin_values in
    if bool_decide (admin_ids = ∅) then
      inl (RuntimeError
             "At least one admin ID is required (set ASSIGNMENT_ADMIN_ID or ASSIGNMENT_ADMIN_IDS).")
    else
      let db_path_value := source !! "ASSIGNMENT_BOT_DB_PATH" in
      match
        (if Py.truthy_opt db_path_value then expanduser host (default "" db_path_value)
         else inr DEFAULT_DB_PATH)
      with
      | inl e => inl e
      | inr db_path =>
          let bot_name := stripped_or source "ASSIGNMENT_BOT_NAME" "assignment_bot" in
          let erpnext_base :=
            or_opt (source !! "ERPVERIFY_BASE_URL") (source !! "ERP_NEXT_BASE_URL") in
          let erpnext_base :=
            if Py.truthy_opt erpnext_base
            then Some (rstrip_slash (Py.strip (default "" erpnext_base)))
            else None in
          let report_fields := _parse_fields host (source !! "REPORT_FIELDS") in
          let report_fields :=
            match report_fields with
            | [] => ["name"; "owner"; "status"; "creation"]
            | _ => report_fields
            end in
          let report_limit_raw := source !! "REPORT_LIMIT" in
          let report_limit :=
            if Py.truthy_opt report_limit_raw then
              match Py.int (default "" report_limit_raw) with
              | Some n => Z.max 1 n
              | None => 5
              end
            else 5 in
          let customer_group := Py.or_else (source !! "ERP_CUSTOMER_GROUP") "Commercial" in
          let customer_type := Py.or_else (source !! "ERP_CUSTOMER_TYPE") "Company" in
          inr (mk (default "" token) admin_ids db_path bot_name erpnext_base
                 (stripped_or source "ERPVERIFY_ENDPOINT"
                    "/api/method/frappe.auth.get_logged_user")
                 (stripped_or source "REPORT_RESOURCE" "Lead")
                 report_fields report_limit
                 (let g := Py.strip customer_group in if Py.truthy g then g else "Commercial")
                 (let t := Py.strip customer_type in if Py.truthy t then t else "Company"))
      end.

(** [override_env_for_tests] *)
Definition override_env_for_tests (env : gmap string string) (token : string)
    (admin_id : Z) (db_path : option string) : gmap string string :=
  let env := <["ASSIGNMENT_BOT_TOKEN":=token]> env in
  let env := <["ASSIGNMENT_ADMIN_ID":=Py.str admin_id]> env in
  match db_path with
  | Some p => <["ASSIGNMENT_BOT_DB_PATH":=p]> env
  | None => env
  end.

End Config.

(** The part of the configuration that the handlers read. *)
Definition bot_config (c : Config.AssignmentBotConfig) : AssignmentBotConfig :=
  mkConfig (Config.admin_ids c) (Config.erpnext_base_url c).

(** ** [bot.py]: handlers that only read the store *)

Definition handle_status (self : AssignmentBot) (w : World)
    (chat : option Chat) (user : option User) (message : option Message) : handler unit :=
  match chat, user, message with
  | Some chat, Some user, Some message =>
      let reply text := send (reply_text (message_chat_id message) text None) in
      if is_group (chat_type chat) then
        assignment ← call (Storage.get_group_assignment (chat_ident chat));
        match assignment with
        | None => reply "Hali sales manager tayinlanmagan."
        | Some assignment =>
            let label := _format_assignment_label assignment in
            let status := Py.or_else (credentials_status assignment) "pending_key" in
            let customer := Py.or_else (customer_docname assignment) "yaratilmagan" in
            reply ("Guruh: "
                   +:+ (if Py.truthy_opt (chat_title chat) then default "" (chat_title chat)
                        else Py.str (chat_ident chat)) +:+ nl
                   +:+ "Sales Manager: " +:+ label +:+ nl
                   +:+ "API holati: " +:+ status +:+ nl
                   +:+ "Customer: " +:+ customer)
        end
      else
        assignment ← call (Storage.get_user_assignment (user_ident user));
        match assignment with
        | None => reply "Sizga hali guruh biriktirilmagan."
        | Some assignment =>
            let status := Py.or_else (credentials_status assignment) "pending_key" in
            let customer := Py.or_else (customer_docname assignment) "yaratilmagan" in
            reply ("Guruh: "
                   +:+ (if Py.truthy_opt (title assignment) then default "" (title assignment)
                        else Py.str (chat_id assignment)) +:+ nl
                   +:+ "API holati: " +:+ status +:+ nl
                   +:+ "Customer: " +:+ customer +:+ nl
                   +:+ "Customer yaratish uchun guruhda /new yoki API tasdiqlangach kuting.")
        end
  | _, _, _ => mret tt
  end.

Record InlineQuery := mkInlineQuery {
  inline_from_user : option User;
  inline_query_text : option string }.

Record InlineQueryResultArticle := mkArticle {
  article_id : string;
  article_title : string;
  input_message_content : string;
  article_description : string }.

(** The arguments of [inline_query.answer]. *)
Record InlineAnswer := mkInlineAnswer {
  answer_results : list InlineQueryResultArticle;
  cache_time : Z;
  is_personal : bool }.

Definition uom_article (idx : Z) (option : string) : InlineQueryResultArticle :=
  mkArticle ("uom-" +:+ Py.str idx) option option "Tanlash uchun tegishli tugmani bosing".

(** The loop of [handle_inline_query] over [enumerate(choices)] from [idx]
    on, with the results collected so far. *)
Fixpoint inline_results (query_text : string) (idx : Z) (choices : list string)
    (results : list InlineQueryResultArticle) : list InlineQueryResultArticle :=
  match choices with
  | [] => results
  | option :: rest =>
      if Py.truthy query_text && negb (Py.contains (Py.lower option) query_text)
      then inline_results query_text (idx + 1) rest results
      else
        let results := results ++ [uom_article idx option] in
        if (25 <=? length results)%nat then results
        else inline_results query_text (idx + 1) rest results
  end.

(** [handle_inline_query]: the answer that is sent, [None] when the handler
    returns without answering. *)
Definition handle_inline_query (inline_query : option InlineQuery)
    : conn (option InlineAnswer) :=
  match inline_query with
  | None => mret None
  | Some inline_query =>
      match inline_from_user inline_query with
      | None => mret None
      | Some user =>
          draft ← Storage.get_item_draft (user_ident user);
          let nothing := Some (mkInlineAnswer [] 5 true) in
          match draft with
          | None => mret nothing
          | Some draft =>
              if negb (draft_truthy draft) || bool_decide (stage draft ≠ Some "await_uom")
              then mret nothing
              else
                let choices := draft_choices draft "uoms" in
                match choices with
                | [] => mret nothing
                | _ =>
                    let query_text :=
                      Py.lower (Py.strip (Py.or_else (inline_query_text inline_query) "")) in
                    mret (Some (mkInlineAnswer (inline_results query_text 0 choices []) 0 true))
                end
          end
      end
  end.

(** * Vocabulary of the further properties *)

(** ** Numbers that SQLite stores *)

(** A number that fits SQLite's INTEGER, which is signed 64-bit: for any
    other number the binding of a statement raises [OverflowError]. *)
Definition int64 (n : Z) : bool :=
  (-9223372036854775808 <=? n) && (n <=? 9223372036854775807).

(** The numbers that a storage call binds to its statements. *)
Definition bound_numbers (op : Op) : list Z :=
  match op with
  | record_user _ i _ _ _ | record_private_user _ i _ _ _ | get_user i
  | get_user_assignment i => [i]
  | list_unassigned_users limit => [limit]
  | record_group_chat _ c _ | get_chat c | get_group_assignment c
  | store_customer_doc c _ => [c]
  | assign_sales_manager _ c u => [c; u]
  | store_api_key u _ | store_api_secret u _ _ | reset_credentials u
  | get_item_draft u | save_item_draft _ u _ | delete_item_draft u => [u]
  | reset_all | clear_all_assignments => []
  end.







(** ** Numbers as text *)

(** Every character of [s] satisfies [p]. *)
Fixpoint all_chars (p : ascii → bool) (s : string) : bool :=
  match s with
  | EmptyString => true
  | String c s' => p c && all_chars p s'
  end.

Definition is_digit (c : ascii) : bool :=
  match Py.digit_of c with Some _ => true | None => false end.

(** A character of the decimal text of an integer. *)
Definition is_sign_or_digit (c : ascii) : bool := is_digit c || Ascii.eqb c "-".

(** The value of a decimal numeral read from the left, after [acc]. *)
Fixpoint uval (acc : Z) (d : Decimal.uint) : Z :=
  match d with
  | Decimal.Nil => acc
  | Decimal.D0 l => uval (10 * acc + 0) l
  | Decimal.D1 l => uval (10 * acc + 1) l
  | Decimal.D2 l => uval (10 * acc + 2) l
  | Decimal.D3 l => uval (10 * acc + 3) l
  | Decimal.D4 l => uval (10 * acc + 4) l
  | Decimal.D5 l => uval (10 * acc + 5) l
  | Decimal.D6 l => uval (10 * acc + 6) l
  | Decimal.D7 l => uval (10 * acc + 7) l
  | Decimal.D8 l => uval (10 * acc + 8) l
  | Decimal.D9 l => uval (10 * acc + 9) l
  end.

(** ** Callback data of the choice keyboard *)

Definition no_colon (s : string) : bool := all_chars (λ c, negb (Ascii.eqb c ":")) s.

(** What a press of a button tells [handle_choice_callback]: the action,
    the chat, the user and the value of its callback data. *)
Definition button_target (b : InlineKeyboardButton) : option (string * Z * Z * string) :=
  callback_data b ≫= parse_choice_data.

(** What a button of a rendered keyboard is: a pick of an option of the
    list, or a move to a neighbouring page. *)
Definition rendered_button (kind : string) (choices : list string) (page chat_id user_id : Z)
    (b : InlineKeyboardButton) : Prop :=
  (∃ n option,
      button_target b = Some ("pick_" +:+ kind, chat_id, user_id, Py.str n)
      ∧ 0 ≤ n < Z.of_nat (length choices)
      ∧ choices !! Z.to_nat n = Some option
      ∧ button_text b = choice_label option)
  ∨ (∃ n,
      button_target b = Some ("page_" +:+ kind, chat_id, user_id, Py.str n)
      ∧ 0 ≤ n ≤ max_page choices
      ∧ (n = page - 1 ∨ n = page + 1)).

(** ** Writers of the credential columns *)

Definition user_assigned (db : Database) (u : Z) : Prop :=
  ∃ a, a ∈ tbl_assignments db ∧ assignments.user_id a = u.

(** The columns of an assignment row that the credential writers leave
    alone. *)
Definition assignment_frame (a : assignments.row) : Z * Z * string * option string :=
  (assignments.chat_id a, assignments.user_id a, assignments.assigned_at a,
   assignments.customer_docname a).

(** What every writer of the credential columns does for the user [u]:
    it raises exactly when the user has no assignment, and then changes
    nothing; otherwise it changes rows of that user only, and in them only
    the key, the secret and the status. *)
Definition credential_write (u : Z) (db : Database) (r : (exn + unit) * Database) : Prop :=
  (raises_AssignmentError r ↔ ¬ user_assigned db u)
  ∧ (raises_AssignmentError r → r.2 = db)
  ∧ (user_assigned db u →
       r.1 = inr tt
       ∧ tbl_users r.2 = tbl_users db
       ∧ tbl_chats r.2 = tbl_chats db
       ∧ tbl_item_drafts r.2 = tbl_item_drafts db
       ∧ assignment_frame <$> tbl_assignments r.2 = assignment_frame <$> tbl_assignments db
       ∧ filter (λ a, assignments.user_id a ≠ u) (tbl_assignments r.2)
         = filter (λ a, assignments.user_id a ≠ u) (tbl_assignments db)).

(** ** Exceptions of the storage methods *)

Definition error_of {A} (r : (exn + A) * Database) : option exn :=
  match r.1 with inl e => Some e | inr _ => None end.

(** The exception a storage call ends with, if any. *)
Definition raised (db : Database) (op : Op) : option exn :=
  match op with
  | record_user now i u f l => error_of (Storage.record_user now i u f l db)
  | record_private_user now i u f l => error_of (Storage.record_private_user now i u f l db)
  | get_user i => error_of (Storage.get_user i db)
  | list_unassigned_users limit => error_of (Storage.list_unassigned_users limit db)
  | record_group_chat now c t => error_of (Storage.record_group_chat now c t db)
  | get_chat c => error_of (Storage.get_chat c db)
  | get_group_assignment c => error_of (Storage.get_group_assignment c db)
  | get_user_assignment i => error_of (Storage.get_user_assignment i db)
  | assign_sales_manager now c u => error_of (Storage.assign_sales_manager now c u db)
  | store_api_key u k => error_of (Storage.store_api_key u k db)
  | store_api_secret u s v => error_of (Storage.store_api_secret u s v db)
  | reset_credentials u => error_of (Storage.reset_credentials u db)
  | reset_all => error_of (Storage.reset_all db)
  | clear_all_assignments => error_of (Storage.clear_all_assignments db)
  | get_item_draft u => error_of (Storage.get_item_draft u db)
  | save_item_draft now u s => error_of (Storage.save_item_draft now u s db)
  | delete_item_draft u => error_of (Storage.delete_item_draft u db)
  | store_customer_doc c d => error_of (Storage.store_customer_doc c d db)
  end.

(** The methods that check a condition of the assignment table. *)
Definition checks_assignment (op : Op) : bool :=
  match op with
  | assign_sales_manager _ _ _ | store_api_key _ _ | store_api_secret _ _ _
  | reset_credentials _ => true
  | _ => false
  end.

(** ** Keys and references of the tables *)

(** The primary keys of users, chats and item drafts. *)
Definition keys_unique (db : Database) : Prop :=
  NoDup (users.telegram_id <$> tbl_users db)
  ∧ NoDup (chats.chat_id <$> tbl_chats db)
  ∧ NoDup (item_drafts.user_id <$> tbl_item_drafts db).

(** The chat and the user of every assignment have a row. *)
Definition references_resolve (db : Database) : Prop :=
  chat_ids db ⊆ chats.chat_id <$> tbl_chats db
  ∧ user_ids db ⊆ users.telegram_id <$> tbl_users db.

Definition consistent (db : Database) : Prop :=
  keys_unique db ∧ one_to_one db ∧ references_resolve db.

(** What the store holds for an assignment row: a chat row and a user row
    that the lookups by chat and by user join it with. *)
Definition resolved (db : Database) (a : assignments.row) : Prop :=
  ∃ c u,
    c ∈ tbl_chats db ∧ chats.chat_id c = assignments.chat_id a
    ∧ u ∈ tbl_users db ∧ users.telegram_id u = assignments.user_id a
    ∧ Storage.get_group_assignment (assignments.chat_id a) db
      = (inr (Some (joined a c u)), db)
    ∧ Storage.get_user_assignment (assignments.user_id a) db
      = (inr (Some (joined a c u)), db).

(** ** Labels of a user *)

(** The candidate that an assignment names. *)
Definition manager_of (a : Assignment) (started_at : string) : Candidate :=
  mkCandidate (user_id a) (a_username a) (a_first_name a) (a_last_name a) started_at.

(** ** [load_assignment_config] *)

(** The value of the first of [keys] that is set to a non-empty text. *)
Fixpoint first_set (source : gmap string string) (keys : list string) : option string :=
  match keys with
  | [] => None
  | key :: keys =>
      match source !! key with
      | Some v => if Py.truthy v then Some v else first_set source keys
      | None => first_set source keys
      end
  end.

Definition token_keys : list string :=
  ["ASSIGNMENT_BOT_TOKEN"; "TELEGRAM_BOT_TOKEN"; "BOT_TOKEN"].

Definition admin_keys : list string :=
  ["ASSIGNMENT_ADMIN_IDS"; "ASSIGNMENT_ADMIN_ID"; "TELEGRAM_ADMIN_IDS"; "BOT_ADMIN_ID";
   "ADMIN_USER_ID"].

Fixpoint last_char (s : string) : option ascii :=
  match s with
  | EmptyString => None
  | String c EmptyString => Some c
  | String _ s' => last_char s'
  end.

(** What a configuration that was loaded always satisfies. *)
Definition well_configured (c : Config.AssignmentBotConfig) : Prop :=
  Config.token c ≠ ""
  ∧ Config.admin_ids c ≠ ∅
  ∧ 1 ≤ Config.report_limit c
  ∧ Config.report_fields c ≠ []
  ∧ Config.bot_name c ≠ ""
  ∧ Config.erpnext_verify_endpoint c ≠ ""
  ∧ Config.report_resource c ≠ ""
  ∧ Config.default_customer_group c ≠ ""
  ∧ Config.default_customer_type c ≠ ""
  ∧ (∀ url, Config.erpnext_base_url c = Some url → last_char url ≠ Some "/"%char).

(** The path of the database that the environment asks for cannot be
    expanded. *)
Definition db_path_fails (host : Config.Host) (source : gmap string string) : Prop :=
  ∃ p e, source !! "ASSIGNMENT_BOT_DB_PATH" = Some p ∧ p ≠ ""
         ∧ Config.expanduser host p = inl e.

(** [o] is what an [or] chain over [keys] gives, as far as truth goes. *)
Definition agrees (source : gmap string string) (keys : list string) (o : option string)
    : Prop :=
  Py.truthy_opt o = match first_set source keys with Some _ => true | None => false end
  ∧ (∀ v, first_set source keys = Some v → o = Some v).

(** ** No exception leaves a handler *)





(** ** Who can assign *)

(** The user an update comes from. *)
Definition sender (u : Update) : option User :=
  match u with
  | start _ user | group_activity _ user _ | new_item _ user _ | private_message _ user
  | reset_api _ user _ | assign_command _ user _ | clear_assignments _ user _ => user
  | assign_callback query | choice_callback query => query ≫= query_from_user
  end.

(** Which user manages which chat, in the order of the rows. *)
Definition assigned_pairs (db : Database) : list (Z * Z) :=
  (λ a, (assignments.chat_id a, assignments.user_id a)) <$> tbl_assignments db.

(** The storage calls that leave [assigned_pairs] alone. *)
Definition keeps_pairs (op : Op) : bool :=
  match op with
  | assign_sales_manager _ _ _ | reset_all | clear_all_assignments => false
  | _ => true
  end.

(** ** The keyboard of [/assign_manager] *)

(** The button that [handle_assign_command] makes for a candidate. *)
Definition assign_button (chat_id : Z) (candidate : Candidate) : InlineKeyboardButton :=
  mkButton (display_label candidate)
    (Some ("assign_sm:" +:+ Py.str chat_id +:+ ":" +:+ Py.str (telegram_id candidate)))
    None.

Definition manager_candidate : Candidate :=
  mkCandidate 111 None (Some "Ali") None "2025-01-01T00:00:00Z".

(** ** The answer to an inline query *)

(** [enumerate(choices)], counting from [idx]. *)
Fixpoint enumerate_from (idx : Z) (l : list string) : list (Z * string) :=
  match l with
  | [] => []
  | x :: l => (idx, x) :: enumerate_from (idx + 1) l
  end.

(** The options that the loop of [handle_inline_query] does not skip. *)
Definition inline_match (query_text option : string) : bool :=
  negb (Py.truthy query_text) || Py.contains (Py.lower option) query_text.

(** The options that [handle_inline_query] reads for a user: those of a
    draft that waits for the unit of measure. *)
Definition uoms_awaited (db : Database) (user_id : Z) : list string :=
  match Sql.fetchone (λ d, item_drafts.user_id d =? user_id) (tbl_item_drafts db) with
  | Some row =>
      if bool_decide (stage (item_drafts.state row) = Some "await_uom")
      then draft_choices (item_drafts.state row) "uoms" else []
  | None => []
  end.

Definition matching_articles (query_text : string) (choices : list string)
    : list InlineQueryResultArticle :=
  (λ p, uom_article p.1 p.2)
    <$> filter (λ p, inline_match query_text p.2 = true) (enumerate_from 0 choices).

(** ** [/status] *)

Definition no_manager_text : string := "Hali sales manager tayinlanmagan.".
Definition no_group_text : string := "Sizga hali guruh biriktirilmagan.".

(** ** The order of the unassigned users *)

(** [a] is listed before [b]: by the key of the query, and by the id, the
    order of the scan, when the keys are equal. *)
Definition listed_before (a b : users.row) : Prop :=
  key_le sort_key_in_words a b
  ∧ (key_le sort_key_in_words b a → users.telegram_id a ≤ users.telegram_id b).

(** Three users, recorded in this order: two with the same name and a
    third. *)
Definition three_users : Database :=
  foldl exec empty_database
    [record_user "2025-01-01T00:00:00Z" 5 None (Some "Ali") None;
     record_user "2025-01-02T00:00:00Z" 3 None (Some "Ali") None;
     record_user "2025-01-03T00:00:00Z" 4 None (Some "Bob") None].

(** ** Scenarios of the further properties *)

(** The store after the manager has started the bot. *)
Definition after_start : Database :=
  run demo_bot [(demo_world, start (Some manager_chat) (Some manager))].

(** The store after the manager has been assigned to group 555. *)
Definition after_assignment : Database :=
  run demo_bot (take 2 (until_pending_secret demo_world)).

Definition uom_prompt : string := (default ("", "") (CHOICE_CONFIG !! "uom")).2.

Definition draft_at_uom : Draft :=
  mkDraft (Some "await_uom") None (Some 555) (Some {[ "uoms" := ["Nos"; "Kg"] ]}) None.

Definition plain_host : Config.Host := Config.mkHost (λ _, None) (λ path, inr path).

(** * Properties *)

(** ** The string functions on examples *)

Example split_example :
  Py.split "  Toshkent   savdo guruhi Alfa " = ["Toshkent"; "savdo"; "guruhi"; "Alfa"].
Proof. reflexivity. Qed.

Example strip_example : Py.strip (String "009" " ab c  ") = "ab c".
Proof. reflexivity. Qed.

Example int_examples :
  Py.int "13" = Some 13 ∧ Py.int " -7 " = Some (-7) ∧ Py.int "1_000" = Some 1000
  ∧ Py.int "x" = None ∧ Py.int "" = None ∧ Py.int "1__0" = None
  ∧ Py.str 555 = "555" ∧ Py.str (-12) = "-12" ∧ Py.str 0 = "0".
Proof. repeat split; reflexivity. Qed.

Example split_sep_example :
  Py.split_sep ":" 3 "pick_uom:-555:111:1:2" = ["pick_uom"; "-555"; "111"; "1:2"].
Proof. reflexivity. Qed.

(** ** Invariants A and B *)

Ltac unfold_conn :=
  unfold _connection, mbind, mret, conn_bind, conn_ret, read, write, raise,
    insert_user, insert_chat, insert_assignment in *.

Lemma existsb_false_not_in {A} (f : A → Z) (k : Z) (l : list A) :
  existsb (λ x, f x =? k) l = false → k ∉ f <$> l.
Proof.
  induction l as [|x l IH]; simpl; [intros _; apply not_elem_of_nil|].
  intros [Hx Hl]%orb_false_elim. apply not_elem_of_cons. split; [lia | auto].
Qed.

Lemma update_keeps {A B} (p : A → bool) (f : A → A) (g : A → B) (t : list A) :
  (∀ r, g (f r) = g r) → g <$> ((λ r, if p r then f r else r) <$> t) = g <$> t.
Proof.
  intros Hg. rewrite <- list_fmap_compose.
  apply list_fmap_ext. intros _ r _. simpl. destruct (p r); auto.
Qed.

Lemma fetchone_None {A} (p : A → bool) (t : list A) :
  Sql.fetchone p t = None ↔ ∀ r, r ∈ t → p r = false.
Proof.
  unfold Sql.fetchone. rewrite head_None. split.
  - intros Hnil r Hr. destruct (p r) eqn:Hp; [|done].
    assert (r ∈ filter (λ r, p r = true) t) as Hin by (apply list_elem_of_filter; done).
    rewrite Hnil in Hin. by apply elem_of_nil in Hin.
  - intros Hall. induction t as [|r t IH]; [done|].
    rewrite filter_cons_False; [|rewrite (Hall r); [done|left]].
    apply IH. intros r' Hr'. apply Hall. by right.
Qed.

Lemma fetchone_Some {A} (p : A → bool) (t : list A) r :
  Sql.fetchone p t = Some r → r ∈ t ∧ p r = true.
Proof.
  unfold Sql.fetchone. intros Hh. apply head_Some_elem_of in Hh.
  by apply list_elem_of_filter in Hh as [? ?].
Qed.

Lemma assign_sales_manager_eq now chat_id user_id db :
  Storage.assign_sales_manager now chat_id user_id db =
    match Sql.fetchone (λ u, users.telegram_id u =? user_id) (tbl_users db) with
    | None =>
        (inl (AssignmentError "Foydalanuvchi botga shaxsiy chatda /start yubormagan."), db)
    | Some _ =>
        match Sql.fetchone (λ a, assignments.chat_id a =? chat_id) (tbl_assignments db) with
        | Some _ =>
            (inl (AssignmentError "Bu guruh uchun sales manager allaqachon tanlangan."), db)
        | None =>
            match Sql.fetchone (λ a, assignments.user_id a =? user_id) (tbl_assignments db) with
            | Some _ =>
                (inl (AssignmentError
                   "Bu foydalanuvchi boshqa guruhda sales manager sifatida tayinlangan."), db)
            | None =>
                (inr tt,
                 set_assignments
                   (tbl_assignments db ++ [new_assignment now chat_id user_id])
                   (with_chat now chat_id db))
            end
        end
    end.
Proof.
  unfold Storage.assign_sales_manager, with_chat. unfold_conn.
  destruct (Sql.fetchone _ (tbl_chats db)) as [c|] eqn:Hc; simpl.
  - destruct (Sql.fetchone _ (tbl_users db)) as [u|] eqn:Hu; simpl; [|done].
    destruct (Sql.fetchone (λ a, assignments.chat_id a =? chat_id) _) as [g|] eqn:Hg;
      simpl; [done|].
    destruct (Sql.fetchone (λ a, assignments.user_id a =? user_id) _) as [x|] eqn:Hx;
      simpl; [done|].
    rewrite fetchone_None in Hg. rewrite fetchone_None in Hx.
    destruct (existsb _ _) eqn:E1.
    { apply existsb_exists in E1 as (r & Hr%list_elem_of_In & Hp). by rewrite (Hg r Hr) in Hp. }
    destruct (existsb (λ x, assignments.user_id x =? user_id) _) eqn:E2.
    { apply existsb_exists in E2 as (r & Hr%list_elem_of_In & Hp). by rewrite (Hx r Hr) in Hp. }
    done.
  - assert (existsb (λ x, chats.chat_id x =? chat_id) (tbl_chats db) = false) as ->.
    { rewrite fetchone_None in Hc. apply not_true_is_false. intros E.
      apply existsb_exists in E as (r & Hr%list_elem_of_In & Hp). by rewrite (Hc r Hr) in Hp. }
    simpl.
    destruct (Sql.fetchone _ (tbl_users db)) as [u|] eqn:Hu; simpl; [|done].
    destruct (Sql.fetchone (λ a, assignments.chat_id a =? chat_id) _) as [g|] eqn:Hg;
      simpl; [done|].
    destruct (Sql.fetchone (λ a, assignments.user_id a =? user_id) _) as [x|] eqn:Hx;
      simpl; [done|].
    rewrite fetchone_None in Hg. rewrite fetchone_None in Hx.
    destruct (existsb _ _) eqn:E1.
    { apply existsb_exists in E1 as (r & Hr%list_elem_of_In & Hp). by rewrite (Hg r Hr) in Hp. }
    destruct (existsb (λ x, assignments.user_id x =? user_id) _) eqn:E2.
    { apply existsb_exists in E2 as (r & Hr%list_elem_of_In & Hp). by rewrite (Hx r Hr) in Hp. }
    done.
Qed.

Lemma fetchone_None_not_in {A} (f : A → Z) (k : Z) (l : list A) :
  Sql.fetchone (λ x, f x =? k) l = None → k ∉ f <$> l.
Proof.
  rewrite fetchone_None. intros Hall (r & -> & Hr)%list_elem_of_fmap.
  specialize (Hall r Hr). lia.
Qed.

Lemma exec_keys db op :
  (chat_ids (exec db op) = chat_ids db ∧ user_ids (exec db op) = user_ids db)
  ∨ tbl_assignments (exec db op) = []
  ∨ ∃ r, (assignments.chat_id r ∉ chat_ids db) ∧ (assignments.user_id r ∉ user_ids db)
         ∧ tbl_assignments (exec db op) = tbl_assignments db ++ [r].
Proof.
  destruct op; simpl.
  all: try (left; unfold Storage.record_user, Storage.record_private_user, Storage.record_user,
      Storage.get_user, Storage.list_unassigned_users, Storage.record_group_chat, Storage.get_chat,
      Storage.get_group_assignment, Storage.get_user_assignment, Storage.get_item_draft,
      Storage.save_item_draft, Storage.delete_item_draft; unfold_conn;
      repeat case_match; simplify_eq/=; done).
  - rewrite assign_sales_manager_eq.
    repeat (case_match; simplify_eq/=); try (left; done).
    right; right. eexists. split_and!; [| |reflexivity]; simpl.
    + by apply fetchone_None_not_in.
    + by apply fetchone_None_not_in.
  - left. unfold Storage.store_api_key, Storage.update_assignment_of_user. unfold_conn.
    repeat (case_match; simplify_eq/=); try done;
      unfold chat_ids, user_ids; simpl; split; by apply update_keeps.
  - left. unfold Storage.store_api_secret, Storage.update_assignment_of_user. unfold_conn.
    repeat (case_match; simplify_eq/=); try done;
      unfold chat_ids, user_ids; simpl; split; by apply update_keeps.
  - left. unfold Storage.reset_credentials, Storage.update_assignment_of_user. unfold_conn.
    repeat (case_match; simplify_eq/=); try done;
      unfold chat_ids, user_ids; simpl; split; by apply update_keeps.
  - right; left. reflexivity.
  - right; left. reflexivity.
  - left. unfold chat_ids, user_ids; simpl. split; by apply update_keeps.
Qed.

Lemma exec_one_to_one db op : one_to_one db → one_to_one (exec db op).
Proof.
  intros [Hc Hu]. destruct (exec_keys db op) as [[Ec Eu]|[E|(r & Hrc & Hru & E)]].
  - split; congruence.
  - unfold one_to_one, chat_ids, user_ids. rewrite E. split; constructor.
  - unfold one_to_one, chat_ids, user_ids in *. rewrite E, !fmap_app. simpl.
    split; apply NoDup_app; (split_and!; [done| |apply NoDup_singleton]);
      intros x Hx ->%list_elem_of_singleton; done.
Qed.

(** C1: after every sequence of storage operations run from the empty
    store, no two rows of the assignments table have the same chat id and
    no two have the same user id. *)
Theorem one_to_one_always (ops : list Op) : one_to_one (foldl exec empty_database ops).
Proof.
  induction ops as [|op ops IH] using rev_ind.
  - split; constructor.
  - rewrite foldl_app. simpl. by apply exec_one_to_one.
Qed.

(** ** Assigning a sales manager *)

Lemma fetchone_is_Some {A} (p : A → bool) (t : list A) :
  is_Some (Sql.fetchone p t) ↔ ∃ r, r ∈ t ∧ p r = true.
Proof.
  split.
  - intros [r Hr]. exists r. by apply fetchone_Some.
  - intros (r & Hr & Hp). destruct (Sql.fetchone p t) eqn:E; [done|].
    rewrite fetchone_None in E. rewrite (E r Hr) in Hp. done.
Qed.

(** C2: [assign_sales_manager] raises [AssignmentError] if and only if, in
    the store it is called on, the user has no row in the users table, or
    the chat has an assignment, or the user has an assignment of another
    chat; when it raises, the store after the call is the store before it
    (the chat row it inserted is rolled back); and it never ends in an
    integrity error of the tables. *)
Theorem assign_sales_manager_raises now c u db :
  let r := Storage.assign_sales_manager now c u db in
  (raises_AssignmentError r ↔
     ¬ user_recorded db u ∨ chat_assigned db c ∨ user_assigned_elsewhere db u c)
  ∧ (raises_AssignmentError r → r.2 = db)
  ∧ (∀ msg, r.1 ≠ inl (IntegrityError msg)).
Proof.
  intros r. subst r. rewrite assign_sales_manager_eq.
  destruct (Sql.fetchone _ (tbl_users db)) as [ur|] eqn:Hu.
  2:{ (split; [|split; [by intros _|by intros msg]]). split; [|intros _; by eexists].
      intros _. left. intros (r & Hr & Hid). rewrite fetchone_None in Hu.
      specialize (Hu r Hr). simpl in Hu. lia. }
  assert (user_recorded db u) as Hrec.
  { apply fetchone_Some in Hu as [? ?]. exists ur. split; [done|lia]. }
  destruct (Sql.fetchone (λ a, assignments.chat_id a =? c) _) as [g|] eqn:Hg.
  { (split; [|split; [by intros _|by intros msg]]). split; [|intros _; by eexists].
    intros _. right; left. apply fetchone_Some in Hg as [? ?]. exists g. split; [done|lia]. }
  destruct (Sql.fetchone (λ a, assignments.user_id a =? u) _) as [x|] eqn:Hx.
  { (split; [|split; [by intros _|by intros msg]]). split; [|intros _; by eexists].
    intros _. right; right. apply fetchone_Some in Hx as [Hin ?]. exists x.
    split_and!; [done|lia|]. intros Hc. rewrite fetchone_None in Hg.
    specialize (Hg x Hin). simpl in Hg. lia. }
  assert (∀ d, ¬ raises_AssignmentError (inr tt : exn + unit, d)) as Hno.
  { intros d [msg Hmsg]. simpl in Hmsg. discriminate. }
  split; [|split].
  2:{ intros H. by apply Hno in H. }
  2:{ intros msg. simpl. discriminate. }
  split; [intros H; by apply Hno in H|].
  rewrite fetchone_None in Hg. rewrite fetchone_None in Hx.
  intros [Hn|[(a & Ha & Hc)|(a & Ha & Hau & _)]].
  - done.
  - specialize (Hg a Ha). simpl in Hg. lia.
  - specialize (Hx a Ha). simpl in Hx. lia.
Qed.

(** The statements of the block do change the working copy before the
    exception: without the rollback the chat row of the failed call would
    stay. *)
Example assign_rollback_needed :
  let body := (insert_chat (chats.mk 555 None "t" "t");;
               raise (AssignmentError "x") : conn unit) in
  tbl_chats (body empty_database).2 = [chats.mk 555 None "t" "t"]
  ∧ tbl_chats (_connection body empty_database).2 = [].
Proof. done. Qed.

(** ** Clearing the assignments *)

Lemma assignment_join_nil p db : tbl_assignments db = [] → assignment_join p db = [].
Proof. unfold assignment_join. intros ->. done. Qed.

(** C8: [clear_all_assignments] returns normally, leaves no row in the
    assignments table and leaves the users, chats and item drafts tables
    as they were; afterwards [get_group_assignment] and
    [get_user_assignment] return [None] for every chat and every user, and
    [get_user] returns for every id what it returned before. *)
Theorem clear_all_assignments_frame db :
  let r := Storage.clear_all_assignments db in
  r.1 = inr tt
  ∧ tbl_assignments r.2 = []
  ∧ tbl_users r.2 = tbl_users db
  ∧ tbl_chats r.2 = tbl_chats db
  ∧ tbl_item_drafts r.2 = tbl_item_drafts db
  ∧ (∀ c, (Storage.get_group_assignment c r.2).1 = inr None)
  ∧ (∀ u, (Storage.get_user_assignment u r.2).1 = inr None)
  ∧ (∀ u, (Storage.get_user u r.2).1 = (Storage.get_user u db).1).
Proof. simpl. split_and!; done. Qed.

(** ** Listing the unassigned users *)

Lemma string_leb_total (a b : string) : String.leb a b = true ∨ String.leb b a = true.
Proof. destruct (String.leb_total a b); auto. Qed.

Lemma string_leb_trans (a b c : string) :
  String.leb a b = true → String.leb b c = true → String.leb a c = true.
Proof.
  intros H1%Is_true_true H2%Is_true_true. apply Is_true_true.
  exact (transitivity (R:=String.le) H1 H2).
Qed.

Lemma sql_leb_total (x y : Sql.value) : Sql.leb x y = true ∨ Sql.leb y x = true.
Proof.
  destruct x, y; simpl; auto.
  - destruct (Z.leb_spec n n0); [auto|right; lia].
  - apply string_leb_total.
Qed.

Global Instance sql_le_trans : Transitive Sql.le.
Proof.
  intros x y z. unfold Sql.le. destruct x, y, z; simpl; try done.
  - lia.
  - apply string_leb_trans.
Qed.

Section OrderBy.
Context {A : Type} (key : A → Sql.value).

Lemma insert_row_perm r l : Sql.insert_row key r l ≡ₚ r :: l.
Proof.
  induction l as [|x l IH]; simpl; [done|].
  destruct (Sql.leb (key r) (key x)); [done|].
  rewrite IH. apply Permutation_swap.
Qed.

Lemma order_by_perm l : Sql.order_by key l ≡ₚ l.
Proof.
  induction l as [|x l IH]; simpl; [done|].
  unfold Sql.order_by in *. simpl. by rewrite insert_row_perm, IH.
Qed.

Lemma insert_row_sorted r l :
  StronglySorted (key_le key) l → StronglySorted (key_le key) (Sql.insert_row key r l).
Proof.
  induction 1 as [|x l Hl IH Hx]; simpl.
  - repeat constructor.
  - destruct (Sql.leb (key r) (key x)) eqn:E.
    + constructor; [by constructor|]. constructor; [exact E|].
      eapply Forall_impl; [exact Hx|]. intros y Hy.
      unfold key_le in *. by etrans.
    + constructor; [exact IH|].
      rewrite insert_row_perm. constructor; [|exact Hx].
      destruct (sql_leb_total (key r) (key x)) as [E'|E']; [congruence|exact E'].
Qed.

Lemma order_by_sorted l : StronglySorted (key_le key) (Sql.order_by key l).
Proof.
  induction l as [|x l IH]; [constructor|].
  unfold Sql.order_by in *. simpl. by apply insert_row_sorted.
Qed.

Lemma take_sorted n l : StronglySorted (key_le key) l → StronglySorted (key_le key) (take n l).
Proof.
  intros H. rewrite <- (take_drop n l) in H. by apply StronglySorted_app_1_l in H.
Qed.

End OrderBy.

Lemma order_key_in_words u : Storage.order_key u = sort_key_in_words u.
Proof.
  unfold Storage.order_key, sort_key_in_words.
  destruct u as [i [n|] [f|] [l|] s t]; simpl; try done.
  all: destruct (Sql.rtrim _) eqn:E; simpl; done.
Qed.

Lemma unassigned_iff db u :
  Storage.unassigned db u = true ↔
  ¬ ∃ a, a ∈ tbl_assignments db ∧ assignments.user_id a = users.telegram_id u.
Proof.
  unfold Storage.unassigned. rewrite negb_true_iff. split.
  - intros E (a & Ha & Hau). apply not_true_iff_false in E. apply E.
    apply existsb_exists. exists a. split; [by apply list_elem_of_In|lia].
  - intros Hn. apply not_true_is_false. intros (a & Ha%list_elem_of_In & E)%existsb_exists.
    apply Hn. exists a. split; [done|lia].
Qed.

Lemma StronglySorted_weaken {A} (R R' : relation A) (l : list A) :
  (∀ a b, R a b → R' a b) → StronglySorted R l → StronglySorted R' l.
Proof.
  intros HR. induction 1 as [|x l Hl IH Hx]; constructor; [done|].
  eapply Forall_impl; [exact Hx|]. intros y. apply HR.
Qed.

(** C9, as stated, fails: the user whose display label is Alice is listed
    after the user whose display label is Bob, because without a first name
    the query sorts by the username. *)
Lemma list_unassigned_users_not_by_label :
  let alice := mkCandidate 1 (Some "zed") None (Some "Alice") "2025-01-01T00:00:00Z" in
  let bob := mkCandidate 2 None (Some "Bob") None "2025-01-01T00:00:00Z" in
  (Storage.list_unassigned_users 25 two_candidates).1 = inr [bob; alice]
  ∧ display_label alice = "Alice"
  ∧ display_label bob = "Bob"
  ∧ ¬ by_display_label [bob; alice].
Proof.
  cbv zeta. split_and!; [vm_compute; reflexivity|reflexivity..|].
  intros H. apply StronglySorted_inv in H as [_ H].
  apply Forall_cons in H as [H _]. vm_compute in H. exact H.
Qed.

(** ** The customer name *)

Lemma split_words s : Forall word (Py.split s).
Proof.
  induction s as [|c s IH]; simpl; [constructor|].
  destruct (Py.isspace c) eqn:Ec; [exact IH|].
  destruct s as [|c' s']; [repeat constructor; simpl; by rewrite ?Ec|].
  destruct (Py.isspace c') eqn:Ec'.
  - constructor; [|exact IH]. split; [simpl; by rewrite Ec|done].
  - destruct (Py.split (String c' s')) as [|w ws] eqn:Es.
    + repeat constructor; simpl; by rewrite ?Ec.
    + apply Forall_cons in IH as [[Hw _] Hws]. constructor; [|exact Hws].
      split; [simpl; by rewrite Ec, Hw|done].
Qed.

Lemma split_nil_strip s : Py.split s = [] ↔ Py.strip s = "".
Proof.
  unfold Py.strip. induction s as [|c s IH]; simpl; [done|].
  destruct (Py.isspace c) eqn:Ec; [exact IH|]. simpl. rewrite Ec. split.
  - destruct s as [|c' s']; [done|]. destruct (Py.isspace c'); [done|].
    by destruct (Py.split (String c' s')).
  - by destruct (Py.rstrip s).
Qed.

Lemma append_nil_l (b : string) : "" +:+ b = b.
Proof. reflexivity. Qed.

Lemma append_cons (c : ascii) (a b : string) : String c a +:+ b = String c (a +:+ b).
Proof. reflexivity. Qed.

Lemma append_nil_r (a : string) : a +:+ "" = a.
Proof. induction a; rewrite ?append_nil_l, ?append_cons; [done|by f_equal]. Qed.

Lemma append_assoc (a b c : string) : (a +:+ b) +:+ c = a +:+ (b +:+ c).
Proof. induction a; rewrite ?append_nil_l, ?append_cons; [done|by f_equal]. Qed.

Lemma rstrip_app_fixed a b : b ≠ "" → Py.rstrip b = b → Py.rstrip (a +:+ b) = a +:+ b.
Proof.
  intros Hb Hfix. induction a as [|c a IH]; rewrite ?append_nil_l, ?append_cons; [done|].
  simpl. rewrite IH. destruct (a +:+ b) eqn:E; [|done].
  destruct a; rewrite ?append_nil_l, ?append_cons in E; [by subst|done].
Qed.

Lemma rstrip_word w : word w → Py.rstrip w = w.
Proof.
  intros [Hw _]. induction w as [|c w IH]; simpl; [done|].
  simpl in Hw. apply andb_true_iff in Hw as [Hc Hw]. rewrite (IH Hw).
  destruct w; [|done]. by destruct (Py.isspace c).
Qed.

Lemma lstrip_word_app w s : word w → Py.lstrip (w +:+ s) = w +:+ s.
Proof.
  intros [Hw Hne]. destruct w as [|c w]; [done|]. rewrite append_cons. simpl in *.
  apply andb_true_iff in Hw as [Hc _]. by destruct (Py.isspace c).
Qed.

Lemma join_cons_cons sep w w' ws :
  Py.join sep (w :: w' :: ws) = w +:+ sep +:+ Py.join sep (w' :: ws).
Proof. reflexivity. Qed.

Lemma join_words_nonempty w ws : word w → Py.join " " (w :: ws) ≠ "".
Proof.
  intros [_ Hne]. destruct w; [done|]. destruct ws; [done|].
  rewrite join_cons_cons, append_cons. done.
Qed.

Lemma strip_join_words ws : Forall word ws → Py.strip (Py.join " " ws) = Py.join " " ws.
Proof.
  intros Hws. unfold Py.strip.
  assert (Py.lstrip (Py.join " " ws) = Py.join " " ws) as ->.
  { destruct Hws as [|w ws Hw Hws]; [done|].
    destruct ws; [|rewrite join_cons_cons; by apply lstrip_word_app].
    simpl. rewrite <- (append_nil_r w). by apply lstrip_word_app. }
  induction Hws as [|w ws Hw Hws IH]; [done|].
  destruct ws as [|w' ws]; [by apply rstrip_word|].
  rewrite join_cons_cons, <- append_assoc.
  apply rstrip_app_fixed; [|exact IH].
  apply Forall_cons in Hws as [Hw' _]. by apply join_words_nonempty.
Qed.

(** C10 (amended): the customer name is the tokens of the chat title after
    the first two, joined by single spaces, when the title has more than
    two whitespace-separated tokens; the title without its leading and
    trailing whitespace when it has one or two tokens; and the synthetic
    name [Auto Customer <chat id>] only when the title is absent, empty or
    all whitespace. *)
Theorem derive_customer_name_cases (title : option string) (chat_id : Z) :
  _derive_customer_name title chat_id =
    match title, Py.split (default "" title) with
    | Some t, _ :: _ :: ((_ :: _) as rest) => Py.join " " rest
    | Some t, _ :: _ => Py.strip t
    | _, _ => "Auto Customer " +:+ Py.str chat_id
    end.
Proof.
  unfold _derive_customer_name. destruct title as [t|]; [|done]. simpl.
  destruct (Py.truthy t) eqn:Et; [|by destruct t].
  pose proof (split_words t) as Hw. pose proof (split_nil_strip t) as Hnil.
  destruct (Py.split t) as [|w1 [|w2 [|w3 ws]]] eqn:Es.
  4:{ assert ((2 <? length (w1 :: w2 :: w3 :: ws))%nat = true) as -> by reflexivity.
      change (drop 2 (w1 :: w2 :: w3 :: ws)) with (w3 :: ws).
      do 2 apply Forall_cons in Hw as [_ Hw].
      rewrite (strip_join_words _ Hw).
      destruct (Py.join " " (w3 :: ws)) eqn:E; [|done].
      apply Forall_cons in Hw as [Hw3 _]. by apply join_words_nonempty in E. }
  all: simpl.
  - rewrite (proj1 Hnil eq_refl). done.
  - destruct (Py.strip t) eqn:E; [|done]. destruct Hnil as [_ Hnil]. by specialize (Hnil eq_refl).
  - destruct (Py.strip t) eqn:E; [|done]. destruct Hnil as [_ Hnil]. by specialize (Hnil eq_refl).
Qed.

(** C10, as stated, fails: a title of two tokens is used as it is, not
    replaced by the synthetic name. *)
Lemma derive_customer_name_two_tokens :
  Py.split "Acme Corp" = ["Acme"; "Corp"]
  ∧ _derive_customer_name (Some "Acme Corp") 555 = "Acme Corp"
  ∧ "Acme Corp" ≠ "Auto Customer " +:+ Py.str 555.
Proof. split_and!; [reflexivity..|]. vm_compute. discriminate. Qed.

(** ** Free-text answers at a choice stage *)

Lemma eqb_lower_ne a b : String.eqb (Py.lower a) (Py.lower b) = false → Py.lower a ≠ Py.lower b.
Proof. by intros ?%String.eqb_neq. Qed.

Lemma first_match_Some t l selected :
  first_match t l = Some selected → first_equal_ignoring_case t l selected.
Proof.
  induction l as [|o l IH]; simpl; [done|].
  destruct (String.eqb (Py.lower o) (Py.lower t)) eqn:E.
  - intros [= ->]. exists [], l. split_and!; [done|by apply String.eqb_eq|].
    intros o' Ho'. by apply elem_of_nil in Ho'.
  - intros (before & after & -> & Hs & Hb)%IH. exists (o :: before), after.
    split_and!; [done|done|].
    intros o' [->|Ho']%elem_of_cons; [by apply eqb_lower_ne|by apply Hb].
Qed.

Lemma first_match_None t l :
  first_match t l = None → ∀ o, o ∈ l → Py.lower o ≠ Py.lower t.
Proof.
  induction l as [|o l IH]; simpl; [intros _ o' Ho'; by apply elem_of_nil in Ho'|].
  destruct (String.eqb (Py.lower o) (Py.lower t)) eqn:E; [done|].
  intros Hn o' [->|Ho']%elem_of_cons; [by apply eqb_lower_ne|by apply IH].
Qed.

Lemma lower_truthy s : Py.truthy (Py.lower s) = Py.truthy s.
Proof. by destruct s. Qed.

(** C7 (amended): at a choice stage of an assignment with both
    credentials, a non-blank answer is accepted when the cached list is
    empty (the stripped text is the value) or when the stripped text equals
    an option of the list up to case (the first such option, in its own
    casing, is the value); the flow then goes on with that value. Otherwise
    the list is not empty, no option equals the text up to case, the retry
    prompt of the stage is sent and the store is unchanged. *)
Theorem choice_answer (k : ChoiceStage) self w user_id message_chat_id assignment draft
    text db :
  Py.truthy_opt (api_key assignment) = true →
  Py.truthy_opt (api_secret assignment) = true →
  stage draft = Some (stage_tag k) →
  Py.truthy (Py.strip text) = true →
  choice_answer_outcome k self w user_id message_chat_id assignment draft text db.
Proof.
  intros Hkey Hsecret Hstage Htext.
  unfold choice_answer_outcome, _progress_item_creation.
  rewrite Hkey, Hsecret, Htext, Hstage. simpl negb. cbv iota. simpl orb. cbv iota.
  destruct (_match_choice _ _) as [selected|] eqn:Em.
  - assert ((draft_choices draft (stage_choices_key k) = [] ∧ selected = Py.strip text)
            ∨ first_equal_ignoring_case (Py.strip text)
                (draft_choices draft (stage_choices_key k)) selected) as Hsel.
    { unfold _match_choice in Em.
      destruct (draft_choices _ _) as [|o l] eqn:El; [left; by simplify_eq|].
      right. by apply first_match_Some. }
    split; [exact Hsel|].
    assert (Py.truthy selected = true) as Ht.
    { destruct Hsel as [[_ ->]|(? & ? & _ & Hl & _)]; [done|].
      rewrite <- lower_truthy, Hl, lower_truthy. done. }
    destruct k; simpl in *; rewrite Em; simpl; rewrite Ht; done.
  - pose proof Em as Em'. unfold _match_choice in Em.
    destruct (draft_choices _ _) as [|o l] eqn:El; [done|].
    split_and!; [done|by apply first_match_None|].
    destruct k; simpl; simpl in El; rewrite El, Em'; done.
Qed.

(** C7, as stated, fails: with an empty cached list the text is accepted
    as it is, and a text that matches two options up to case is accepted
    with the first of them; both drafts advance to the next stage. *)
Lemma choice_accepted_without_unique_match :
  _match_choice "Widgets" [] = Some "Widgets"
  ∧ stored_stage_and_group
      (_progress_item_creation demo_bot demo_world 111 555 active_assignment
         (draft_at_group []) "Widgets" empty_database).2
    = [(Some "await_uom", Some "Widgets")]
  ∧ _match_choice "kg" ["Kg"; "KG"] = Some "Kg"
  ∧ stored_stage_and_group
      (_progress_item_creation demo_bot demo_world 111 555 active_assignment
         (draft_at_group ["Kg"; "KG"]) "kg" empty_database).2
    = [(Some "await_uom", Some "Kg")].
Proof. split_and!; vm_compute; reflexivity. Qed.

(** [choice_answer] on an answer that differs from an option by case and
    surrounding blanks. *)
Lemma choice_answer_witness :
  choice_answer_outcome item_group_stage demo_bot demo_world 111 555 active_assignment
    (draft_at_group ["Products"; "Raw Material"]) " products " empty_database.
Proof.
  apply choice_answer; reflexivity.
Defined.

(** ** Pagination of the choices *)

Lemma page_count_ceil n : 0 ≤ n → 6 * (page_count n - 1) < n ≤ 6 * page_count n.
Proof.
  intros Hn. unfold page_count.
  pose proof (Z.div_mod (n + 5) 6 ltac:(lia)).
  pose proof (Z.mod_pos_bound (n + 5) 6 ltac:(lia)). lia.
Qed.

Lemma max_page_count choices :
  choices ≠ [] → max_page choices + 1 = page_count (Z.of_nat (length choices)).
Proof.
  intros Hne. unfold max_page, page_count, CHOICE_PAGE_SIZE.
  assert (1 ≤ Z.of_nat (length choices)) by (destruct choices; [done|simpl; lia]).
  replace (Z.of_nat (length choices) + 5) with ((Z.of_nat (length choices) - 1) + 1 * 6) by lia.
  rewrite Z.div_add by lia.
  pose proof (Z.div_pos (Z.of_nat (length choices) - 1) 6 ltac:(lia) ltac:(lia)). lia.
Qed.

Lemma bind_call {A B} (m : conn A) (f : A → handler B) db :
  (call m ≫= f) db =
    match m db with
    | (inr a, db') => f a db'
    | (inl e, db') => (inl e, [], db')
    end.
Proof.
  unfold mbind, handler_bind, call. destruct (m db) as [[e|a] db']; [done|].
  by destruct (f a db') as [[r outs] db''].
Qed.

Lemma bind_send {B} (o : Out) (f : unit → handler B) db :
  (send o ≫= f) db = let '(r, outs, db') := f tt db in (r, o :: outs, db').
Proof. reflexivity. Qed.

Lemma bind_ret {A B} (a : A) (f : A → handler B) db : (mret a ≫= f) db = f a db.
Proof.
  unfold mbind, mret, handler_bind, handler_ret. by destruct (f a db) as [[r outs] db'].
Qed.

Lemma get_item_draft_eq user_id db :
  Storage.get_item_draft user_id db =
    (inr (item_drafts.state <$>
            Sql.fetchone (λ d, item_drafts.user_id d =? user_id) (tbl_item_drafts db)), db).
Proof. reflexivity. Qed.

Lemma get_group_assignment_eq chat_id db :
  Storage.get_group_assignment chat_id db =
    (inr (head (assignment_join (λ a, assignments.chat_id a =? chat_id) db)), db).
Proof. reflexivity. Qed.

Lemma get_user_assignment_eq user_id db :
  Storage.get_user_assignment user_id db =
    (inr (head (assignment_join (λ a, assignments.user_id a =? user_id) db)), db).
Proof. reflexivity. Qed.

Lemma startswith_cons a p b s :
  Py.startswith (String b s) (String a p) = Ascii.eqb a b && Py.startswith s p.
Proof. reflexivity. Qed.

Lemma startswith_pick_not_page action :
  Py.startswith action "pick_" = true → Py.startswith action "page_" = false.
Proof.
  destruct action as [|a1 [|a2 s]]; [done| |].
  - rewrite !startswith_cons. intros [_ ?]%andb_true_iff. done.
  - rewrite !startswith_cons.
    intros [_ [H2%Ascii.eqb_eq _]%andb_true_iff]%andb_true_iff. subst a2.
    apply andb_false_intro2. done.
Qed.

Lemma pick_out_of_range self w query data action chat_id user_id value index key prompt d db :
  query_data query = Some data →
  parse_choice_data data = Some (action, chat_id, user_id, value) →
  Py.startswith action "pick_" = true →
  Py.int value = Some index →
  CHOICE_CONFIG !! kind_of_action action = Some (key, prompt) →
  (Storage.get_item_draft user_id db).1 = inr (Some d) →
  index < 0 ∨ Z.of_nat (length (draft_choices d key)) ≤ index →
  pick_outcome self w query chat_id user_id d db.
Proof.
  intros Hdata Hparse Hpick Hint Hcfg Hdraft Hidx.
  assert (Py.truthy data = true) as Hne by (by destruct data).
  rewrite get_item_draft_eq in Hdraft. simpl in Hdraft.
  unfold pick_outcome, handle_choice_callback, rejected.
  rewrite Hdata. change (Py.truthy_opt (Some data)) with (Py.truthy data).
  change (default "" (Some data)) with data. rewrite Hne, Hparse.
  change (negb true) with false. cbv iota beta.
  case_bool_decide; [simpl; eauto 10|].
  rewrite bind_call, get_group_assignment_eq.
  destruct (head _) as [assignment|]; [|simpl; eauto 10].
  case_bool_decide; [simpl; eauto 10|].
  case_bool_decide; [simpl; eauto 10|].
  rewrite bind_call, get_item_draft_eq. injection Hdraft as Hdraft. rewrite Hdraft.
  destruct (draft_truthy d); [|simpl; eauto 10]. change (negb true) with false. cbv iota.
  case_bool_decide as Hchat.
  { rewrite bind_send. simpl. split_and!; [done|eauto|done|by right]. }
  rewrite (startswith_pick_not_page _ Hpick), Hpick, Hint, Hcfg.
  assert ((index <? 0) || (Z.of_nat (length (draft_choices d key)) <=? index) = true) as ->.
  { apply orb_true_iff. destruct Hidx; [left|right]; lia. }
  simpl. eauto 10.
Qed.

Lemma render_choices_outcome kind prompt choices page chat_id user_id :
  choices ≠ [] → rendering_outcome kind prompt choices page chat_id user_id.
Proof.
  intros Hne. unfold rendering_outcome. cbv zeta.
  pose proof (max_page_count choices Hne) as Hc.
  assert (1 ≤ Z.of_nat (length choices)) as Hn by (destruct choices; [done|simpl; lia]).
  pose proof (page_count_ceil (Z.of_nat (length choices)) ltac:(lia)) as Hceil.
  assert (clamp_page choices page
          = Z.max 0 (Z.min page (page_count (Z.of_nat (length choices)) - 1))) as Hp.
  { unfold clamp_page. f_equal. f_equal. lia. }
  unfold render_choices. cbn [shown_page shown_page_count shown_options shown_text].
  rewrite Hp, Hc. unfold CHOICE_PAGE_SIZE.
  set (p := Z.max 0 (Z.min page (page_count (Z.of_nat (length choices)) - 1))).
  assert (0 ≤ p ≤ page_count (Z.of_nat (length choices)) - 1) as Hrange by lia.
  split_and!; try done; try lia.
  replace (p * 6) with (6 * p) by lia. f_equal.
  destruct (Z.le_gt_cases (6 * p + 6) (Z.of_nat (length choices))).
  - rewrite Z.min_r by lia. f_equal. lia.
  - rewrite Z.min_l by lia.
    rewrite !take_ge; [done|rewrite length_drop; lia..].
Qed.

Lemma send_choice_keyboard_renders kind key prompt draft chat_id user_id via db :
  CHOICE_CONFIG !! kind = Some (key, prompt) →
  draft_choices draft key ≠ [] →
  ∃ markup,
    _send_choice_keyboard kind draft chat_id user_id via db =
      (inr tt,
       [show via
          (shown_text (render_choices kind prompt (draft_choices draft key)
                         (default 0 (default ∅ (pages draft) !! kind)) chat_id user_id))
          markup],
       db).
Proof.
  intros Hcfg Hne. unfold _send_choice_keyboard. rewrite Hcfg.
  destruct (draft_choices draft key) as [|o l] eqn:E; [done|].
  eexists. reflexivity.
Qed.

Lemma thirteen_options_page_five :
  let r := render_choices "item_group" "" thirteen 5 555 111 in
  shown_page_count r = 3 ∧ shown_page r = 2 ∧ shown_options r = [(12, "G13")].
Proof. vm_compute. done. Qed.

(** C6 (amended): a non-empty cached list of [n] options is rendered in
    [ceil(n/6)] pages, a requested page is clamped into
    [0 .. ceil(n/6) - 1], and the page shows the six options from
    [6 * page] on with their absolute indexes; thirteen options give three
    pages and requested page 5 renders page 2; a pick whose index is
    outside [0 .. n - 1] is answered with an alert, and the store is
    unchanged when the draft belongs to the chat of the pick, the only
    other outcome being that the draft of the user is deleted. *)
Theorem choice_pagination_protocol :
  (∀ kind key prompt draft chat_id user_id via db,
     CHOICE_CONFIG !! kind = Some (key, prompt) →
     draft_choices draft key ≠ [] →
     let page := default 0 (default ∅ (pages draft) !! kind) in
     (∃ markup,
        _send_choice_keyboard kind draft chat_id user_id via db =
          (inr tt,
           [show via
              (shown_text (render_choices kind prompt (draft_choices draft key) page
                             chat_id user_id))
              markup],
           db))
     ∧ rendering_outcome kind prompt (draft_choices draft key) page chat_id user_id)
  ∧ (let r := render_choices "item_group" "" thirteen 5 555 111 in
     shown_page_count r = 3 ∧ shown_page r = 2 ∧ shown_options r = [(12, "G13")])
  ∧ (∀ self w query data action chat_id user_id value index key prompt d db,
       query_data query = Some data →
       parse_choice_data data = Some (action, chat_id, user_id, value) →
       Py.startswith action "pick_" = true →
       Py.int value = Some index →
       CHOICE_CONFIG !! kind_of_action action = Some (key, prompt) →
       (Storage.get_item_draft user_id db).1 = inr (Some d) →
       index < 0 ∨ Z.of_nat (length (draft_choices d key)) ≤ index →
       pick_outcome self w query chat_id user_id d db).
Proof.
  split_and!.
  - intros. split; [by eapply send_choice_keyboard_renders|by apply render_choices_outcome].
  - apply thirteen_options_page_five.
  - intros. by eapply pick_out_of_range.
Qed.

(** ** Credential texts in the private chat *)

Lemma bind_cons {A B} (k : A → list B) (x : A) (l : list A) :
  (x :: l) ≫= k = k x ++ (l ≫= k).
Proof. reflexivity. Qed.

Section JoinUpdate.
Context (p q : Z → Z → bool).
Context (key secret status docname : option string → option string).

Let on_row (f : Z → Z → bool) (r : assignments.row) : bool :=
  f (assignments.chat_id r) (assignments.user_id r).
Let on_view (f : Z → Z → bool) (a : Assignment) : bool := f (chat_id a) (user_id a).
Let g (r : assignments.row) : assignments.row :=
  if on_row q r then amend_row key secret status docname r else r.
Let G (a : Assignment) : Assignment :=
  if on_view q a then amend key secret status docname a else a.

Lemma assignment_join_update db :
  assignment_join (on_row p) (set_assignments (g <$> tbl_assignments db) db)
  = G <$> assignment_join (on_row p) db.
Proof.
  unfold assignment_join. destruct db as [us cs t ds]. simpl.
  induction t as [|r t IH]; [done|].
  rewrite fmap_cons.
  assert (on_row p (g r) = on_row p r) as Hp.
  { unfold g, on_row. by destruct (q _ _). }
  destruct (on_row p r) eqn:E.
  - rewrite !filter_cons_True by (by rewrite ?Hp).
    rewrite !bind_cons, fmap_app, IH. f_equal.
    assert (assignments.chat_id (g r) = assignments.chat_id r) as ->.
    { unfold g. by destruct (on_row q r). }
    assert (assignments.user_id (g r) = assignments.user_id r) as ->.
    { unfold g. by destruct (on_row q r). }
    induction (filter _ cs) as [|c cs' IHc]; [done|].
    rewrite !bind_cons, fmap_app, IHc. f_equal. clear IHc IH.
    induction (filter _ us) as [|u us' IHu]; [done|].
    rewrite !bind_cons, fmap_app, IHu. f_equal.
    unfold G, g, on_view, on_row. simpl. by destruct (q _ _).
  - rewrite !filter_cons_False by (rewrite ?Hp, ?E; done). exact IH.
Qed.

End JoinUpdate.

Lemma assignment_join_elem pr db v :
  v ∈ assignment_join pr db →
  ∃ r c u, r ∈ tbl_assignments db ∧ pr r = true ∧ v = joined r c u.
Proof.
  unfold assignment_join.
  intros (r & (c & (u & ->%list_elem_of_singleton & _)%list_elem_of_bind
                 & _)%list_elem_of_bind & [Hp Hr]%list_elem_of_filter)%list_elem_of_bind.
  by exists r, c, u.
Qed.

Lemma head_fmap {A B} (f : A → B) (l : list A) : head (f <$> l) = f <$> head l.
Proof. by destruct l. Qed.

Lemma update_assignment_of_user_eq user_id f db :
  Storage.update_assignment_of_user user_id f db =
    match filter (λ r, (assignments.user_id r =? user_id) = true) (tbl_assignments db) with
    | [] => (inl (AssignmentError "Foydalanuvchi sales manager sifatida topilmadi."), db)
    | _ =>
        (inr tt,
         set_assignments
           ((λ r, if assignments.user_id r =? user_id then f r else r)
              <$> tbl_assignments db) db)
    end.
Proof.
  unfold Storage.update_assignment_of_user, _connection, mbind, conn_bind, mret, conn_ret,
    raise, Sql.update.
  by destruct (filter _ _).
Qed.

Lemma get_user_assignment_row uid db a :
  (Storage.get_user_assignment uid db).1 = inr (Some a) →
  user_id a = uid
  ∧ filter (λ r, (assignments.user_id r =? uid) = true) (tbl_assignments db) ≠ []
  ∧ ∃ r, r ∈ tbl_assignments db ∧ assignments.user_id r = uid
         ∧ assignments.credentials_status r = credentials_status a
         ∧ assignments.chat_id r = chat_id a.
Proof.
  rewrite get_user_assignment_eq. simpl. intros [= Hh].
  apply head_Some_elem_of, assignment_join_elem in Hh as (r & c & u & Hr & Hp & ->).
  simpl. split_and!; [lia| |exists r; split_and!; [done|lia|done..]].
  intros Hnil. assert (r ∈ filter (λ r, (assignments.user_id r =? uid) = true)
                           (tbl_assignments db)) as Hin by (by apply list_elem_of_filter).
  rewrite Hnil in Hin. by apply elem_of_nil in Hin.
Qed.

(** The joined row of a user after an update of the credential columns of
    the rows of that user. *)
Lemma get_user_assignment_amended user_id key secret status docname db a :
  (Storage.get_user_assignment user_id db).1 = inr (Some a) →
  (Storage.get_user_assignment user_id
     (set_assignments
        ((λ r, if assignments.user_id r =? user_id
               then amend_row key secret status docname r else r)
           <$> tbl_assignments db) db)).1
  = inr (Some (amend key secret status docname a)).
Proof.
  intros Ha. pose proof (get_user_assignment_row _ _ _ Ha) as (Hu & _).
  rewrite get_user_assignment_eq in *. simpl in *. injection Ha as Ha.
  rewrite (assignment_join_update (λ _ u, u =? user_id) (λ _ u, u =? user_id)).
  rewrite head_fmap, Ha. simpl.
  rewrite Hu, Z.eqb_refl. done.
Qed.

Lemma get_user_assignment_docname user_id chat docname db a :
  (Storage.get_user_assignment user_id db).1 = inr (Some a) →
  ∃ a',
    (Storage.get_user_assignment user_id
       (Storage.store_customer_doc chat docname db).2).1 = inr (Some a')
    ∧ api_key a' = api_key a ∧ api_secret a' = api_secret a
    ∧ credentials_status a' = credentials_status a ∧ chat_id a' = chat_id a.
Proof.
  intros Ha. rewrite get_user_assignment_eq in *. simpl in *. injection Ha as Ha.
  change (set_assignments _ db) with
    (set_assignments
       ((λ r, if (λ c _, c =? chat) (assignments.chat_id r) (assignments.user_id r)
              then amend_row id id id (λ _, Some docname) r else r)
          <$> tbl_assignments db) db).
  rewrite (assignment_join_update (λ _ u, u =? user_id) (λ c _, c =? chat)).
  rewrite head_fmap, Ha. simpl.
  eexists. split; [reflexivity|]. by destruct (chat_id a =? chat).
Qed.

Lemma get_user_assignment_full user_id db a :
  (Storage.get_user_assignment user_id db).1 = inr (Some a) →
  Storage.get_user_assignment user_id db = (inr (Some a), db).
Proof. rewrite get_user_assignment_eq. simpl. by intros ->. Qed.

Lemma fullmatch_hex_truthy lo hi s :
  (0 < lo)%nat → Py.fullmatch_hex lo hi s = true → Py.truthy s = true.
Proof.
  unfold Py.fullmatch_hex. intros Hlo [[_ Hl%Nat.leb_le]%andb_true_iff _]%andb_true_iff.
  destruct s; [simpl in Hl; lia|done].
Qed.

Lemma validate_api_key_iff value :
  _validate_api_key value = true ↔ String.length value = 15%nat ∧ Py.all_hex value = true.
Proof.
  unfold _validate_api_key, Py.fullmatch_hex.
  rewrite !andb_true_iff, !Nat.leb_le. split; [intros [[? ?] ?]|intros [? ?]]; split_and!;
    first [done|lia].
Qed.

Lemma validate_api_secret_iff value :
  _validate_api_secret value = true ↔
  (String.length value = 15%nat ∨ String.length value = 16%nat) ∧ Py.all_hex value = true.
Proof.
  unfold _validate_api_secret, Py.fullmatch_hex.
  rewrite !andb_true_iff, !Nat.leb_le. split; [intros [[? ?] ?]|intros [? ?]]; split_and!;
    first [done|lia].
Qed.

Lemma store_api_key_eq user_id api_key db :
  Storage.store_api_key user_id api_key db =
    Storage.update_assignment_of_user user_id
      (amend_row (λ _, Some api_key) id (λ _, Some "pending_secret") id) db.
Proof. reflexivity. Qed.

Lemma store_api_secret_eq user_id api_secret verified db :
  Storage.store_api_secret user_id api_secret verified db =
    Storage.update_assignment_of_user user_id
      (amend_row id (λ _, Some api_secret)
         (λ _, Some (if verified then "active" else "pending_secret")) id) db.
Proof. reflexivity. Qed.

Lemma reset_credentials_eq user_id db :
  Storage.reset_credentials user_id db =
    Storage.update_assignment_of_user user_id
      (amend_row (λ _, None) (λ _, None) (λ _, Some "pending_key") id) db.
Proof. reflexivity. Qed.

Lemma key_text_handling self w message user a db :
  (Storage.get_user_assignment (user_ident user) db).1 = inr (Some a) →
  credentials_status a = Some "pending_key" →
  key_text_outcome self w message user a db.
Proof.
  intros Ha Hs. unfold key_text_outcome, handle_private_message. cbv zeta.
  destruct (Py.truthy (Py.strip _)) eqn:Et; [|done]. change (negb true) with false. cbv iota.
  rewrite bind_call, (get_user_assignment_full _ _ _ Ha), Hs.
  change (String.eqb (Py.or_else (Some "pending_key") "pending_key") "pending_key") with true.
  cbv iota.
  destruct (_validate_api_key _) eqn:Ev; [|done]. change (negb true) with false. cbv iota.
  rewrite bind_call, store_api_key_eq, update_assignment_of_user_eq.
  pose proof (get_user_assignment_row _ _ _ Ha) as (_ & Hne & _).
  destruct (filter _ _) eqn:Ef; [done|]. split; [done|].
  cbn [snd send]. by apply get_user_assignment_amended.
Qed.

Lemma ensure_customer_exists_store self w a key secret db :
  let r := _ensure_customer_exists self w a key secret db in
  r.1.1 = inr tt
  ∧ (r.2 = db ∨ ∃ docname, r.2 = (Storage.store_customer_doc (chat_id a) docname db).2).
Proof.
  unfold _ensure_customer_exists. cbv zeta.
  repeat (case_match; try (split; [done|by left])).
  all: split; [done|right; eexists; reflexivity].
Qed.

Lemma bind_then {A B} (m : handler A) (f : A → handler B) db :
  (m ≫= f) db =
    match m db with
    | (inr a, outs, db') => let '(r, outs', db'') := f a db' in (r, outs ++ outs', db'')
    | (inl e, outs, db') => (inl e, outs, db')
    end.
Proof. reflexivity. Qed.

Lemma secret_text_handling self w message user a db :
  (Storage.get_user_assignment (user_ident user) db).1 = inr (Some a) →
  credentials_status a = Some "pending_secret" →
  secret_text_outcome self w message user a db.
Proof.
  intros Ha Hs. unfold secret_text_outcome, handle_private_message. cbv zeta.
  destruct (Py.truthy (Py.strip _)) eqn:Et; [|done]. change (negb true) with false. cbv iota.
  rewrite bind_call, (get_user_assignment_full _ _ _ Ha), Hs.
  change (String.eqb (Py.or_else (Some "pending_secret") "pending_key") "pending_key")
    with false.
  change (String.eqb (Py.or_else (Some "pending_secret") "pending_key") "pending_secret")
    with true.
  cbv iota.
  destruct (_validate_api_secret _) eqn:Ev; [|done]. change (negb true) with false. cbv iota.
  set (text := Py.strip (default "" (message_text message))) in *.
  destruct (_verify_credentials _ _ _ _) as [verified detail] eqn:Everify.
  rewrite bind_call, store_api_secret_eq, update_assignment_of_user_eq.
  pose proof (get_user_assignment_row _ _ _ Ha) as (_ & Hne & _).
  destruct (filter _ _) eqn:Ef; [done|]. clear Ef Hne.
  set (db1 := set_assignments _ db).
  assert ((Storage.get_user_assignment (user_ident user) db1).1
          = inr (Some (amend id (λ _, Some text)
                         (λ _, Some (if verified then "active" else "pending_secret")) id a)))
    as Ha1 by (by apply get_user_assignment_amended).
  destruct verified.
  - rewrite bind_then, bind_send.
    pose proof (ensure_customer_exists_store self w a
                  (Some (Py.or_else (api_key a) "")) (Some text) db1) as [Hok Hdb].
    destruct (_ensure_customer_exists _ _ _ _ _ _) as [[res outs] db2]. simpl in Hok, Hdb.
    subst res. cbn [fst snd send]. split; [done|].
    destruct Hdb as [->|[docname ->]].
    + eexists. split; [exact Ha1|done].
    + destruct (get_user_assignment_docname _ (chat_id a) docname _ _ Ha1)
        as (a' & Ha' & Hk & Hsec & Hst & Hc).
      exists a'. split; [exact Ha'|]. rewrite Hk, Hsec, Hst, Hc. done.
  - cbn [fst snd]. split; [done|]. eexists. split; [exact Ha1|done].
Qed.

(** C5 (amended): for a private text of an assigned user, with the
    leading and trailing whitespace stripped: a blank text is ignored
    without a reply; in state pending_key a text that is valid as a key is
    stored as the key and the state becomes pending_secret, any other text
    is answered with the format hint and the store is unchanged; in state
    pending_secret a text that is valid as a secret is passed to the
    verification and stored with the state the verification gives, any
    other text is answered with the format hint and the store is unchanged.
    A key is valid exactly when it is 15 hexadecimal characters, a secret
    exactly when it is 15 or 16 hexadecimal characters. *)
Theorem credential_text_handling self w message user a db :
  (Storage.get_user_assignment (user_ident user) db).1 = inr (Some a) →
  (credentials_status a = Some "pending_key" →
     key_text_outcome self w message user a db)
  ∧ (credentials_status a = Some "pending_secret" →
       secret_text_outcome self w message user a db)
  ∧ (∀ value, _validate_api_key value = true ↔
                String.length value = 15%nat ∧ Py.all_hex value = true)
  ∧ (∀ value, _validate_api_secret value = true ↔
                (String.length value = 15%nat ∨ String.length value = 16%nat)
                ∧ Py.all_hex value = true).
Proof.
  intros Ha. split_and!.
  - by apply key_text_handling.
  - by apply secret_text_handling.
  - apply validate_api_key_iff.
  - apply validate_api_secret_iff.
Qed.

(** C4 (amended): when the assigned user in state pending_secret sends a
    valid secret and the verification fails, the secret is stored, the
    state stays pending_secret, the key and the other columns are as
    before, the user is told of the failure with the detail (when there is
    one), and the assigned chat gets a fixed notice without the detail. *)
Theorem failed_verification self w message user a detail db :
  (Storage.get_user_assignment (user_ident user) db).1 = inr (Some a) →
  credentials_status a = Some "pending_secret" →
  _validate_api_secret (Py.strip (default "" (message_text message))) = true →
  _verify_credentials self w (Py.or_else (api_key a) "")
    (Py.strip (default "" (message_text message))) = (false, detail) →
  failed_verification_outcome self w message user a detail db.
Proof.
  intros Ha Hs Hv Hverify. unfold failed_verification_outcome, handle_private_message.
  cbv zeta. rewrite (fullmatch_hex_truthy 15 16 _ ltac:(lia) Hv).
  change (negb true) with false. cbv iota.
  rewrite bind_call, (get_user_assignment_full _ _ _ Ha), Hs.
  change (String.eqb (Py.or_else (Some "pending_secret") "pending_key") "pending_key")
    with false.
  change (String.eqb (Py.or_else (Some "pending_secret") "pending_key") "pending_secret")
    with true.
  cbv iota. rewrite Hv. change (negb true) with false. cbv iota. rewrite Hverify.
  rewrite bind_call, store_api_secret_eq, update_assignment_of_user_eq.
  pose proof (get_user_assignment_row _ _ _ Ha) as (_ & Hne & _).
  destruct (filter _ _) eqn:Ef; [done|]. split; [done|].
  cbn [snd send]. by apply (get_user_assignment_amended _ id _ _ id).
Qed.

(** ** Credential status over a run *)

Lemma exec_quiet db op : quiet op = true → statuses (exec db op) = statuses db.
Proof.
  destruct op; try done; intros _; simpl.
  all: try (unfold Storage.record_user, Storage.record_private_user, Storage.record_user,
      Storage.get_user, Storage.list_unassigned_users, Storage.record_group_chat,
      Storage.get_chat, Storage.get_group_assignment, Storage.get_user_assignment,
      Storage.get_item_draft, Storage.save_item_draft, Storage.delete_item_draft;
      unfold_conn; repeat case_match; simplify_eq/=; done).
  unfold statuses. simpl. rewrite <- list_fmap_compose. apply list_fmap_ext.
  intros _ r _. simpl. by destruct (assignments.chat_id r =? _).
Qed.

Lemma statuses_user_ids db : user_ids db = (λ x, x.1.2) <$> statuses db.
Proof. unfold user_ids, statuses. by rewrite <- list_fmap_compose. Qed.

Lemma statuses_amended user key secret status docname db :
  statuses (set_assignments
              ((λ r, if assignments.user_id r =? user
                     then amend_row key secret status docname r else r)
                 <$> tbl_assignments db) db)
  = (λ x, if x.1.2 =? user then (x.1, status x.2) else x) <$> statuses db.
Proof.
  unfold statuses. simpl. rewrite <- !list_fmap_compose. apply list_fmap_ext.
  intros _ r _. simpl. by destruct (assignments.user_id r =? user).
Qed.

Lemma exec_statuses db op :
  statuses (exec db op) = statuses db
  ∨ statuses (exec db op) = []
  ∨ (∃ c u, statuses (exec db op) = statuses db ++ [(c, u, Some "pending_key")])
  ∨ (∃ u s, known_status (Some s) ∧ statuses (exec db op) = set_status u s (statuses db)).
Proof.
  destruct (quiet op) eqn:Eq; [left; by apply exec_quiet|].
  destruct op; try done; simpl.
  - rewrite assign_sales_manager_eq. repeat case_match; try (by left).
    right; right; left. eexists _, _. unfold statuses. simpl. by rewrite fmap_app.
  - rewrite store_api_key_eq, update_assignment_of_user_eq.
    destruct (filter _ _); [by left|]. right; right; right.
    eexists _, "pending_secret". split; [unfold known_status; auto|].
    apply statuses_amended.
  - rewrite store_api_secret_eq, update_assignment_of_user_eq.
    destruct (filter _ _); [by left|]. right; right; right.
    match goal with
    | |- context [if ?v then "active" else _] =>
        eexists _, (if v then "active" else "pending_secret");
        split; [unfold known_status; destruct v; auto|]
    end.
    apply statuses_amended.
  - rewrite reset_credentials_eq, update_assignment_of_user_eq.
    destruct (filter _ _); [by left|]. right; right; right.
    eexists _, "pending_key". split; [unfold known_status; auto|].
    apply statuses_amended.
  - right; left. done.
  - right; left. done.
Qed.

Lemma exec_well_formed db op : well_formed db → well_formed (exec db op).
Proof.
  intros [Hu Hs]. split; [by apply exec_one_to_one|].
  destruct (exec_statuses db op) as [->|[->|[(c & u & ->)|(u & s & Hk & ->)]]].
  - done.
  - constructor.
  - apply Forall_app. split; [done|]. constructor; [|constructor].
    unfold known_status. simpl. auto.
  - unfold set_status. apply Forall_fmap. eapply Forall_impl; [exact Hs|].
    intros x Hx. simpl. by destruct (x.1.2 =? u).
Qed.

Section Preserves.
Context (P : Database → Prop).

Lemma preserves_ret {A} (a : A) : preserves P (mret a).
Proof. by intros db. Qed.

Lemma preserves_send (o : Out) : preserves P (send o).
Proof. by intros db. Qed.

Lemma preserves_throw {A} (e : exn) : preserves P (throw e : handler A).
Proof. by intros db. Qed.

Lemma preserves_call {A} (m : conn A) : keeps P m → preserves P (call m).
Proof. intros Hm db Hdb. unfold call. specialize (Hm db Hdb). by destruct (m db). Qed.

Lemma preserves_try_call {A} (m : conn A) : keeps P m → preserves P (try_call m).
Proof.
  intros Hm db Hdb. unfold try_call. specialize (Hm db Hdb).
  by destruct (m db) as [[[]|] ?].
Qed.

Lemma preserves_bind {A B} (m : handler A) (f : A → handler B) :
  preserves P m → (∀ a, preserves P (f a)) → preserves P (m ≫= f).
Proof.
  intros Hm Hf db Hdb. rewrite bind_then. specialize (Hm db Hdb).
  destruct (m db) as [[[e|a] outs] db']; [done|].
  specialize (Hf a db' Hm). by destruct (f a db') as [[r outs'] db''].
Qed.

End Preserves.

Ltac call_by H :=
  let db := fresh "db" in
  let Hdb := fresh "Hdb" in
  intros db Hdb;
  lazymatch goal with
  | |- _ (Storage.record_user ?n ?i ?u ?f ?l _).2 =>
      apply (H db (record_user n i u f l)); [solve [auto]|exact Hdb]
  | |- _ (Storage.get_user ?i _).2 =>
      apply (H db (get_user i)); [solve [auto]|exact Hdb]
  | |- _ (Storage.list_unassigned_users ?n _).2 =>
      apply (H db (list_unassigned_users n)); [solve [auto]|exact Hdb]
  | |- _ (Storage.record_group_chat ?n ?c ?t _).2 =>
      apply (H db (record_group_chat n c t)); [solve [auto]|exact Hdb]
  | |- _ (Storage.get_group_assignment ?c _).2 =>
      apply (H db (get_group_assignment c)); [solve [auto]|exact Hdb]
  | |- _ (Storage.get_user_assignment ?i _).2 =>
      apply (H db (get_user_assignment i)); [solve [auto]|exact Hdb]
  | |- _ (Storage.assign_sales_manager ?n ?c ?u _).2 =>
      apply (H db (assign_sales_manager n c u)); [solve [auto]|exact Hdb]
  | |- _ (Storage.store_api_key ?u ?k _).2 =>
      apply (H db (store_api_key u k)); [solve [auto]|exact Hdb]
  | |- _ (Storage.store_api_secret ?u ?k ?v _).2 =>
      apply (H db (store_api_secret u k v)); [solve [auto]|exact Hdb]
  | |- _ (Storage.reset_credentials ?u _).2 =>
      apply (H db (reset_credentials u)); [solve [auto]|exact Hdb]
  | |- _ (Storage.clear_all_assignments _).2 =>
      apply (H db clear_all_assignments); [solve [auto]|exact Hdb]
  | |- _ (Storage.get_item_draft ?u _).2 =>
      apply (H db (get_item_draft u)); [solve [auto]|exact Hdb]
  | |- _ (Storage.save_item_draft ?n ?u ?d _).2 =>
      apply (H db (save_item_draft n u d)); [solve [auto]|exact Hdb]
  | |- _ (Storage.delete_item_draft ?u _).2 =>
      apply (H db (delete_item_draft u)); [solve [auto]|exact Hdb]
  | |- _ (Storage.store_customer_doc ?c ?d _).2 =>
      apply (H db (store_customer_doc c d)); [solve [auto]|exact Hdb]
  end.

Ltac preserve H :=
  repeat first
    [ apply preserves_ret
    | apply preserves_send
    | apply preserves_throw
    | apply preserves_call; call_by H
    | apply preserves_try_call; call_by H
    | apply preserves_bind; [|intros ?]
    | progress cbv zeta
    | progress unfold record_sender, _send_choice_keyboard, _prompt_uom, _prompt_item_group,
        _create_item_from_draft, _progress_item_creation, _ensure_customer_exists,
        _maybe_progress_group_item_flow
    | match goal with
      | |- preserves _ (match ?x with _ => _ end) => destruct x
      | |- preserves _ (if ?x then _ else _) => destruct x
      end ].

(** A property of the store that the storage calls in [allowed] keep is
    kept by every handler that makes no other call. *)
Section Handlers.
Context (P : Database → Prop) (allowed : Op → bool).
Context (Hops : ∀ db op, allowed op = true → P db → P (exec db op)).
Context (Hquiet : ∀ op, quiet op = true → allowed op = true).
Context (self : AssignmentBot) (w : World).

Lemma quiet_handlers_preserve u :
  match u with
  | private_message _ _ | reset_api _ _ _ | assign_callback _ | clear_assignments _ _ _ =>
      True
  | _ => preserves P (handle self w u)
  end.
Proof.
  destruct u; try done; simpl.
  - unfold handle_start. preserve Hops.
  - unfold handle_group_activity. preserve Hops.
  - unfold handle_new_item. preserve Hops.
  - unfold handle_assign_command. preserve Hops.
  - unfold handle_choice_callback. preserve Hops.
Qed.

Lemma private_message_preserve message user :
  (∀ u k, allowed (store_api_key u k) = true) →
  (∀ u k v, allowed (store_api_secret u k v) = true) →
  preserves P (handle_private_message self w message user).
Proof. intros ??. unfold handle_private_message. preserve Hops. Qed.

Lemma reset_api_preserve chat user message :
  (∀ u, user_ident <$> user = Some u → allowed (reset_credentials u) = true) →
  preserves P (handle_reset_api self w chat user message).
Proof. intros ?. unfold handle_reset_api. preserve Hops. Qed.

Lemma assign_callback_preserve query :
  (∀ n c u, allowed (assign_sales_manager n c u) = true) →
  preserves P (handle_assign_callback self w query).
Proof. intros ?. unfold handle_assign_callback. preserve Hops. Qed.

Lemma clear_assignments_preserve chat user message :
  allowed clear_all_assignments = true →
  preserves P (handle_clear_assignments self w chat user message).
Proof. intros ?. unfold handle_clear_assignments. preserve Hops. Qed.

Lemma all_handlers_preserve u : (∀ op, allowed op = true) → preserves P (handle self w u).
Proof.
  intros Hall. pose proof (quiet_handlers_preserve u) as Hu.
  destruct u; try exact Hu; simpl.
  - by apply private_message_preserve.
  - by apply reset_api_preserve.
  - by apply assign_callback_preserve.
  - by apply clear_assignments_preserve.
Qed.

End Handlers.

Lemma step_well_formed self db wu : well_formed db → well_formed (step self db wu).
Proof.
  destruct wu as [w u]. intros Hdb. unfold step. simpl.
  apply (all_handlers_preserve well_formed (λ _, true)); [|done..].
  intros. by apply exec_well_formed.
Qed.

Lemma run_well_formed self updates : well_formed (run self updates).
Proof.
  unfold run. induction updates as [|wu updates IH] using rev_ind.
  - repeat split; constructor.
  - rewrite foldl_app. simpl. by apply step_well_formed.
Qed.

Lemma verify_credentials_passed self w key secret :
  (_verify_credentials self w key secret).1 = true → verification_passed self w.
Proof.
  unfold _verify_credentials, verification_passed.
  destruct (Py.truthy_opt _); [|by left]. simpl.
  destruct (_ || _); [done|].
  destruct (verify_answer w) as [code detail|]; [|done].
  destruct (_ && _) eqn:E; [|done]. intros _. right. exists code, detail.
  apply andb_true_iff in E as [?%Z.leb_le ?%Z.ltb_lt]. done.
Qed.

Lemma NoDup_fmap_eq {A B} (f : A → B) (l : list A) x y :
  NoDup (f <$> l) → x ∈ l → y ∈ l → f x = f y → x = y.
Proof.
  induction l as [|z l IH]; [by intros _ ?%elem_of_nil|].
  rewrite fmap_cons, NoDup_cons.
  intros [Hz Hl] [->|Hx]%elem_of_cons [->|Hy]%elem_of_cons Hf; [done| | |by apply IH].
  - exfalso. apply Hz. rewrite Hf. by apply list_elem_of_fmap_2.
  - exfalso. apply Hz. rewrite <- Hf. by apply list_elem_of_fmap_2.
Qed.

(** The status of a chat after the rows of one user got a new status. *)
Lemma credentials_status_of_set_status db db' user s chat :
  statuses db' = set_status user s (statuses db) →
  credentials_status_of db' chat =
    (λ x, if x.1.2 =? user then Some s else x.2)
      <$> head (filter (λ x, x.1.1 = chat) (statuses db)).
Proof.
  intros E. unfold credentials_status_of. rewrite E. unfold set_status. clear E.
  induction (statuses db) as [|x l IH]; [done|].
  rewrite fmap_cons. destruct (decide (x.1.1 = chat)) as [Hc|Hc].
  - rewrite !filter_cons_True by (by destruct (x.1.2 =? user)).
    simpl. by destruct (x.1.2 =? user).
  - rewrite !filter_cons_False by (by destruct (x.1.2 =? user)). exact IH.
Qed.

Lemma credentials_status_of_quiet db db' chat :
  statuses db' = statuses db → credentials_status_of db' chat = credentials_status_of db chat.
Proof. unfold credentials_status_of. by intros ->. Qed.

Lemma credentials_status_of_elem db chat s :
  credentials_status_of db chat = Some s → ∃ user, (chat, user, s) ∈ statuses db.
Proof.
  unfold credentials_status_of. destruct (head _) as [[[c u] s']|] eqn:E; [|done].
  intros [= <-]. apply head_Some_elem_of, list_elem_of_filter in E as [Hc Hin].
  simpl in Hc. subst c. by exists u.
Qed.

Lemma quiet_update_statuses self w u db :
  match u with
  | private_message _ _ | reset_api _ _ _ | assign_callback _ | clear_assignments _ _ _ => True
  | _ => statuses (step self db (w, u)) = statuses db
  end.
Proof.
  pose proof (quiet_handlers_preserve (λ d, statuses d = statuses db) quiet
                (λ d op Hq Hd, eq_trans (exec_quiet d op Hq) Hd) (λ _ H, H) self w u) as H.
  destruct u; try done; by apply H.
Qed.

Lemma assign_callback_statuses self w query db :
  ∃ l, statuses (step self db (w, assign_callback query)) = statuses db ++ l
       ∧ Forall (λ x, x.2 = Some "pending_key") l.
Proof.
  set (P := λ d, ∃ l, statuses d = statuses db ++ l
                      ∧ Forall (λ x, x.2 = Some "pending_key") l).
  set (allowed := λ op, quiet op || is_assign op).
  assert (∀ d op, allowed op = true → P d → P (exec d op)) as Hops.
  { intros d op [Hq|Ha]%orb_true_iff (l & Hl & Hpk).
    - exists l. by rewrite exec_quiet.
    - destruct op; try done. unfold P. simpl. rewrite assign_sales_manager_eq.
      repeat case_match; try by exists l.
      eexists (l ++ [(_, _, Some "pending_key")]).
      split; [|apply Forall_app; split; [done|by repeat constructor]].
      unfold statuses in *. simpl. by rewrite fmap_app, Hl, <- app_assoc. }
  assert (∀ op, quiet op = true → allowed op = true) as Hq
    by (intros op Hop; unfold allowed; by rewrite Hop).
  apply (assign_callback_preserve P allowed Hops Hq self w query
           (λ _ _ _, orb_true_r _) db).
  exists []. by rewrite app_nil_r.
Qed.

Lemma clear_assignments_statuses self w chat user message db :
  let db' := step self db (w, clear_assignments chat user message) in
  statuses db' = statuses db ∨ statuses db' = [].
Proof.
  set (P := λ d, statuses d = statuses db ∨ statuses d = []).
  set (allowed := λ op, quiet op || is_clear op).
  assert (∀ d op, allowed op = true → P d → P (exec d op)) as Hops.
  { intros d op [Hq|Ha]%orb_true_iff Hd.
    - unfold P. by rewrite exec_quiet.
    - destruct op; try done. by right. }
  apply (clear_assignments_preserve P allowed Hops self w chat user message eq_refl db).
  by left.
Qed.

Lemma set_status_idemp user s l : set_status user s (set_status user s l) = set_status user s l.
Proof.
  unfold set_status. rewrite <- list_fmap_compose. apply list_fmap_ext.
  intros _ x _. simpl. destruct (x.1.2 =? user) eqn:E; simpl; by rewrite E.
Qed.

Lemma reset_api_statuses self w chat user message db :
  let db' := step self db (w, reset_api chat user message) in
  statuses db' = statuses db
  ∨ ∃ u, statuses db' = set_status u "pending_key" (statuses db).
Proof.
  destruct user as [usr|]; [|left; by destruct chat].
  set (P := λ d, statuses d = statuses db
                 ∨ statuses d = set_status (user_ident usr) "pending_key" (statuses db)).
  set (allowed := λ op, quiet op || is_reset_of (user_ident usr) op).
  assert (∀ d op, allowed op = true → P d → P (exec d op)) as Hops.
  { intros d op [Hq|Ha]%orb_true_iff Hd.
    - unfold P. by rewrite exec_quiet.
    - destruct op; try done. simpl in Ha. apply bool_decide_eq_true in Ha as ->.
      unfold P. simpl.
      rewrite reset_credentials_eq, update_assignment_of_user_eq.
      destruct (filter _ _); [done|]. right.
      change (snd (?x, ?y)) with y.
      rewrite statuses_amended. fold (set_status (user_ident usr) "pending_key" (statuses d)).
      destruct Hd as [->| ->]; [done|apply set_status_idemp]. }
  assert (∀ op, quiet op = true → allowed op = true) as Hq
    by (intros op Hop; unfold allowed; by rewrite Hop).
  assert (∀ u, user_ident <$> Some usr = Some u → allowed (reset_credentials u) = true)
    as Hr.
  { intros u [= <-]. unfold allowed. simpl. rewrite bool_decide_eq_true_2 by done. done. }
  destruct (reset_api_preserve P allowed Hops Hq self w chat (Some usr) message Hr db)
    as [?|?]; [by left|by left|right; by eexists].
Qed.

Lemma get_user_assignment_status user db a :
  (Storage.get_user_assignment user db).1 = inr (Some a) →
  (chat_id a, user, credentials_status a) ∈ statuses db.
Proof.
  intros (_ & _ & r & Hr & Hu & Hs & Hc)%get_user_assignment_row.
  unfold statuses. apply list_elem_of_fmap. exists r. split; [|done]. by rewrite Hu, Hs, Hc.
Qed.

Lemma private_message_statuses self w message user db :
  well_formed db →
  let db' := step self db (w, private_message message user) in
  statuses db' = statuses db
  ∨ ∃ m usr a,
      message = Some m ∧ user = Some usr
      ∧ (Storage.get_user_assignment (user_ident usr) db).1 = inr (Some a)
      ∧ private_message_effect self w m usr a db db'.
Proof.
  intros [_ Hknown]. cbv zeta. unfold step. cbn [fst snd handle].
  destruct message as [m|]; [|by left]. destruct user as [usr|]; [|by left].
  unfold handle_private_message. cbv zeta. fold (message_text_of m).
  destruct (Py.truthy (message_text_of m)); [|by left].
  change (negb true) with false. cbv iota.
  rewrite bind_call, get_user_assignment_eq.
  destruct (head _) as [a|] eqn:Ea; [|by left].
  assert ((Storage.get_user_assignment (user_ident usr) db).1 = inr (Some a)) as Ha.
  { rewrite get_user_assignment_eq. simpl. by rewrite Ea. }
  pose proof (get_user_assignment_row _ _ _ Ha) as (_ & Hne & _).
  pose proof (get_user_assignment_status _ _ _ Ha) as Hin.
  rewrite Forall_forall in Hknown. specialize (Hknown _ Hin). simpl in Hknown.
  destruct Hknown as [Hs|[Hs|Hs]]; rewrite Hs.
  - change (String.eqb (Py.or_else (Some "pending_key") "pending_key") "pending_key")
      with true. cbv iota.
    destruct (_validate_api_key _) eqn:Ev; [|by left].
    change (negb true) with false. cbv iota.
    rewrite bind_call, store_api_key_eq, update_assignment_of_user_eq.
    destruct (filter _ _) eqn:Ef; [done|].
    right. exists m, usr, a. split_and!; [done..|]. left. split_and!; [done..|].
    cbn [snd send]. apply statuses_amended.
  - change (String.eqb (Py.or_else (Some "pending_secret") "pending_key") "pending_key")
      with false.
    change (String.eqb (Py.or_else (Some "pending_secret") "pending_key") "pending_secret")
      with true.
    cbv iota.
    destruct (_validate_api_secret _) eqn:Ev; [|by left].
    change (negb true) with false. cbv iota.
    destruct (_verify_credentials _ _ _ _) as [verified detail] eqn:Everify.
    rewrite bind_call, store_api_secret_eq, update_assignment_of_user_eq.
    destruct (filter _ _) eqn:Ef; [done|]. clear Ef Hne.
    set (db1 := set_assignments _ db).
    assert (statuses db1
            = set_status (user_ident usr) (if verified then "active" else "pending_secret")
                (statuses db)) as H1 by apply statuses_amended.
    right. exists m, usr, a. split_and!; [done..|]. right. split_and!; [done..|].
    exists verified. split.
    { intros ->. apply (verify_credentials_passed self w (Py.or_else (api_key a) "")
                          (message_text_of m)). by rewrite Everify. }
    destruct verified.
    + rewrite bind_then, bind_send.
      pose proof (ensure_customer_exists_store self w a
                    (Some (Py.or_else (api_key a) "")) (Some (message_text_of m)) db1)
        as [Hok Hdb].
      destruct (_ensure_customer_exists _ _ _ _ _ _) as [[res outs] db2]. simpl in Hok, Hdb.
      subst res. cbn [fst snd send].
      destruct Hdb as [->|[docname ->]]; [done|].
      rewrite <- H1. apply (exec_quiet db1 (store_customer_doc _ _)). done.
    + cbn [fst snd]. done.
  - change (String.eqb (Py.or_else (Some "active") "pending_key") "pending_key") with false.
    change (String.eqb (Py.or_else (Some "active") "pending_key") "pending_secret")
      with false.
    by left.
Qed.

Lemma status_step_same self w u o : status_step self w u o o.
Proof. destruct o; [apply unchanged|done]. Qed.

Lemma head_filter_app {A} (P : A → Prop) `{∀ x, Decision (P x)} (l1 l2 : list A) :
  head (filter P (l1 ++ l2)) =
    match head (filter P l1) with Some x => Some x | None => head (filter P l2) end.
Proof. rewrite filter_app. by destruct (filter P l1). Qed.

Lemma same_user_same_row db x y :
  well_formed db → x ∈ statuses db → y ∈ statuses db → x.1.2 = y.1.2 → x = y.
Proof.
  intros [[_ Hu] _] Hx Hy Hxy. rewrite statuses_user_ids in Hu.
  by apply (NoDup_fmap_eq (λ x, x.1.2) (statuses db)).
Qed.

(** C3 (amended): over every sequence of updates, an update leaves the
    credentials status of a chat's assignment as it is or moves it along
    pending_key to pending_secret (a private message with a valid key),
    pending_secret to active (a private message with a valid secret for
    which the verification passed: a 2xx answer, or no ERPNext base URL
    configured so that the verification is skipped), or back to pending_key
    (the reset command); an assignment that appears starts in pending_key. *)
Theorem credentials_status_transitions self updates w u chat :
  status_step self w u
    (credentials_status_of (run self updates) chat)
    (credentials_status_of (step self (run self updates) (w, u)) chat).
Proof.
  pose proof (run_well_formed self updates) as Hwf.
  set (db := run self updates) in *.
  pose proof (quiet_update_statuses self w u db) as Hquiet.
  destruct u as [| | |message user|c user message|?|query|?|c user message];
    try (rewrite (credentials_status_of_quiet _ _ _ Hquiet); apply status_step_same).
  - (* private message *)
    destruct (private_message_statuses self w message user db Hwf)
      as [Hs|(m & usr & a & -> & -> & Ha & Heff)].
    { rewrite (credentials_status_of_quiet _ _ _ Hs). apply status_step_same. }
    pose proof (get_user_assignment_status _ _ _ Ha) as Hin.
    assert (∀ s new,
              statuses (step self db (w, private_message (Some m) (Some usr)))
              = set_status (user_ident usr) new (statuses db) →
              credentials_status_of db chat = Some s →
              credentials_status_of (step self db (w, private_message (Some m) (Some usr)))
                chat = Some s
              ∨ (s = credentials_status a
                 ∧ credentials_status_of
                     (step self db (w, private_message (Some m) (Some usr))) chat
                   = Some (Some new))) as Hrow.
    { intros s new Hset Hbefore.
      rewrite (credentials_status_of_set_status _ _ _ _ _ Hset).
      unfold credentials_status_of in Hbefore.
      destruct (head _) as [x|] eqn:Ex; [|done]. injection Hbefore as <-. simpl.
      destruct (x.1.2 =? user_ident usr) eqn:E; [|by left]. right. split; [|done].
      apply head_Some_elem_of, list_elem_of_filter in Ex as [_ Hx].
      assert (x = (chat_id a, user_ident usr, credentials_status a)) as ->; [|done].
      apply (same_user_same_row db); [done..|simpl; lia]. }
    unfold status_step.
    destruct (credentials_status_of db chat) as [s|] eqn:Eb.
    + destruct Heff as [(Hst & Hv & Hset)|(Hst & Hv & verified & Hpass & Hset)];
        destruct (Hrow _ _ Hset eq_refl) as [->|[-> ->]]; try apply unchanged.
      * rewrite Hst. by eapply key_stored.
      * rewrite Hst. destruct verified; [|apply unchanged].
        eapply secret_verified; [done..|by apply Hpass].
    + assert (credentials_status_of (step self db (w, private_message (Some m) (Some usr)))
                chat = None) as ->; [|done].
      destruct Heff as [(_ & _ & Hset)|(_ & _ & verified & _ & Hset)];
        rewrite (credentials_status_of_set_status _ _ _ _ _ Hset);
        unfold credentials_status_of in Eb; by destruct (head _).
  - (* reset *)
    destruct (reset_api_statuses self w c user message db) as [Hs|[usr Hset]].
    { rewrite (credentials_status_of_quiet _ _ _ Hs). apply status_step_same. }
    rewrite (credentials_status_of_set_status _ _ _ _ _ Hset).
    unfold credentials_status_of, status_step.
    destruct (head _) as [x|]; [|done]. simpl.
    destruct (x.1.2 =? usr); [by eapply credentials_reset|apply unchanged].
  - (* assign callback *)
    destruct (assign_callback_statuses self w query db) as (l & Hl & Hpk).
    unfold credentials_status_of, status_step. rewrite Hl, head_filter_app.
    destruct (head (filter _ (statuses db))) as [x|]; [apply unchanged|].
    destruct (head _) as [y|] eqn:Ey; [|done]. simpl.
    apply head_Some_elem_of, list_elem_of_filter in Ey as [_ Hy].
    rewrite Forall_forall in Hpk. by apply Hpk.
  - (* clear *)
    destruct (clear_assignments_statuses self w c user message db) as [Hs|Hs].
    { rewrite (credentials_status_of_quiet _ _ _ Hs). apply status_step_same. }
    unfold credentials_status_of at 2. rewrite Hs. simpl.
    unfold status_step. by destruct (credentials_status_of db chat).
Qed.

(** ** Scenarios *)

(** C3, as stated, fails: without a base URL the status becomes active
    although no verification call returned an affirmative result. *)
Lemma active_without_external_verification :
  let db := run unverified_bot (until_pending_secret world_unreachable) in
  let db' :=
    step unverified_bot db
      (world_unreachable,
       private_message (says manager_chat "2a428d03deaceb8") (Some manager)) in
  credentials_status_of db 555 = Some (Some "pending_secret")
  ∧ credentials_status_of db' 555 = Some (Some "active")
  ∧ ¬ externally_verified unverified_bot world_unreachable.
Proof.
  split_and!; [vm_compute; reflexivity..|]. by intros [? _].
Qed.

(** C4, as stated, fails: the detail of the failed verification is sent to
    the user only; the message to the assigned chat does not contain it. *)
Lemma failure_detail_not_sent_to_chat :
  let db := run demo_bot (until_pending_secret world_refusing) in
  let r :=
    handle_private_message demo_bot world_refusing
      (says manager_chat "2a428d03deaceb8") (Some manager) db in
  _verify_credentials demo_bot world_refusing "3739e78cec4e139" "2a428d03deaceb8"
  = (false, Some "HTTP 401: Unauthorized")
  ∧ sent r =
      [reply_text 111
         ("API secret saqlandi, biroq ERPNext bilan ulanish amalga oshmadi. Lutfan ma'lumotlarni tekshiring."
          +:+ nl +:+ "Ma'lumot: HTTP 401: Unauthorized") None;
       send_message 555
         "Ali API ma'lumotlarini yubordi, ammo ERPNext bilan ulanish amalga oshmadi."]
  ∧ ¬ detail_sent_to 555 "HTTP 401: Unauthorized" (sent r).
Proof.
  assert (sent (handle_private_message demo_bot world_refusing
                  (says manager_chat "2a428d03deaceb8") (Some manager)
                  (run demo_bot (until_pending_secret world_refusing)))
          = [reply_text 111
               ("API secret saqlandi, biroq ERPNext bilan ulanish amalga oshmadi. Lutfan ma'lumotlarni tekshiring."
                +:+ nl +:+ "Ma'lumot: HTTP 401: Unauthorized") None;
             send_message 555
               "Ali API ma'lumotlarini yubordi, ammo ERPNext bilan ulanish amalga oshmadi."])
    as Hsent by (vm_compute; reflexivity).
  cbv zeta. split_and!; [vm_compute; reflexivity|exact Hsent|].
  rewrite Hsent. intros (text & Hin & Hc).
  apply elem_of_cons in Hin as [?|Hin]; [done|].
  apply list_elem_of_singleton in Hin. injection Hin as ->.
  vm_compute in Hc. done.
Qed.

(** [failed_verification] on the manager's secret that ERPNext refuses. *)
Lemma failed_verification_witness :
  failed_verification_outcome demo_bot world_refusing
    (mkMessage manager_chat (Some "2a428d03deaceb8")) manager
    (mkAssignment 555 111 "2025-01-01T00:00:00Z" (Some "3739e78cec4e139") None
       (Some "pending_secret") None (Some "Savdo") None (Some "Ali") None)
    (Some "HTTP 401: Unauthorized")
    (run demo_bot (until_pending_secret world_refusing)).
Proof.
  apply failed_verification; vm_compute; reflexivity.
Defined.

(** C5, as stated, fails: a blank text is invalid as a key and as a secret
    but gets no reply, and a key with blanks around it, seventeen
    characters long, is accepted and stored without the blanks. *)
Lemma blank_text_not_answered :
  let db := run demo_bot (until_pending_secret world_thirteen) in
  let db0 := run demo_bot (take 2 (until_pending_secret world_thirteen)) in
  credentials_status_of db0 555 = Some (Some "pending_key")
  ∧ _validate_api_key "   " = false
  ∧ handle_private_message demo_bot world_thirteen (says manager_chat "   ") (Some manager) db0
    = (inr tt, [], db0)
  ∧ String.length " 3739e78cec4e139 " = 17%nat
  ∧ api_key <$> head (assignment_join (λ _, true)
      (step demo_bot db0
         (world_thirteen, private_message (says manager_chat " 3739e78cec4e139 ")
                            (Some manager))))
    = Some (Some "3739e78cec4e139")
  ∧ credentials_status_of db 555 = Some (Some "pending_secret")
  ∧ _validate_api_secret "   " = false
  ∧ handle_private_message demo_bot world_thirteen (says manager_chat "   ") (Some manager) db
    = (inr tt, [], db).
Proof. split_and!; vm_compute; reflexivity. Qed.

(** [credential_text_handling] on the first key the manager sends. *)
Lemma credential_text_handling_witness :
  key_text_outcome demo_bot world_thirteen
    (mkMessage manager_chat (Some "3739e78cec4e139")) manager
    (mkAssignment 555 111 "2025-01-01T00:00:00Z" None None (Some "pending_key") None
       (Some "Savdo") None (Some "Ali") None)
    (run demo_bot (take 2 (until_pending_secret world_thirteen))).
Proof.
  refine (proj1 (credential_text_handling demo_bot world_thirteen
           (mkMessage manager_chat (Some "3739e78cec4e139")) manager
           (mkAssignment 555 111 "2025-01-01T00:00:00Z" None None (Some "pending_key") None
              (Some "Savdo") None (Some "Ali") None)
           (run demo_bot (take 2 (until_pending_secret world_thirteen))) _) eq_refl).
  vm_compute. reflexivity.
Defined.

(** C6, as stated, fails: the manager's draft was started in another
    group; a pick of index 13 out of thirteen options, pressed in the group
    the manager is assigned to now, is rejected and the draft is deleted. *)
Lemma out_of_range_pick_deletes_draft_of_other_chat :
  let db := run demo_bot until_draft_elsewhere in
  let r :=
    handle_choice_callback demo_bot world_thirteen
      (presses manager group_555 "pick_item_group:555:111:13") db in
  (λ d, (draft_chat_id (item_drafts.state d),
         length (draft_choices (item_drafts.state d) "item_groups")))
    <$> tbl_item_drafts db = [(Some 777, 13%nat)]
  ∧ credentials_status_of db 555 = Some (Some "active")
  ∧ sent r = [answer (Some "Jarayon topilmadi. /new bilan qayta boshlang.") true]
  ∧ tbl_item_drafts r.2 = [].
Proof. split_and!; vm_compute; reflexivity. Qed.

(** [choice_pagination_protocol] on a pick of index 13 out of thirteen
    options. *)
Lemma choice_pagination_protocol_witness :
  pick_outcome demo_bot world_thirteen
    (mkQuery (Some manager) (Some "pick_item_group:555:111:13")
       (Some (mkMessage group_555 None)))
    555 111 (draft_at_group thirteen)
    (set_item_drafts [item_drafts.mk 111 (draft_at_group thirteen) "2025-01-01T00:00:00Z"]
       (run demo_bot until_draft_elsewhere)).
Proof.
  eapply (proj2 (proj2 choice_pagination_protocol)); try (vm_compute; reflexivity).
  right. vm_compute. discriminate.
Defined.

(** * Further properties *)

(** ** Numbers as text *)

Lemma all_chars_impl (p q : ascii → bool) s :
  (∀ c, p c = true → q c = true) → all_chars p s = true → all_chars q s = true.
Proof.
  intros Hpq. induction s as [|c s IH]; simpl; [done|].
  intros [Hc Hs]%andb_true_iff. by rewrite (Hpq c Hc), IH.
Qed.

Lemma all_chars_app p a b : all_chars p (a +:+ b) = all_chars p a && all_chars p b.
Proof.
  induction a as [|c a IH]; rewrite ?append_nil_l, ?append_cons; simpl; [done|].
  by rewrite IH, andb_assoc.
Qed.

Lemma digits_string_of_uint acc b d :
  d ≠ Decimal.Nil ∨ b = true →
  Py.digits acc b (NilEmpty.string_of_uint d) = Some (uval acc d).
Proof.
  revert acc b. induction d; intros acc b Hb; simpl;
    try (apply IHd; by right).
  destruct Hb as [?| ->]; done.
Qed.

Lemma uval_of_uint_acc d p : uval (Z.pos p) d = Z.pos (Pos.of_uint_acc d p).
Proof.
  revert p. induction d; intros p; simpl; [done|..]; rewrite <- IHd; f_equal; lia.
Qed.

Lemma uval_of_uint d : uval 0 d = Z.of_N (Pos.of_uint d).
Proof.
  induction d; simpl; [done|exact IHd|..]; apply uval_of_uint_acc.
Qed.

Lemma string_of_uint_digits d : all_chars is_digit (NilEmpty.string_of_uint d) = true.
Proof. induction d; simpl; done. Qed.

Lemma string_of_uint_nonempty d : d ≠ Decimal.Nil → NilEmpty.string_of_uint d ≠ "".
Proof. by destruct d. Qed.

Lemma strip_word s : word s → Py.strip s = s.
Proof.
  intros Hw. unfold Py.strip.
  rewrite <- (append_nil_r s) at 1. rewrite (lstrip_word_app s "" Hw), append_nil_r.
  by apply rstrip_word.
Qed.

Lemma sign_or_digit_no_int_space c : is_sign_or_digit c = true → Py.int_isspace c = false.
Proof.
  destruct c as [[] [] [] [] [] [] [] []]; intros H; try reflexivity;
    vm_compute in H; discriminate H.
Qed.

Lemma int_lstrip_fixed s :
  all_chars (λ c, negb (Py.int_isspace c)) s = true → Py.int_lstrip s = s.
Proof.
  destruct s as [|c s]; simpl; [done|]. intros [Hc _]%andb_true_iff.
  apply negb_true_iff in Hc. by rewrite Hc.
Qed.

Lemma int_rstrip_fixed s :
  all_chars (λ c, negb (Py.int_isspace c)) s = true → Py.int_rstrip s = s.
Proof.
  induction s as [|c s IH]; simpl; [done|]. intros [Hc Hs]%andb_true_iff.
  apply negb_true_iff in Hc. rewrite (IH Hs), Hc. by destruct s.
Qed.

(** [int] skips nothing of a text of signs and digits. *)
Lemma int_skips_nothing s :
  all_chars is_sign_or_digit s = true → Py.int_rstrip (Py.int_lstrip s) = s.
Proof.
  intros Hs.
  assert (all_chars (λ c, negb (Py.int_isspace c)) s = true) as Hn.
  { eapply all_chars_impl; [|exact Hs]. intros c Hc.
    by rewrite (sign_or_digit_no_int_space c Hc). }
  by rewrite (int_lstrip_fixed s Hn), (int_rstrip_fixed s Hn).
Qed.

Lemma digits_are_signs_or_digits s :
  all_chars is_digit s = true → all_chars is_sign_or_digit s = true.
Proof.
  apply all_chars_impl. intros c Hc. unfold is_sign_or_digit. by rewrite Hc.
Qed.

(** [int] on a text of digits reads the digits. *)
Lemma int_digits s :
  all_chars is_digit s = true → s ≠ "" → Py.int s = Py.digits 0 false s.
Proof.
  intros Hs Hne. unfold Py.int.
  rewrite (int_skips_nothing s (digits_are_signs_or_digits s Hs)).
  destruct s as [|c r]; [done|]. simpl in Hs. apply andb_true_iff in Hs as [Hc _].
  destruct c as [[] [] [] [] [] [] [] []]; try reflexivity;
    vm_compute in Hc; discriminate Hc.
Qed.

Lemma int_minus_digits s :
  all_chars is_digit s = true → s ≠ "" →
  Py.int (String "-" s) = Z.opp <$> Py.digits 0 false s.
Proof.
  intros Hs Hne. unfold Py.int.
  rewrite (int_skips_nothing (String "-" s)); [done|].
  simpl. by apply digits_are_signs_or_digits.
Qed.

Lemma str_pos p : Py.str (Z.pos p) = NilEmpty.string_of_uint (Pos.to_uint p).
Proof.
  unfold Py.str. simpl. pose proof (Unsigned.to_uint_nonnil p) as Hnil.
  by destruct (Pos.to_uint p).
Qed.

Lemma str_neg p : Py.str (Z.neg p) = String "-" (NilEmpty.string_of_uint (Pos.to_uint p)).
Proof.
  unfold Py.str. simpl. pose proof (Unsigned.to_uint_nonnil p) as Hnil.
  by destruct (Pos.to_uint p).
Qed.

Lemma digits_to_uint p :
  Py.digits 0 false (NilEmpty.string_of_uint (Pos.to_uint p)) = Some (Z.pos p).
Proof.
  rewrite digits_string_of_uint by (left; apply Unsigned.to_uint_nonnil).
  by rewrite uval_of_uint, DecimalPos.Unsigned.of_to.
Qed.

(** [int(str(n)) == n] *)
Lemma int_str n : Py.int (Py.str n) = Some n.
Proof.
  destruct n as [|p|p].
  - reflexivity.
  - rewrite str_pos, int_digits, digits_to_uint;
      [done|apply string_of_uint_digits
      |apply string_of_uint_nonempty, Unsigned.to_uint_nonnil].
  - rewrite str_neg, int_minus_digits, digits_to_uint;
      [done|apply string_of_uint_digits
      |apply string_of_uint_nonempty, Unsigned.to_uint_nonnil].
Qed.

Lemma str_chars n : all_chars is_sign_or_digit (Py.str n) = true.
Proof.
  assert (∀ d, all_chars is_sign_or_digit (NilEmpty.string_of_uint d) = true) as Hd.
  { intros d. eapply all_chars_impl; [|apply string_of_uint_digits].
    intros c Hc. unfold is_sign_or_digit. by rewrite Hc. }
  destruct n as [|p|p]; [done|by rewrite str_pos|rewrite str_neg; simpl; by rewrite Hd].
Qed.

Lemma str_nonempty n : Py.str n ≠ "".
Proof.
  destruct n as [|p|p]; [done| |by rewrite str_neg].
  rewrite str_pos. apply string_of_uint_nonempty, Unsigned.to_uint_nonnil.
Qed.

Lemma sign_or_digit_no_space c : is_sign_or_digit c = true → Py.isspace c = false.
Proof.
  destruct c as [[] [] [] [] [] [] [] []]; intros H; try reflexivity;
    vm_compute in H; discriminate H.
Qed.

Lemma str_word n : word (Py.str n).
Proof.
  split; [|apply str_nonempty].
  pose proof (str_chars n) as H. induction (Py.str n) as [|c s IH]; simpl in *; [done|].
  apply andb_true_iff in H as [Hc Hs]. by rewrite (sign_or_digit_no_space c Hc), IH.
Qed.

(** ** Splitting at a separator *)

Lemma split_at_app sep a b :
  all_chars (λ c, negb (Ascii.eqb c sep)) a = true →
  Py.split_at sep (a +:+ String sep b) = (a, Some b).
Proof.
  induction a as [|c a IH]; rewrite ?append_nil_l, ?append_cons; simpl.
  - by rewrite Ascii.eqb_refl.
  - intros [Hc Ha]%andb_true_iff. apply negb_true_iff in Hc. by rewrite Hc, IH.
Qed.

Lemma split_at_app_str sep a b :
  all_chars (λ c, negb (Ascii.eqb c sep)) a = true →
  Py.split_at sep (a +:+ String sep "" +:+ b) = (a, Some b).
Proof. apply split_at_app. Qed.

Lemma split_at_none sep a :
  all_chars (λ c, negb (Ascii.eqb c sep)) a = true → Py.split_at sep a = (a, None).
Proof.
  induction a as [|c a IH]; simpl; [done|].
  intros [Hc Ha]%andb_true_iff. apply negb_true_iff in Hc. by rewrite Hc, IH.
Qed.

Lemma str_no_sep sep n :
  is_sign_or_digit sep = false →
  all_chars (λ c, negb (Ascii.eqb c sep)) (Py.str n) = true.
Proof.
  intros Hsep. eapply all_chars_impl; [|apply str_chars].
  intros c Hc. apply negb_true_iff. destruct (Ascii.eqb_spec c sep) as [->|]; [|done].
  congruence.
Qed.

(** ** [_chunk] *)

Lemma chunk_go_concat {A} size (batch items : list A) :
  concat (_chunk_go size batch items) = batch ++ items.
Proof.
  revert batch. induction items as [|x items IH]; intros batch; simpl.
  - destruct batch; simpl; by rewrite ?app_nil_r.
  - destruct (length (batch ++ [x]) =? size)%nat; simpl; rewrite IH; simpl;
      by rewrite <- ?app_assoc.
Qed.

Lemma chunk_go_nonempty {A} size (batch items : list A) :
  Forall (λ b, b ≠ []) (_chunk_go size batch items).
Proof.
  revert batch. induction items as [|x items IH]; intros batch; simpl.
  - destruct batch; repeat constructor. done.
  - destruct (length (batch ++ [x]) =? size)%nat; [|apply IH].
    constructor; [by destruct batch|apply IH].
Qed.

Lemma chunk_go_sizes {A} size (batch items : list A) :
  (length batch < size)%nat →
  Forall (λ b, (length b ≤ size)%nat) (_chunk_go size batch items)
  ∧ ∀ i b, _chunk_go size batch items !! i = Some b →
           (S i < length (_chunk_go size batch items))%nat → length b = size.
Proof.
  revert batch. induction items as [|x items IH]; intros batch Hb; simpl.
  - destruct batch as [|y batch]; simpl.
    + split; [constructor|]. intros i b Hi. done.
    + split; [repeat constructor; simpl in *; lia|].
      intros i b _ Hi. simpl in Hi. lia.
  - destruct (length (batch ++ [x]) =? size)%nat eqn:E.
    + apply Nat.eqb_eq in E. destruct (IH [] ltac:(simpl; lia)) as [Hall Hfull].
      split; [constructor; [lia|exact Hall]|].
      intros [|i] b Hi Hlen; simpl in *; [by injection Hi as <-|].
      apply (Hfull i b Hi). lia.
    + apply Nat.eqb_neq in E. rewrite length_app in *. simpl in *.
      apply IH. rewrite length_app. simpl. lia.
Qed.

(** X1: the batches of [_chunk], in order, make up the items; no batch is
    empty; for a positive size no batch is longer than the size and every
    batch but the last has exactly that length; for size 0 the items stay
    in one batch. *)
Theorem chunk_batches {A} (items : list A) (size : nat) :
  concat (_chunk items size) = items
  ∧ Forall (λ b, b ≠ []) (_chunk items size)
  ∧ ((0 < size)%nat →
       Forall (λ b, (length b ≤ size)%nat) (_chunk items size)
       ∧ ∀ i b, _chunk items size !! i = Some b →
                (S i < length (_chunk items size))%nat → length b = size)
  ∧ _chunk items 0 = match items with [] => [] | _ => [items] end.
Proof.
  unfold _chunk. split_and!.
  - apply chunk_go_concat.
  - apply chunk_go_nonempty.
  - intros Hs. by apply chunk_go_sizes.
  - assert (∀ batch : list A,
              _chunk_go 0 batch items
              = match batch ++ items with [] => [] | l => [l] end) as H.
    { induction items as [|x items IH]; intros batch; simpl.
      - rewrite app_nil_r. by destruct batch.
      - rewrite length_app. simpl. rewrite Nat.add_1_r. simpl.
        rewrite IH, <- app_assoc. done. }
    rewrite (H []). simpl. by destruct items.
Qed.

Lemma elem_of_chunk {A} (items : list A) size row x :
  row ∈ _chunk items size → x ∈ row → x ∈ items.
Proof.
  intros Hrow Hx. pose proof (chunk_go_concat size [] items) as Hc. simpl in Hc.
  rewrite <- Hc. apply list_elem_of_In, in_concat. exists row. by rewrite <- !list_elem_of_In.
Qed.

(** ** Callback data of the choice keyboard *)

Lemma str_no_colon n : no_colon (Py.str n) = true.
Proof. by apply str_no_sep. Qed.

Lemma split_at_colon a b :
  no_colon a = true → Py.split_at ":" (a +:+ ":" +:+ b) = (a, Some b).
Proof. apply (split_at_app ":" a b). Qed.

Lemma parse_choice_data_encoded action c u value :
  no_colon action = true →
  parse_choice_data (action +:+ ":" +:+ Py.str c +:+ ":" +:+ Py.str u +:+ ":" +:+ value)
  = Some (action, c, u, value).
Proof.
  intros Ha. unfold parse_choice_data.
  cbn [Py.split_sep].
  rewrite (split_at_colon action _ Ha).
  rewrite (split_at_colon (Py.str c) _ (str_no_colon c)).
  rewrite (split_at_colon (Py.str u) _ (str_no_colon u)).
  by rewrite !int_str.
Qed.

Lemma choice_kind_no_colon kind key prompt :
  CHOICE_CONFIG !! kind = Some (key, prompt) → kind = "item_group" ∨ kind = "uom".
Proof.
  unfold CHOICE_CONFIG. intros H.
  apply lookup_insert_Some in H as [[<- _]|[_ H]]; [by left|].
  apply lookup_singleton_Some in H as [<- _]. by right.
Qed.

Lemma kind_of_pick kind : kind_of_action ("pick_" +:+ kind) = kind.
Proof. reflexivity. Qed.

Lemma kind_of_page kind : kind_of_action ("page_" +:+ kind) = kind.
Proof. reflexivity. Qed.

Lemma max_page_bounds choices :
  0 ≤ max_page choices ∧ 0 ≤ clamp_page choices 0
  ∧ ∀ page, 0 ≤ clamp_page choices page ≤ max_page choices.
Proof. unfold clamp_page, max_page. split_and!; intros; lia. Qed.

Lemma nav_buttons_elem b l1 l2 kind chat_id user_id p (c1 c2 : bool) :
  b ∈ (if c1 then [nav_button l1 kind chat_id user_id (p - 1)] else [])
      ++ (if c2 then [nav_button l2 kind chat_id user_id (p + 1)] else []) →
  (∃ label, b = nav_button label kind chat_id user_id (p - 1) ∧ c1 = true)
  ∨ (∃ label, b = nav_button label kind chat_id user_id (p + 1) ∧ c2 = true).
Proof.
  intros [Hb|Hb]%elem_of_app.
  - destruct c1; [|by apply elem_of_nil in Hb].
    apply list_elem_of_singleton in Hb. left. by eexists.
  - destruct c2; [|by apply elem_of_nil in Hb].
    apply list_elem_of_singleton in Hb. right. by eexists.
Qed.

(** X2: every button of the keyboard that [_send_choice_keyboard] renders
    for a kind of [CHOICE_CONFIG] carries callback data that
    [handle_choice_callback] parses back to the same chat and user; a pick
    button names the index of an option of the list and shows that option's
    label, a navigation button names a page next to the shown one and
    within the pages of the list. *)
Theorem rendered_buttons_parse_back kind key prompt choices page chat_id user_id row b :
  CHOICE_CONFIG !! kind = Some (key, prompt) →
  row ∈ shown_markup (render_choices kind prompt choices page chat_id user_id) →
  b ∈ row →
  rendered_button kind choices
    (shown_page (render_choices kind prompt choices page chat_id user_id))
    chat_id user_id b.
Proof.
  intros Hkind Hrow Hb.
  assert (no_colon ("pick_" +:+ kind) = true ∧ no_colon ("page_" +:+ kind) = true)
    as [Hpick Hpage] by (by destruct (choice_kind_no_colon _ _ _ Hkind) as [-> | ->]).
  unfold render_choices in *. cbn [shown_markup shown_page] in *.
  pose proof (proj2 (proj2 (max_page_bounds choices)) page) as Hclamp.
  set (p := clamp_page choices page) in *.
  set (start := p * CHOICE_PAGE_SIZE) in *.
  set (len := Z.of_nat (length choices)) in *.
  set (end_ := Z.min len (start + CHOICE_PAGE_SIZE)) in *.
  assert (0 ≤ start) as Hstart by (unfold start, CHOICE_PAGE_SIZE; lia).
  assert (b ∈ map (λ io : Z * string, choice_button kind chat_id user_id io.1 io.2)
                (imap (λ i option, (start + Z.of_nat i, option))
                   (take (Z.to_nat (end_ - start)) (drop (Z.to_nat start) choices)))
          ∨ (∃ label, b = nav_button label kind chat_id user_id (p - 1) ∧ 0 < p)
          ∨ (∃ label, b = nav_button label kind chat_id user_id (p + 1) ∧ end_ < len))
    as [Hin|[(label & -> & Hp)|(label & -> & Hp)]].
  { destruct (_ ++ _) as [|nb nav] eqn:Enav.
    - left. by eapply elem_of_chunk.
    - apply elem_of_app in Hrow as [Hrow|Hrow%list_elem_of_singleton].
      + left. by eapply elem_of_chunk.
      + subst row. rewrite <- Enav in Hb.
        destruct (nav_buttons_elem _ _ _ _ _ _ _ _ _ Hb)
          as [(label & -> & E)|(label & -> & E)]; right; [left|right];
          (eexists; split; [done|lia]). }
  - left. apply list_elem_of_In, in_map_iff in Hin as ([n option] & <- & Hin).
    apply list_elem_of_In, elem_of_lookup_imap_1 in Hin as (i & y & [= -> ->] & Hi).
    apply lookup_take_Some in Hi as [Hi Hlt]. rewrite lookup_drop in Hi.
    exists (start + Z.of_nat i), y. simpl.
    pose proof (lookup_lt_Some _ _ _ Hi) as Hlen.
    split_and!.
    + unfold button_target, choice_button. simpl.
      by rewrite <- append_assoc, (parse_choice_data_encoded _ _ _ _ Hpick).
    + lia.
    + unfold len. lia.
    + rewrite <- Hi. f_equal. lia.
    + done.
  - right. exists (p - 1). split_and!; [|lia|lia|by left].
    unfold button_target, nav_button. simpl.
    by rewrite <- append_assoc, (parse_choice_data_encoded _ _ _ _ Hpage).
  - right. exists (p + 1). split_and!; [|lia| |by right].
    + unfold button_target, nav_button. simpl.
      by rewrite <- append_assoc, (parse_choice_data_encoded _ _ _ _ Hpage).
    + unfold max_page. fold len. unfold end_, start, CHOICE_PAGE_SIZE in *.
      assert (p + 1 ≤ (len - 1) `div` 6) by (apply Z.div_le_lower_bound; lia). lia.
Qed.

(** ** Rows by key *)

Lemma fetchone_nil {A} (p : A → bool) : Sql.fetchone p [] = None.
Proof. reflexivity. Qed.

Lemma fetchone_cons {A} (p : A → bool) (x : A) (t : list A) :
  Sql.fetchone p (x :: t) = if p x then Some x else Sql.fetchone p t.
Proof.
  unfold Sql.fetchone. destruct (p x) eqn:E.
  - by rewrite filter_cons_True.
  - rewrite filter_cons_False; [done|]. by rewrite E.
Qed.

Lemma fetchone_app {A} (p : A → bool) (t t' : list A) :
  Sql.fetchone p (t ++ t') =
    match Sql.fetchone p t with Some x => Some x | None => Sql.fetchone p t' end.
Proof.
  induction t as [|x t IH]; simpl; [done|].
  rewrite !fetchone_cons. by destruct (p x).
Qed.

(** A lookup by key after an update, by key, that keeps the keys. *)
Lemma fetchone_update {A} (key : A → Z) (k j : Z) (f : A → A) (t : list A) :
  (∀ r, key (f r) = key r) →
  Sql.fetchone (λ r, key r =? j) ((λ r, if key r =? k then f r else r) <$> t)
  = (λ r, if key r =? k then f r else r) <$> Sql.fetchone (λ r, key r =? j) t.
Proof.
  intros Hkey. induction t as [|x t IH]; [done|].
  rewrite fmap_cons, !fetchone_cons, IH.
  assert (key (if key x =? k then f x else x) = key x) as ->
    by (destruct (key x =? k); auto).
  by destruct (key x =? j).
Qed.

Lemma fetchone_delete {A} (key : A → Z) (k j : Z) (t : list A) :
  Sql.fetchone (λ r, key r =? j) (Sql.delete (λ r, key r =? k) t)
  = if j =? k then None else Sql.fetchone (λ r, key r =? j) t.
Proof.
  unfold Sql.delete. induction t as [|x t IH]; simpl; [by destruct (j =? k)|].
  destruct (key x =? k) eqn:Ek.
  - rewrite filter_cons_False by (by rewrite Ek). rewrite IH, fetchone_cons.
    destruct (j =? k) eqn:Ej; [done|].
    assert ((key x =? j) = false) as -> by lia. done.
  - rewrite filter_cons_True by done. rewrite !fetchone_cons, IH.
    destruct (j =? k) eqn:Ej; [|done].
    assert ((key x =? j) = false) as -> by lia. done.
Qed.

Lemma fetchone_key {A} (key : A → Z) (k : Z) (t : list A) r :
  Sql.fetchone (λ r, key r =? k) t = Some r → key r = k ∧ r ∈ t.
Proof. intros [Hr Hk]%fetchone_Some. split; [lia|done]. Qed.

Lemma fetchone_None_key {A} (key : A → Z) (k : Z) (t : list A) :
  Sql.fetchone (λ r, key r =? k) t = None ↔ k ∉ key <$> t.
Proof.
  rewrite fetchone_None. split.
  - intros H (r & -> & Hr)%list_elem_of_fmap. specialize (H r Hr). lia.
  - intros H r Hr. apply Z.eqb_neq. intros <-. apply H, list_elem_of_fmap. by exists r.
Qed.

Lemma existsb_fetchone {A} (p : A → bool) (t : list A) :
  existsb p t = match Sql.fetchone p t with Some _ => true | None => false end.
Proof.
  induction t as [|x t IH]; [done|]. rewrite fetchone_cons. simpl.
  by destruct (p x).
Qed.

(** ** [record_user] and [record_group_chat] *)

Lemma record_user_eq now i u f l db :
  Storage.record_user now i u f l db =
    match Sql.fetchone (λ x, users.telegram_id x =? i) (tbl_users db) with
    | Some _ =>
        (inr false,
         set_users
           ((λ x, if users.telegram_id x =? i
                  then users.mk (users.telegram_id x) u f l (users.started_at x) now
                  else x) <$> tbl_users db) db)
    | None => (inr true, set_users (tbl_users db ++ [users.mk i u f l now now]) db)
    end.
Proof.
  unfold Storage.record_user. unfold_conn. unfold Sql.update.
  destruct (Sql.fetchone _ _) eqn:E; simpl; [done|].
  rewrite existsb_fetchone. simpl. by rewrite E.
Qed.

Lemma record_group_chat_eq now c t db :
  Storage.record_group_chat now c t db =
    match Sql.fetchone (λ x, chats.chat_id x =? c) (tbl_chats db) with
    | Some _ =>
        (inr tt,
         set_chats
           ((λ x, if chats.chat_id x =? c
                  then chats.mk (chats.chat_id x)
                         (match t with Some t => Some t | None => chats.title x end)
                         (chats.created_at x) now
                  else x) <$> tbl_chats db) db)
    | None => (inr tt, set_chats (tbl_chats db ++ [chats.mk c t now now]) db)
    end.
Proof.
  unfold Storage.record_group_chat. unfold_conn. unfold Sql.update.
  destruct (Sql.fetchone _ _) eqn:E; simpl; [done|].
  rewrite existsb_fetchone. simpl. by rewrite E.
Qed.

Lemma get_user_eq i db :
  Storage.get_user i db =
    (inr (candidate_of_row <$> Sql.fetchone (λ x, users.telegram_id x =? i) (tbl_users db)),
     db).
Proof. reflexivity. Qed.

Lemma get_chat_eq c db :
  Storage.get_chat c db =
    (inr (Sql.fetchone (λ x, chats.chat_id x =? c) (tbl_chats db)), db).
Proof. reflexivity. Qed.

(** X3: for an id that SQLite stores, [record_user] does not raise and
    returns whether the user is new; afterwards [get_user] returns the given
    names, with the [started_at] of the first recording; what [get_user]
    returns for another such id and the other tables do not change. *)
Theorem record_user_upsert now i u f l db :
  int64 i = true →
  let r := Storage.record_user now i u f l db in
  let before := (Storage.get_user i db).1 in
  r.1 = inr (match before with inr None => true | _ => false end)
  ∧ (Storage.get_user i r.2).1
    = inr (Some (mkCandidate i u f l
                   (match before with inr (Some old) => started_at old | _ => now end)))
  ∧ (∀ j, int64 j = true → j ≠ i →
          (Storage.get_user j r.2).1 = (Storage.get_user j db).1)
  ∧ tbl_chats r.2 = tbl_chats db
  ∧ tbl_assignments r.2 = tbl_assignments db
  ∧ tbl_item_drafts r.2 = tbl_item_drafts db.
Proof.
  intros _. cbv zeta. rewrite record_user_eq, !get_user_eq. cbn [fst snd].
  destruct (Sql.fetchone _ (tbl_users db)) as [old|] eqn:E; cbn [fst snd fmap option_fmap option_map].
  - apply fetchone_key in E as Hold. destruct Hold as [Hid _].
    split_and!; try done.
    + cbn [fst set_users tbl_users].
      rewrite (fetchone_update users.telegram_id i i) by done. rewrite E. simpl.
      by rewrite Hid, Z.eqb_refl.
    + intros j _ Hj. rewrite !get_user_eq. cbn [fst set_users tbl_users].
      rewrite (fetchone_update users.telegram_id i j) by done.
      destruct (Sql.fetchone (λ r, users.telegram_id r =? j) _) as [x|] eqn:Ex; [|done].
      simpl.
      apply fetchone_key in Ex as [Hx _].
      assert ((users.telegram_id x =? i) = false) as -> by lia. done.
  - split_and!; try done.
    + cbn [fst set_users tbl_users].
      rewrite fetchone_app, E, fetchone_cons. simpl. by rewrite Z.eqb_refl.
    + intros j _ Hj. rewrite !get_user_eq. cbn [fst set_users tbl_users].
      rewrite fetchone_app, fetchone_cons. simpl.
      assert ((i =? j) = false) as -> by lia.
      by destruct (Sql.fetchone (λ r, users.telegram_id r =? j) _).
Qed.

(** X4: for an id that SQLite stores, [record_group_chat] does not raise;
    afterwards [get_chat] returns the chat with the new title, or with the
    title it had when the new one is [None], and with the [created_at] of
    the first recording; what [get_chat] returns for another such id and the
    other tables do not change. *)
Theorem record_group_chat_upsert now c t db :
  int64 c = true →
  let r := Storage.record_group_chat now c t db in
  r.1 = inr tt
  ∧ (Storage.get_chat c r.2).1
    = inr (Some (match (Storage.get_chat c db).1 with
                 | inr (Some old) =>
                     chats.mk c (match t with Some t => Some t | None => chats.title old end)
                       (chats.created_at old) now
                 | _ => chats.mk c t now now
                 end))
  ∧ (∀ j, int64 j = true → j ≠ c →
          (Storage.get_chat j r.2).1 = (Storage.get_chat j db).1)
  ∧ tbl_users r.2 = tbl_users db
  ∧ tbl_assignments r.2 = tbl_assignments db
  ∧ tbl_item_drafts r.2 = tbl_item_drafts db.
Proof.
  intros _. cbv zeta. rewrite record_group_chat_eq, !get_chat_eq. cbn [fst snd].
  destruct (Sql.fetchone _ (tbl_chats db)) as [old|] eqn:E; cbn [fst snd].
  - apply fetchone_key in E as Hold. destruct Hold as [Hid _].
    split_and!; try done.
    + cbn [fst set_chats tbl_chats].
      rewrite (fetchone_update chats.chat_id c c) by done. rewrite E. simpl.
      by rewrite Hid, Z.eqb_refl.
    + intros j _ Hj. rewrite !get_chat_eq. cbn [fst set_chats tbl_chats].
      rewrite (fetchone_update chats.chat_id c j) by done.
      destruct (Sql.fetchone (λ r, chats.chat_id r =? j) _) as [x|] eqn:Ex; [|done].
      simpl.
      apply fetchone_key in Ex as [Hx _].
      assert ((chats.chat_id x =? c) = false) as -> by lia. done.
  - split_and!; try done.
    + cbn [fst set_chats tbl_chats].
      rewrite fetchone_app, E, fetchone_cons. simpl. by rewrite Z.eqb_refl.
    + intros j _ Hj. rewrite !get_chat_eq. cbn [fst set_chats tbl_chats].
      rewrite fetchone_app, fetchone_cons. simpl.
      assert ((c =? j) = false) as -> by lia.
      by destruct (Sql.fetchone (λ r, chats.chat_id r =? j) _).
Qed.

(** ** Item drafts *)

Lemma save_item_draft_eq now u s db :
  Storage.save_item_draft now u s db =
    match Sql.fetchone (λ d, item_drafts.user_id d =? u) (tbl_item_drafts db) with
    | Some _ =>
        (inr tt,
         set_item_drafts
           ((λ d, if item_drafts.user_id d =? u
                  then item_drafts.mk (item_drafts.user_id d) s now else d)
              <$> tbl_item_drafts db) db)
    | None => (inr tt, set_item_drafts (tbl_item_drafts db ++ [item_drafts.mk u s now]) db)
    end.
Proof.
  unfold Storage.save_item_draft. unfold_conn. unfold Sql.update.
  rewrite existsb_fetchone. by destruct (Sql.fetchone _ _).
Qed.

Lemma delete_item_draft_eq u db :
  Storage.delete_item_draft u db =
    (inr tt,
     set_item_drafts
       (Sql.delete (λ d, item_drafts.user_id d =? u) (tbl_item_drafts db)) db).
Proof. reflexivity. Qed.

(** X5: for an id that SQLite stores, a draft that is saved is the draft
    that [get_item_draft] returns for that user, a deleted draft is gone,
    and neither call raises or changes what [get_item_draft] returns for
    another such id or another table. *)
Theorem item_draft_round_trip now u s db :
  int64 u = true →
  let saved := Storage.save_item_draft now u s db in
  let deleted := Storage.delete_item_draft u db in
  saved.1 = inr tt
  ∧ (Storage.get_item_draft u saved.2).1 = inr (Some s)
  ∧ deleted.1 = inr tt
  ∧ (Storage.get_item_draft u deleted.2).1 = inr None
  ∧ (∀ j, int64 j = true → j ≠ u →
       (Storage.get_item_draft j saved.2).1 = (Storage.get_item_draft j db).1
       ∧ (Storage.get_item_draft j deleted.2).1 = (Storage.get_item_draft j db).1)
  ∧ (tbl_users saved.2, tbl_chats saved.2, tbl_assignments saved.2)
    = (tbl_users db, tbl_chats db, tbl_assignments db)
  ∧ (tbl_users deleted.2, tbl_chats deleted.2, tbl_assignments deleted.2)
    = (tbl_users db, tbl_chats db, tbl_assignments db).
Proof.
  intros _. cbv zeta. rewrite save_item_draft_eq, delete_item_draft_eq.
  split_and!.
  - by destruct (Sql.fetchone _ _).
  - rewrite get_item_draft_eq. cbn [fst].
    destruct (Sql.fetchone _ (tbl_item_drafts db)) as [old|] eqn:E;
      cbn [snd set_item_drafts tbl_item_drafts].
    + rewrite (fetchone_update item_drafts.user_id u u) by done. rewrite E. simpl.
      apply fetchone_key in E as [-> _]. by rewrite Z.eqb_refl.
    + rewrite fetchone_app, E, fetchone_cons. simpl. by rewrite Z.eqb_refl.
  - done.
  - rewrite get_item_draft_eq. cbn [fst snd set_item_drafts tbl_item_drafts].
    by rewrite (fetchone_delete item_drafts.user_id u u), Z.eqb_refl.
  - intros j _ Hj. rewrite !get_item_draft_eq. cbn [fst]. split.
    + destruct (Sql.fetchone (λ d, item_drafts.user_id d =? u) (tbl_item_drafts db))
        as [old|] eqn:E;
        cbn [snd set_item_drafts tbl_item_drafts].
      * rewrite (fetchone_update item_drafts.user_id u j) by done.
        destruct (Sql.fetchone (λ d, item_drafts.user_id d =? j) _) as [x|] eqn:Ex; [|done].
        simpl. apply fetchone_key in Ex as [Hx _].
        assert ((item_drafts.user_id x =? u) = false) as -> by lia. done.
      * rewrite fetchone_app, fetchone_cons. simpl.
        assert ((u =? j) = false) as -> by lia.
        by destruct (Sql.fetchone (λ d, item_drafts.user_id d =? j) _).
    + cbn [snd set_item_drafts tbl_item_drafts].
      rewrite (fetchone_delete item_drafts.user_id u j).
      assert ((j =? u) = false) as -> by lia. done.
  - by destruct (Sql.fetchone _ _).
  - done.
Qed.

(** ** Writers of the credential columns *)

Lemma filter_nil_not_assigned u db :
  filter (λ r, (assignments.user_id r =? u) = true) (tbl_assignments db) = []
  ↔ ¬ user_assigned db u.
Proof.
  split.
  - intros Hnil (a & Ha & Hu).
    assert (a ∈ filter (λ r, (assignments.user_id r =? u) = true) (tbl_assignments db))
      as Hin by (apply list_elem_of_filter; split; [lia|done]).
    rewrite Hnil in Hin. by apply elem_of_nil in Hin.
  - intros Hno. destruct (filter _ _) as [|a l] eqn:E; [done|]. exfalso. apply Hno.
    assert (a ∈ filter (λ r, (assignments.user_id r =? u) = true) (tbl_assignments db))
      as [Hu Ha]%list_elem_of_filter by (rewrite E; left).
    exists a. split; [done|lia].
Qed.

Lemma filter_fmap_other_rows {A} (key : A → Z) (u : Z) (f : A → A) (t : list A) :
  (∀ r, key (f r) = key r) →
  filter (λ a, key a ≠ u) ((λ r, if key r =? u then f r else r) <$> t)
  = filter (λ a, key a ≠ u) t.
Proof.
  intros Hkey. induction t as [|x t IH]; [done|]. rewrite fmap_cons.
  destruct (key x =? u) eqn:E.
  - rewrite !filter_cons_False by (rewrite ?Hkey; lia). exact IH.
  - rewrite !filter_cons_True by lia. by rewrite IH.
Qed.

Lemma update_assignment_of_user_write u key secret status db :
  credential_write u db
    (Storage.update_assignment_of_user u (amend_row key secret status id) db).
Proof.
  unfold credential_write. rewrite update_assignment_of_user_eq.
  pose proof (filter_nil_not_assigned u db) as Hnil.
  destruct (filter _ _) as [|a l] eqn:E.
  - assert (¬ user_assigned db u) as Hno by (by apply Hnil).
    split_and!; [|done|done]. split; [done|]. intros _. by eexists.
  - assert (user_assigned db u) as Hyes.
    { assert (a ∈ filter (λ r, (assignments.user_id r =? u) = true) (tbl_assignments db))
        as [Hu Ha]%list_elem_of_filter by (rewrite E; left).
      exists a. split; [done|lia]. }
    split_and!.
    + split; [by intros [msg [=]]|done].
    + by intros [msg [=]].
    + intros _. cbn [fst snd set_assignments tbl_users tbl_chats tbl_item_drafts
                       tbl_assignments].
      split_and!; try done.
      * rewrite <- list_fmap_compose. apply list_fmap_ext. intros _ r _. simpl.
        by destruct (assignments.user_id r =? u).
      * by apply (filter_fmap_other_rows assignments.user_id).
Qed.

(** X6: [store_api_key], [store_api_secret] and [reset_credentials] raise
    [AssignmentError] exactly when the user has no assignment, and then the
    store is unchanged; otherwise they return normally, change no other
    table, no row of another user, and in the rows of the user only the key,
    the secret and the status. *)
Theorem credential_writers_need_assignment u api_key api_secret verified db :
  credential_write u db (Storage.store_api_key u api_key db)
  ∧ credential_write u db (Storage.store_api_secret u api_secret verified db)
  ∧ credential_write u db (Storage.reset_credentials u db).
Proof.
  rewrite store_api_key_eq, store_api_secret_eq, reset_credentials_eq.
  split_and!; apply update_assignment_of_user_write.
Qed.

(** ** The credential steps as the manager's lookup shows them *)

Lemma get_user_assignment_after user key secret status db a :
  (Storage.get_user_assignment user db).1 = inr (Some a) →
  (Storage.get_user_assignment user
     (Storage.update_assignment_of_user user (amend_row key secret status id) db).2).1
  = inr (Some (amend key secret status id a)).
Proof.
  intros Ha. rewrite update_assignment_of_user_eq.
  pose proof (get_user_assignment_row _ _ _ Ha) as (_ & Hne & _).
  destruct (filter _ _) eqn:Ef; [done|]. cbn [snd].
  by apply get_user_assignment_amended.
Qed.

(** X7: for an assigned user, [store_api_key] shows the key with the
    status pending_secret; [store_api_secret] after it shows the secret with
    the status active when verified and pending_secret when not;
    [reset_credentials] after both shows no key, no secret and the status
    pending_key, which is what it shows when it is called at once. The
    other fields of the lookup never change. *)
Theorem credential_steps user api_key api_secret verified db a :
  (Storage.get_user_assignment user db).1 = inr (Some a) →
  let db1 := (Storage.store_api_key user api_key db).2 in
  let db2 := (Storage.store_api_secret user api_secret verified db1).2 in
  let db3 := (Storage.reset_credentials user db2).2 in
  (Storage.get_user_assignment user db1).1
  = inr (Some (amend (λ _, Some api_key) id (λ _, Some "pending_secret") id a))
  ∧ (Storage.get_user_assignment user db2).1
    = inr (Some (amend (λ _, Some api_key) (λ _, Some api_secret)
                   (λ _, Some (if verified then "active" else "pending_secret")) id a))
  ∧ (Storage.get_user_assignment user db3).1
    = inr (Some (amend (λ _, None) (λ _, None) (λ _, Some "pending_key") id a))
  ∧ (Storage.get_user_assignment user db3).1
    = (Storage.get_user_assignment user (Storage.reset_credentials user db).2).1.
Proof.
  intros Ha. cbv zeta.
  rewrite store_api_key_eq, store_api_secret_eq, !reset_credentials_eq.
  pose proof (get_user_assignment_after user (λ _, Some api_key) id
                (λ _, Some "pending_secret") db a Ha) as H1.
  pose proof (get_user_assignment_after user id (λ _, Some api_secret)
                (λ _, Some (if verified then "active" else "pending_secret")) _ _ H1)
    as H2.
  pose proof (get_user_assignment_after user (λ _, None) (λ _, None)
                (λ _, Some "pending_key") _ _ H2) as H3.
  pose proof (get_user_assignment_after user (λ _, None) (λ _, None)
                (λ _, Some "pending_key") _ _ Ha) as H4.
  split_and!; [exact H1|exact H2|exact H3|by rewrite H3, H4].
Qed.

(** ** [store_customer_doc] *)

Lemma store_customer_doc_eq c docname db :
  Storage.store_customer_doc c docname db =
    (inr tt,
     set_assignments
       ((λ a, if assignments.chat_id a =? c
              then amend_row id id id (λ _, Some docname) a else a)
          <$> tbl_assignments db) db).
Proof. reflexivity. Qed.

Lemma fmap_unless {A} (p : A → bool) (f : A → A) (t : list A) :
  (∀ r, r ∈ t → p r = false) → (λ r, if p r then f r else r) <$> t = t.
Proof.
  intros H. induction t as [|x t IH]; [done|]. rewrite fmap_cons, IH.
  - rewrite (H x); [done|left].
  - intros r Hr. apply H. by right.
Qed.

(** X8: for an id that SQLite stores, [store_customer_doc] does not raise;
    for a chat without assignment it changes nothing, where the credential
    writers raise; for an assigned chat the lookup by chat afterwards shows
    the document name and the other fields as before; the other tables are
    untouched. *)
Theorem store_customer_doc_effect c docname db :
  int64 c = true →
  let r := Storage.store_customer_doc c docname db in
  r.1 = inr tt
  ∧ (¬ chat_assigned db c → r.2 = db)
  ∧ (∀ a, (Storage.get_group_assignment c db).1 = inr (Some a) →
          (Storage.get_group_assignment c r.2).1
          = inr (Some (amend id id id (λ _, Some docname) a)))
  ∧ tbl_users r.2 = tbl_users db
  ∧ tbl_chats r.2 = tbl_chats db
  ∧ tbl_item_drafts r.2 = tbl_item_drafts db.
Proof.
  intros _. cbv zeta. rewrite store_customer_doc_eq. cbn [fst snd]. split_and!; try done.
  - intros Hno. rewrite fmap_unless; [by destruct db|].
    intros r Hr. apply Z.eqb_neq. intros Hc. apply Hno. by exists r.
  - intros a. rewrite !get_group_assignment_eq. cbn [fst]. intros [= Ha].
    rewrite (assignment_join_update (λ c' _, c' =? c) (λ c' _, c' =? c)).
    rewrite head_fmap, Ha. simpl.
    apply head_Some_elem_of, assignment_join_elem in Ha as (r & ch & us & _ & Hp & ->).
    simpl. by rewrite Hp.
Qed.

(** ** Exceptions of the storage methods *)

(** X9: on every store, a storage method that is called with numbers that
    SQLite stores and that raises is one of [assign_sales_manager],
    [store_api_key], [store_api_secret] and [reset_credentials], what it
    raises is an [AssignmentError], and the store is left as it was; no such
    call ends in an integrity error of a table. *)
Theorem storage_raises_only_assignment_error db op e :
  forallb int64 (bound_numbers op) = true →
  raised db op = Some e →
  (∃ msg, e = AssignmentError msg) ∧ checks_assignment op = true ∧ exec db op = db.
Proof.
  intros _. destruct op; simpl; unfold error_of.
  - rewrite record_user_eq. by destruct (Sql.fetchone _ _).
  - unfold Storage.record_private_user. rewrite record_user_eq.
    by destruct (Sql.fetchone _ _).
  - done.
  - done.
  - rewrite record_group_chat_eq. by destruct (Sql.fetchone _ _).
  - done.
  - done.
  - done.
  - rewrite assign_sales_manager_eq. repeat case_match; simplify_eq/=; intros [= <-];
      (split_and!; [by eexists|done|done]).
  - rewrite store_api_key_eq, update_assignment_of_user_eq.
    destruct (filter _ _); simpl; [|done]. intros [= <-]. split_and!; [by eexists|done..].
  - rewrite store_api_secret_eq, update_assignment_of_user_eq.
    destruct (filter _ _); simpl; [|done]. intros [= <-]. split_and!; [by eexists|done..].
  - rewrite reset_credentials_eq, update_assignment_of_user_eq.
    destruct (filter _ _); simpl; [|done]. intros [= <-]. split_and!; [by eexists|done..].
  - done.
  - done.
  - done.
  - rewrite save_item_draft_eq. by destruct (Sql.fetchone _ _).
  - done.
  - done.
Qed.

(** ** Keys and references of the tables *)

Lemma NoDup_snoc_fresh {A} (l : list A) (x : A) : NoDup l → x ∉ l → NoDup (l ++ [x]).
Proof.
  intros Hl Hx. apply NoDup_app. split_and!; [done| |apply NoDup_singleton].
  intros y Hy ->%list_elem_of_singleton. done.
Qed.

Lemma with_chat_keys now c db :
  (chats.chat_id <$> tbl_chats (with_chat now c db) = chats.chat_id <$> tbl_chats db
   ∧ c ∈ chats.chat_id <$> tbl_chats db)
  ∨ (chats.chat_id <$> tbl_chats (with_chat now c db)
     = (chats.chat_id <$> tbl_chats db) ++ [c]
     ∧ c ∉ chats.chat_id <$> tbl_chats db).
Proof.
  unfold with_chat. destruct (Sql.fetchone _ _) as [r|] eqn:E.
  - left. split; [done|]. apply fetchone_key in E as [<- Hr].
    apply list_elem_of_fmap. by exists r.
  - right. simpl. rewrite fmap_app. split; [done|]. by apply fetchone_None_key.
Qed.

Lemma with_chat_frame now c db :
  tbl_users (with_chat now c db) = tbl_users db
  ∧ tbl_assignments (with_chat now c db) = tbl_assignments db
  ∧ tbl_item_drafts (with_chat now c db) = tbl_item_drafts db.
Proof. unfold with_chat. by destruct (Sql.fetchone _ _). Qed.

Lemma exec_consistent db op : consistent db → consistent (exec db op).
Proof.
  intros (Hk & Ho & Hr). split_and!; [| by apply exec_one_to_one |].
  - destruct Hk as (Hu & Hc & Hd). unfold keys_unique.
    destruct op as [ts i un fn ln|ts i un fn ln|i|lim|ts cid t|cid|cid|i|ts cid uid|uid k|uid sec v|uid| | |uid|ts uid st|uid|cid d];
      cbn [exec]; try (simpl; done).
    + rewrite record_user_eq. destruct (Sql.fetchone _ _) eqn:E; simpl.
      * split_and!; [|done..]. by rewrite update_keeps.
      * split_and!; [|done..]. rewrite fmap_app. simpl.
        apply NoDup_snoc_fresh; [done|]. by apply fetchone_None_key.
    + unfold Storage.record_private_user. rewrite record_user_eq.
      destruct (Sql.fetchone _ _) eqn:E; simpl.
      * split_and!; [|done..]. by rewrite update_keeps.
      * split_and!; [|done..]. rewrite fmap_app. simpl.
        apply NoDup_snoc_fresh; [done|]. by apply fetchone_None_key.
    + rewrite record_group_chat_eq. destruct (Sql.fetchone _ _) eqn:E; simpl.
      * split_and!; [done| |done]. by rewrite update_keeps.
      * split_and!; [done| |done]. rewrite fmap_app. simpl.
        apply NoDup_snoc_fresh; [done|]. by apply fetchone_None_key.
    + rewrite assign_sales_manager_eq. repeat case_match; simpl; try done.
      destruct (with_chat_frame ts cid db) as (-> & _ & ->).
      split_and!; [done| |done].
      destruct (with_chat_keys ts cid db) as [[-> _]|[-> Hfresh]]; [done|].
      by apply NoDup_snoc_fresh.
    + rewrite store_api_key_eq, update_assignment_of_user_eq. by destruct (filter _ _).
    + rewrite store_api_secret_eq, update_assignment_of_user_eq. by destruct (filter _ _).
    + rewrite reset_credentials_eq, update_assignment_of_user_eq. by destruct (filter _ _).
    + split_and!; [constructor..|done].
    + rewrite save_item_draft_eq. destruct (Sql.fetchone _ _) eqn:E; simpl.
      * split_and!; [done..|]. by rewrite update_keeps.
      * split_and!; [done..|]. rewrite fmap_app. simpl.
        apply NoDup_snoc_fresh; [done|]. by apply fetchone_None_key.
    + split_and!; [done..|]. eapply sublist_NoDup; [exact Hd|].
      apply fmap_sublist, sublist_filter.
  - destruct Hr as [Hc Hu]. unfold references_resolve, chat_ids, user_ids in *.
    destruct op as [ts i un fn ln|ts i un fn ln|i|lim|ts cid t|cid|cid|i|ts cid uid|uid k|uid sec v|uid| | |uid|ts uid st|uid|cid d];
      cbn [exec]; try (simpl; done).
    + rewrite record_user_eq. destruct (Sql.fetchone _ _) eqn:E; simpl.
      * split; [done|]. by rewrite update_keeps.
      * split; [done|]. rewrite fmap_app. by apply list_subseteq_app_l.
    + unfold Storage.record_private_user. rewrite record_user_eq.
      destruct (Sql.fetchone _ _) eqn:E; simpl.
      * split; [done|]. by rewrite update_keeps.
      * split; [done|]. rewrite fmap_app. by apply list_subseteq_app_l.
    + rewrite record_group_chat_eq. destruct (Sql.fetchone _ _) eqn:E; simpl.
      * split; [|done]. by rewrite update_keeps.
      * split; [|done]. rewrite fmap_app. by apply list_subseteq_app_l.
    + rewrite assign_sales_manager_eq.
      destruct (Sql.fetchone _ (tbl_users db)) as [ur|] eqn:Eu; [|done].
      destruct (Sql.fetchone (λ a, assignments.chat_id a =? cid) _); [done|].
      destruct (Sql.fetchone (λ a, assignments.user_id a =? uid) _); [done|].
      simpl. destruct (with_chat_frame ts cid db) as (-> & _ & _).
      rewrite !fmap_app. simpl. split.
      * intros x [Hx|Hx%list_elem_of_singleton]%elem_of_app; [|subst x].
        -- destruct (with_chat_keys ts cid db) as [[-> _]|[-> _]]; [by apply Hc|].
           apply elem_of_app. left. by apply Hc.
        -- destruct (with_chat_keys ts cid db) as [[-> Hin]|[-> _]]; [done|].
           apply elem_of_app. right. left.
      * intros x [Hx|Hx%list_elem_of_singleton]%elem_of_app; [by apply Hu|subst x].
        apply fetchone_key in Eu as [<- Hin]. apply list_elem_of_fmap. by exists ur.
    + rewrite store_api_key_eq, update_assignment_of_user_eq.
      destruct (filter _ _); [done|]. simpl. by rewrite !update_keeps.
    + rewrite store_api_secret_eq, update_assignment_of_user_eq.
      destruct (filter _ _); [done|]. simpl. by rewrite !update_keeps.
    + rewrite reset_credentials_eq, update_assignment_of_user_eq.
      destruct (filter _ _); [done|]. simpl. by rewrite !update_keeps.
    + split; apply list_subseteq_nil.
    + rewrite save_item_draft_eq. by destruct (Sql.fetchone _ _).
    + rewrite store_customer_doc_eq. simpl. by rewrite !update_keeps.
Qed.

Lemma run_consistent ops : consistent (foldl exec empty_database ops).
Proof.
  induction ops as [|op ops IH] using rev_ind.
  - repeat split; try constructor; apply list_subseteq_nil.
  - rewrite foldl_app. simpl. by apply exec_consistent.
Qed.

(** X10: after every sequence of storage operations run from the empty
    store, no two users have the same id, no two chats have the same id and
    no user has two item drafts. *)
Theorem primary_keys_unique (ops : list Op) : keys_unique (foldl exec empty_database ops).
Proof. apply run_consistent. Qed.

Lemma filter_unique_key {A} (key : A → Z) (P : A → Prop) `{∀ x, Decision (P x)}
    (t : list A) (x : A) :
  NoDup (key <$> t) → x ∈ t → P x → (∀ y, y ∈ t → P y → key y = key x) →
  filter P t = [x].
Proof.
  intros Hnd Hx HPx Hkey. induction t as [|a t IH]; [by apply elem_of_nil in Hx|].
  rewrite fmap_cons in Hnd. apply NoDup_cons in Hnd as [Ha Hnd].
  assert (∀ y, y ∈ t → P y → key y = key x) as Hkey'
    by (intros y Hy; apply Hkey; by right).
  apply elem_of_cons in Hx as [<-|Hx].
  - rewrite filter_cons_True by done. f_equal.
    destruct (filter P t) as [|y l] eqn:E; [done|]. exfalso.
    assert (y ∈ filter P t) as [HPy Hy]%list_elem_of_filter by (rewrite E; left).
    apply Ha. rewrite <- (Hkey' y Hy HPy). apply list_elem_of_fmap. by exists y.
  - rewrite filter_cons_False; [by apply IH|].
    intros HPa. apply Ha. rewrite (Hkey a (ltac:(left)) HPa).
    apply list_elem_of_fmap. by exists x.
Qed.

Lemma assignment_join_row (key : assignments.row → Z) db a c u :
  (key = assignments.chat_id ∨ key = assignments.user_id) →
  consistent db →
  a ∈ tbl_assignments db →
  c ∈ tbl_chats db → chats.chat_id c = assignments.chat_id a →
  u ∈ tbl_users db → users.telegram_id u = assignments.user_id a →
  assignment_join (λ r, key r =? key a) db = [joined a c u].
Proof.
  intros Hkey ((Hu & Hc & _) & [Hoc Hou] & _) Ha Hcin Hcid Huin Huid.
  unfold assignment_join.
  rewrite (filter_unique_key key _ _ a).
  - simpl. rewrite (filter_unique_key chats.chat_id _ _ c); try done; [|congruence].
    simpl. rewrite (filter_unique_key users.telegram_id _ _ u); try done; congruence.
  - destruct Hkey as [-> | ->]; done.
  - done.
  - apply Z.eqb_refl.
  - intros y _ Hy. lia.
Qed.

Lemma consistent_resolved db a : consistent db → a ∈ tbl_assignments db → resolved db a.
Proof.
  intros Hdb Ha. pose proof Hdb as (Hk & Ho & [Hc Hu]).
  assert (assignments.chat_id a ∈ chats.chat_id <$> tbl_chats db)
    as (c & Hcid & Hcin)%list_elem_of_fmap
    by (apply Hc, list_elem_of_fmap; by exists a).
  assert (assignments.user_id a ∈ users.telegram_id <$> tbl_users db)
    as (u & Huid & Huin)%list_elem_of_fmap
    by (apply Hu, list_elem_of_fmap; by exists a).
  exists c, u. split_and!; try done.
  - rewrite get_group_assignment_eq.
    by rewrite (assignment_join_row assignments.chat_id db a c u); auto.
  - rewrite get_user_assignment_eq.
    by rewrite (assignment_join_row assignments.user_id db a c u); auto.
Qed.

Lemma group_lookup_none db c :
  consistent db →
  head (assignment_join (λ a, assignments.chat_id a =? c) db) = None ↔ ¬ chat_assigned db c.
Proof.
  intros Hdb. split.
  - intros Hnone (a & Ha & <-).
    destruct (consistent_resolved db a Hdb Ha) as (? & ? & _ & _ & _ & _ & Hg & _).
    rewrite get_group_assignment_eq in Hg. congruence.
  - intros Hno. destruct (head _) as [v|] eqn:E; [|done]. exfalso. apply Hno.
    apply head_Some_elem_of, assignment_join_elem in E as (r & _ & _ & Hr & Hp & _).
    exists r. split; [done|lia].
Qed.

Lemma user_lookup_none db u :
  consistent db →
  head (assignment_join (λ a, assignments.user_id a =? u) db) = None ↔ ¬ user_assigned db u.
Proof.
  intros Hdb. split.
  - intros Hnone (a & Ha & <-).
    destruct (consistent_resolved db a Hdb Ha) as (? & ? & _ & _ & _ & _ & _ & Hg).
    rewrite get_user_assignment_eq in Hg. congruence.
  - intros Hno. destruct (head _) as [v|] eqn:E; [|done]. exfalso. apply Hno.
    apply head_Some_elem_of, assignment_join_elem in E as (r & _ & _ & Hr & Hp & _).
    exists r. split; [done|lia].
Qed.

(** X11: after every sequence of storage operations run from the empty
    store, every assignment row has its chat row and its user row, and
    [get_group_assignment] of its chat and [get_user_assignment] of its user
    both return this row joined with them; so a lookup returns [None] only
    for a chat or a user without assignment. *)
Theorem assignment_lookups_complete (ops : list Op) :
  let db := foldl exec empty_database ops in
  Forall (resolved db) (tbl_assignments db)
  ∧ (∀ c, (Storage.get_group_assignment c db).1 = inr None ↔ ¬ chat_assigned db c)
  ∧ (∀ u, (Storage.get_user_assignment u db).1 = inr None ↔ ¬ user_assigned db u).
Proof.
  intros db. pose proof (run_consistent ops) as Hdb. fold db in Hdb. split_and!.
  - apply Forall_forall. intros a Ha. by apply consistent_resolved.
  - intros c. rewrite get_group_assignment_eq. cbn [fst].
    rewrite <- (group_lookup_none db c Hdb). split; [by intros [= ->]|by intros ->].
  - intros u. rewrite get_user_assignment_eq. cbn [fst].
    rewrite <- (user_lookup_none db u Hdb). split; [by intros [= ->]|by intros ->].
Qed.

(** ** A successful [assign_sales_manager] *)

Lemma limit_subseteq {A} n (l : list A) : Sql.limit n l ⊆ l.
Proof.
  unfold Sql.limit. destruct (n <? 0); [done|]. apply subseteq_take.
Qed.

(** The rows that [list_unassigned_users] reads are users of the table
    without assignment. *)
Lemma listed_rows db limit row :
  row ∈ Sql.limit limit
          (Sql.order_by Storage.order_key
             (filter (λ u, Storage.unassigned db u = true)
                (Sql.order_by Storage.rowid (tbl_users db)))) →
  Storage.unassigned db row = true ∧ row ∈ tbl_users db.
Proof.
  intros H%limit_subseteq. rewrite order_by_perm in H.
  apply list_elem_of_filter in H as [Hun H]. by rewrite order_by_perm in H.
Qed.

Lemma filter_app_nil {A} (P : A → Prop) `{∀ x, Decision (P x)} (t : list A) (x : A) :
  filter P t = [] → P x → filter P (t ++ [x]) = [x].
Proof. intros Hnil Hx. by rewrite filter_app, Hnil, filter_cons_True. Qed.

Lemma head_bind {A B} (f : A → list B) (l : list A) x :
  head l = Some x → f x ≠ [] → head (l ≫= f) = head (f x).
Proof.
  destruct l as [|y l]; [done|]. intros [= ->] Hne. rewrite bind_cons.
  by destruct (f x).
Qed.

Lemma assignment_join_single p db a c u :
  filter (λ r, p r = true) (tbl_assignments db) = [a] →
  Sql.fetchone (λ x, chats.chat_id x =? assignments.chat_id a) (tbl_chats db) = Some c →
  Sql.fetchone (λ x, users.telegram_id x =? assignments.user_id a) (tbl_users db) = Some u →
  head (assignment_join p db) = Some (joined a c u).
Proof.
  intros Ha Hc Hu. unfold assignment_join. rewrite Ha. simpl. rewrite app_nil_r.
  unfold Sql.fetchone in Hc, Hu.
  rewrite (list_filter_iff _ (λ x, (chats.chat_id x =? assignments.chat_id a) = true))
    by (intros x; lia).
  rewrite (list_filter_iff (λ x, users.telegram_id x = _)
             (λ x, (users.telegram_id x =? assignments.user_id a) = true))
    by (intros x; lia).
  destruct (filter _ (tbl_chats db)) as [|c' cs]; [done|]. injection Hc as ->.
  destruct (filter _ (tbl_users db)) as [|u' us]; [done|]. injection Hu as ->.
  done.
Qed.

(** X12: for a recorded user without assignment and a chat without
    assignment, [assign_sales_manager] returns normally and adds one row to
    the assignments: this chat and user, assigned now, without key, secret
    and customer, in the status pending_key. A chat that had no row gets one
    without title. Both lookups return the new row afterwards, joined with
    the chat and the user, and the user is no longer listed as unassigned.
    Users and item drafts are left alone. *)
Theorem assign_sales_manager_success now c u db :
  user_recorded db u → ¬ chat_assigned db c → ¬ user_assigned db u →
  let r := Storage.assign_sales_manager now c u db in
  let row := new_assignment now c u in
  r.1 = inr tt
  ∧ tbl_assignments r.2 = tbl_assignments db ++ [row]
  ∧ tbl_users r.2 = tbl_users db
  ∧ tbl_item_drafts r.2 = tbl_item_drafts db
  ∧ (∃ chat user,
       (Storage.get_chat c r.2).1 = inr (Some chat)
       ∧ chat = default (chats.mk c None now now) (Sql.fetchone (λ x, chats.chat_id x =? c) (tbl_chats db))
       ∧ Sql.fetchone (λ x, users.telegram_id x =? u) (tbl_users db) = Some user
       ∧ (Storage.get_group_assignment c r.2).1 = inr (Some (joined row chat user))
       ∧ (Storage.get_user_assignment u r.2).1 = inr (Some (joined row chat user)))
  ∧ (∀ limit candidate,
       (Storage.list_unassigned_users limit r.2).1 = inr candidate →
       u ∉ telegram_id <$> candidate).
Proof.
  intros (ur & Hur & Huid) Hc Hu. cbv zeta. rewrite assign_sales_manager_eq.
  destruct (Sql.fetchone _ (tbl_users db)) as [user|] eqn:Eu.
  2:{ rewrite fetchone_None in Eu. specialize (Eu ur Hur). simpl in Eu. lia. }
  destruct (Sql.fetchone (λ a, assignments.chat_id a =? c) _) as [x|] eqn:Ec.
  { exfalso. apply Hc. apply fetchone_key in Ec as [? ?]. by exists x. }
  destruct (Sql.fetchone (λ a, assignments.user_id a =? u) _) as [x|] eqn:Ex.
  { exfalso. apply Hu. apply fetchone_key in Ex as [? ?]. by exists x. }
  cbn [fst snd]. destruct (with_chat_frame now c db) as (Husers & Hass & Hdrafts).
  split_and!; [done|done|by rewrite <- Husers|by rewrite <- Hdrafts| |].
  - set (db' := set_assignments _ _).
    assert (tbl_chats db' = tbl_chats (with_chat now c db)) as Hchats by done.
    assert (tbl_users db' = tbl_users db) as Husers' by done.
    assert (tbl_assignments db' = tbl_assignments db ++ [new_assignment now c u]) as Hass'
      by done.
    exists (default (chats.mk c None now now)
              (Sql.fetchone (λ x, chats.chat_id x =? c) (tbl_chats db))), user.
    assert (Sql.fetchone (λ x, chats.chat_id x =? c) (tbl_chats db')
            = Some (default (chats.mk c None now now)
                      (Sql.fetchone (λ x, chats.chat_id x =? c) (tbl_chats db)))) as Hchat.
    { rewrite Hchats. unfold with_chat.
      destruct (Sql.fetchone _ (tbl_chats db)) as [ch|] eqn:Ech; [by rewrite Ech|].
      cbn [tbl_chats set_chats]. rewrite fetchone_app, Ech, fetchone_cons. simpl.
      by rewrite Z.eqb_refl. }
    split_and!; try done.
    + rewrite get_chat_eq. cbn [fst]. by rewrite Hchat.
    + rewrite get_group_assignment_eq. cbn [fst]. f_equal.
      apply assignment_join_single; [|done|by rewrite Husers'].
      rewrite Hass'. apply filter_app_nil; [|apply Z.eqb_refl].
      unfold Sql.fetchone in Ec. by destruct (filter _ _).
    + rewrite get_user_assignment_eq. cbn [fst]. f_equal.
      apply assignment_join_single; [|done|by rewrite Husers'].
      rewrite Hass'. apply filter_app_nil; [|apply Z.eqb_refl].
      unfold Sql.fetchone in Ex. by destruct (filter _ _).
  - intros limit candidate. unfold Storage.list_unassigned_users. unfold_conn.
    cbn [fst]. intros [= <-].
    intros (cand & Hid & (row & -> & Hrow)%list_elem_of_fmap)%list_elem_of_fmap.
    apply (listed_rows (set_assignments
                          (tbl_assignments db ++ [new_assignment now c u])
                          (with_chat now c db))) in Hrow as [Hun _].
    unfold Storage.unassigned in Hun. apply negb_true_iff in Hun.
    cbn [tbl_assignments set_assignments] in Hun.
    rewrite existsb_app in Hun. simpl in Hun. simpl in Hid. rewrite <- Hid in Hun.
    rewrite Z.eqb_refl in Hun. by rewrite orb_true_r in Hun.
Qed.

(** ** Labels of a user *)

Lemma truthy_app a b : Py.truthy a = true → Py.truthy (a +:+ b) = true.
Proof. by destruct a. Qed.

Lemma truthy_nonempty s : Py.truthy s = true ↔ s ≠ "".
Proof. by destruct s. Qed.

(** X13: the label of a candidate is never empty, and the label that
    [_format_assignment_label] gives the manager of an assignment is the
    [display_label] of that user. *)
Theorem labels_agree (c : Candidate) (a : Assignment) (started_at : string) :
  display_label c ≠ ""
  ∧ _format_assignment_label a = display_label (manager_of a started_at).
Proof.
  split.
  - unfold display_label.
    destruct (first_name c) as [[|x f]|], (last_name c) as [[|y l]|],
      (username c) as [[|z n]|]; simpl; try done; apply str_nonempty.
  - unfold _format_assignment_label, display_label, manager_of, truthy_parts. simpl.
    destruct (a_first_name a) as [[|x f]|], (a_last_name a) as [[|y l]|],
      (a_username a) as [[|z n]|]; simpl; try done;
      try (destruct (Py.str (user_id a)) eqn:E; [by apply str_nonempty in E|done]).
Qed.

(** ** [_parse_int_set] *)

Lemma parse_chunks_members (chunks : list string) (acc : gset Z) (n : Z) :
  n ∈ foldl (λ (result : gset Z) chunk,
               let chunk := Py.strip chunk in
               if negb (Py.truthy chunk) then result
               else
                 match Py.int chunk with
                 | Some n => result ∪ {[ n ]}
                 | None => result
                 end) acc chunks
  ↔ n ∈ acc ∨ ∃ chunk, chunk ∈ chunks ∧ Py.int (Py.strip chunk) = Some n.
Proof.
  revert acc. induction chunks as [|chunk chunks IH]; intros acc; simpl.
  - split; [by left|]. intros [?|(? & []%elem_of_nil & _)]. done.
  - rewrite IH. clear IH.
    assert (∀ acc' : gset Z,
              (n ∈ acc' ↔ n ∈ acc ∨ Py.int (Py.strip chunk) = Some n) →
              (n ∈ acc' ∨ (∃ x, x ∈ chunks ∧ Py.int (Py.strip x) = Some n))
              ↔ (n ∈ acc ∨ ∃ x, x ∈ chunk :: chunks ∧ Py.int (Py.strip x) = Some n)) as Hstep.
    { intros acc' Hacc. rewrite Hacc. split.
      - intros [[?|Hn]|(x & Hx & Hn)]; [by left| |].
        + right. exists chunk. split; [left|done].
        + right. exists x. split; [by right|done].
      - intros [?|(x & [->|Hx]%elem_of_cons & Hn)]; [by left; left|by left; right|].
        right. by exists x. }
    apply Hstep. destruct (Py.strip chunk) as [|a r] eqn:Es; cbn [Py.truthy negb].
    + split; [by left|]. by intros [?|?].
    + destruct (Py.int (String a r)) as [m|].
      * rewrite elem_of_union, elem_of_singleton. split.
        -- intros [?| ->]; [by left|by right].
        -- intros [?|[= ->]]; [by left|by right].
      * split; [by left|]. by intros [?|?].
Qed.

Lemma parse_int_set_elem raw n :
  n ∈ Config._parse_int_set raw
  ↔ ∃ chunk, chunk ∈ Config.split_commas raw ∧ Py.int (Py.strip chunk) = Some n.
Proof.
  unfold Config._parse_int_set. destruct raw as [|c raw].
  - simpl. split; [by intros ?%elem_of_empty|].
    intros (chunk & Hc & Hn). apply list_elem_of_singleton in Hc as ->. done.
  - cbn [Py.truthy negb]. rewrite parse_chunks_members. split.
    + by intros [?%elem_of_empty|?].
    + by right.
Qed.

(** The pieces between the commas of [join(",", parts)]. *)
Lemma split_sep_join (parts : list string) (k : nat) :
  Forall (λ p, all_chars (λ c, negb (Ascii.eqb c ",")) p = true) parts →
  parts ≠ [] → (length parts ≤ S k)%nat →
  Py.split_sep "," k (Py.join "," parts) = parts.
Proof.
  revert k. induction parts as [|p parts IH]; intros k Hall Hne Hk; [done|].
  apply Forall_cons in Hall as [Hp Hall].
  destruct parts as [|q parts].
  - simpl. destruct k; [done|]. simpl. by rewrite (split_at_none "," p Hp).
  - change (Py.join "," (p :: q :: parts)) with (p +:+ "," +:+ Py.join "," (q :: parts)).
    destruct k as [|k]; [simpl in Hk; lia|].
    cbn [Py.split_sep]. rewrite (split_at_app_str "," p _ Hp).
    rewrite IH; [done|done|done|simpl in *; lia].
Qed.

Lemma string_length_app (a b : string) :
  String.length (a +:+ b) = (String.length a + String.length b)%nat.
Proof.
  induction a as [|c a IH]; rewrite ?append_nil_l, ?append_cons; simpl; [done|].
  by rewrite IH.
Qed.

Lemma length_join_ge (parts : list string) :
  (length parts ≤ S (String.length (Py.join "," parts)))%nat.
Proof.
  induction parts as [|p [|q parts] IH]; [simpl; lia|simpl; lia|].
  change (Py.join "," (p :: q :: parts)) with (p +:+ "," +:+ Py.join "," (q :: parts)).
  rewrite !string_length_app. simpl in *. lia.
Qed.

Lemma parse_int_set_join (numbers : list Z) :
  Config._parse_int_set (Py.join "," (Py.str <$> numbers)) = list_to_set numbers.
Proof.
  apply set_eq. intros m. rewrite parse_int_set_elem, elem_of_list_to_set.
  destruct numbers as [|x numbers].
  - simpl. split; [|by intros ?%elem_of_nil].
    intros (chunk & Hc & Hm). apply list_elem_of_singleton in Hc as ->. done.
  - unfold Config.split_commas. rewrite split_sep_join.
    + split.
      * intros (chunk & (y & -> & Hy)%list_elem_of_fmap & Hm).
        rewrite (strip_word _ (str_word y)), int_str in Hm. by injection Hm as <-.
      * intros Hm. exists (Py.str m).
        split; [|rewrite (strip_word _ (str_word m)); apply int_str].
        apply list_elem_of_fmap. by exists m.
    + apply Forall_fmap, Forall_forall. intros y _. simpl. by apply str_no_sep.
    + done.
    + apply length_join_ge.
Qed.

Lemma parse_int_set_str n : Config._parse_int_set (Py.str n) = {[ n ]}.
Proof.
  change (Py.str n) with (Py.join "," (Py.str <$> [n])). rewrite parse_int_set_join.
  simpl. apply union_empty_r_L.
Qed.

(** X14: [_parse_int_set] returns the numbers that [int] reads from the
    stripped pieces between the commas; pieces that are blank or not a
    number are skipped. Written out with [str] and joined with commas, a
    list of numbers is read back as the set of its elements. *)
Theorem parse_int_set_members (raw : string) (n : Z) (numbers : list Z) :
  (n ∈ Config._parse_int_set raw
   ↔ ∃ chunk, chunk ∈ Config.split_commas raw ∧ Py.int (Py.strip chunk) = Some n)
  ∧ Config._parse_int_set (Py.join "," (Py.str <$> numbers)) = list_to_set numbers.
Proof.
  split.
  - apply parse_int_set_elem.
  - apply parse_int_set_join.
Qed.

(** ** [load_assignment_config] *)

Lemma agrees_last source key : agrees source [key] (source !! key).
Proof.
  unfold agrees. simpl. destruct (source !! key) as [v|]; simpl; [|done].
  destruct (Py.truthy v) eqn:E; [|done]. split; [done|]. by intros ? [= <-].
Qed.

Lemma or_opt_first_set source key keys (rest : option string) :
  agrees source keys rest → agrees source (key :: keys) (Config.or_opt (source !! key) rest).
Proof.
  intros [Ht Hv]. unfold agrees, Config.or_opt. simpl.
  destruct (source !! key) as [v|]; simpl; [|done].
  destruct (Py.truthy v) eqn:E; simpl; [|done]. rewrite E. split; [done|].
  by intros ? [= <-].
Qed.

Lemma last_char_rstrip_slash s : last_char (Config.rstrip_slash s) ≠ Some "/"%char.
Proof.
  induction s as [|c s IH]; [done|]. simpl.
  destruct (Config.rstrip_slash s) as [|a r] eqn:E.
  - destruct (Ascii.eqb_spec c "/"); [done|]. simpl. congruence.
  - exact IH.
Qed.

Lemma stripped_or_nonempty source key fallback :
  fallback ≠ "" → Config.stripped_or source key fallback ≠ "".
Proof.
  intros Hf. unfold Config.stripped_or.
  by destruct (Py.strip _) eqn:E.
Qed.

(** X15: [load_assignment_config] fails exactly when none of the token
    variables is set to a non-empty text, or the first admin variable that
    is set to a non-empty text holds no number (or there is none), or the
    database path cannot be expanded. A configuration that is returned has
    the token of the first token variable that is set and the ids of the
    first admin variable that is set, at least one admin, a report limit of
    at least 1, no empty name, at least one report field, and a base URL
    that does not end with a slash. *)
Theorem load_assignment_config_result host source :
  match Config.load_assignment_config host source with
  | inl _ =>
      first_set source token_keys = None
      ∨ Config._parse_int_set (default "" (first_set source admin_keys)) = ∅
      ∨ db_path_fails host source
  | inr c =>
      first_set source token_keys = Some (Config.token c)
      ∧ Config.admin_ids c = Config._parse_int_set (default "" (first_set source admin_keys))
      ∧ well_configured c
  end.
Proof.
  unfold Config.load_assignment_config.
  set (token := Config.or_opt _ _).
  assert (agrees source token_keys token) as [Htt Htv]
    by (repeat apply or_opt_first_set; apply agrees_last).
  set (admin := Config.or_opt _ _).
  assert (Py.or_else admin "" = default "" (first_set source admin_keys)) as Hadmin.
  { assert (agrees source admin_keys admin) as [Hat Hav]
      by (repeat apply or_opt_first_set; apply agrees_last).
    destruct (first_set source admin_keys) as [v|] eqn:E.
    - rewrite (Hav v eq_refl) in *. simpl in *. by rewrite Hat.
    - unfold Py.or_else. destruct admin as [v|]; [|done]. simpl in Hat. by rewrite Hat. }
  rewrite Hadmin.
  destruct (Py.truthy_opt token) eqn:Et; cbn [negb].
  2:{ left. by destruct (first_set source token_keys). }
  destruct (first_set source token_keys) as [tok|] eqn:Etok; [|done].
  rewrite (Htv tok eq_refl) in *. simpl in Et.
  case_bool_decide as Hids; [by right; left|].
  destruct (source !! "ASSIGNMENT_BOT_DB_PATH") as [p|] eqn:Ep; cbn [Py.truthy_opt];
    [change (default "" (Some p)) with p|].
  - destruct (Py.truthy p) eqn:Etp.
    + destruct (Config.expanduser host p) as [e|q] eqn:Eq; cbv beta iota zeta.
      * right. right. exists p, e. split_and!; [done|by destruct p|done].
      * split_and!; [done|done|]. unfold well_configured. simpl.
        split_and!; try done; try (by apply stripped_or_nonempty);
          try (by destruct tok); try (case_match; done); try (case_match; [|done]; case_match; lia);
          try (by destruct (Py.strip _));
          try (intros url; case_match; [|done]; intros [= <-]; apply last_char_rstrip_slash).
    + cbv beta iota zeta. split_and!; [done|done|]. unfold well_configured. simpl.
      split_and!; try done; try (by apply stripped_or_nonempty);
        try (by destruct tok); try (case_match; done); try (case_match; [|done]; case_match; lia);
        try (by destruct (Py.strip _));
        try (intros url; case_match; [|done]; intros [= <-]; apply last_char_rstrip_slash).
  - cbv beta iota zeta. split_and!; [done|done|]. unfold well_configured. simpl.
    split_and!; try done; try (by apply stripped_or_nonempty);
      try (by destruct tok); try (case_match; done); try (case_match; [|done]; case_match; lia);
      try (by destruct (Py.strip _));
      try (intros url; case_match; [|done]; intros [= <-]; apply last_char_rstrip_slash).
Qed.

(** ** [override_env_for_tests] *)

(** X16: in an environment that sets neither [ASSIGNMENT_ADMIN_IDS] nor
    [ASSIGNMENT_BOT_DB_PATH], [override_env_for_tests] with a non-empty token
    and no path makes [load_assignment_config] return a configuration with
    that token, the default database path and the given id as its only
    administrator. *)
Theorem override_env_round_trip host env token admin_id :
  token ≠ "" →
  env !! "ASSIGNMENT_ADMIN_IDS" = None →
  env !! "ASSIGNMENT_BOT_DB_PATH" = None →
  ∃ c,
    Config.load_assignment_config host
      (Config.override_env_for_tests env token admin_id None) = inr c
    ∧ Config.token c = token
    ∧ Config.admin_ids c = {[ admin_id ]}
    ∧ Config.db_path c = Config.DEFAULT_DB_PATH
    ∧ ∀ j, is_admin (bot_config c) j = bool_decide (j = admin_id).
Proof.
  intros Htoken Hids Hpath. unfold Config.override_env_for_tests.
  set (env' := <["ASSIGNMENT_ADMIN_ID":=Py.str admin_id]> _).
  assert (env' !! "ASSIGNMENT_BOT_TOKEN" = Some token) as Et
    by (unfold env'; rewrite lookup_insert_ne by done; apply lookup_insert_eq).
  assert (env' !! "ASSIGNMENT_ADMIN_IDS" = None) as Ea
    by (unfold env'; by rewrite !lookup_insert_ne by done).
  assert (env' !! "ASSIGNMENT_ADMIN_ID" = Some (Py.str admin_id)) as Ei
    by (unfold env'; apply lookup_insert_eq).
  assert (env' !! "ASSIGNMENT_BOT_DB_PATH" = None) as Ep
    by (unfold env'; by rewrite !lookup_insert_ne by done).
  assert (Py.truthy token = true) as Htt by (by destruct token).
  assert (Py.truthy (Py.str admin_id) = true) as Hts
    by (apply truthy_nonempty, str_nonempty).
  assert (∀ v x, Py.truthy v = true → Config.or_opt (Some v) x = Some v) as Hsome
    by (intros v x Hv; unfold Config.or_opt; simpl; by rewrite Hv).
  assert (∀ x, Config.or_opt None x = x) as Hnone by done.
  unfold Config.load_assignment_config. rewrite Et, Ea, Ei, Ep.
  rewrite Hnone, !(Hsome token) by done. rewrite (Hsome (Py.str admin_id)) by done.
  cbn [Py.truthy_opt default]. rewrite Htt. cbn [negb].
  unfold Py.or_else. rewrite Hts, parse_int_set_str.
  rewrite bool_decide_eq_false_2 by (by apply non_empty_singleton_L).
  cbn [Py.truthy_opt]. eexists. split; [reflexivity|]. cbn.
  split_and!; try done.
  intros j. unfold is_admin. cbn. apply bool_decide_ext. set_solver.
Qed.

(** ** No exception leaves a handler *)

















(** Reading the store inside a handler. *)
Lemma bind_get_user_assignment {B} u (f : option Assignment → handler B) db :
  (call (Storage.get_user_assignment u) ≫= f) db
  = f (head (assignment_join (λ a, assignments.user_id a =? u) db)) db.
Proof. by rewrite bind_call, get_user_assignment_eq. Qed.

Lemma bind_get_group_assignment {B} c (f : option Assignment → handler B) db :
  (call (Storage.get_group_assignment c) ≫= f) db
  = f (head (assignment_join (λ a, assignments.chat_id a =? c) db)) db.
Proof. by rewrite bind_call, get_group_assignment_eq. Qed.


Lemma bind_get_user {B} i (f : option Candidate → handler B) db :
  (call (Storage.get_user i) ≫= f) db
  = f (candidate_of_row <$>
         Sql.fetchone (λ u, users.telegram_id u =? i) (tbl_users db)) db.
Proof. by rewrite bind_call, get_user_eq. Qed.

Lemma bind_list_unassigned_users {B} limit (f : list Candidate → handler B) db :
  (call (Storage.list_unassigned_users limit) ≫= f) db
  = f (candidate_of_row <$>
         Sql.limit limit
           (Sql.order_by Storage.order_key
              (filter (λ u, Storage.unassigned db u = true)
                 (Sql.order_by Storage.rowid (tbl_users db))))) db.
Proof. by rewrite bind_call. Qed.































(** ** Who can assign *)

Lemma assigned_pairs_statuses db : assigned_pairs db = fst <$> statuses db.
Proof. unfold assigned_pairs, statuses. by rewrite <- list_fmap_compose. Qed.

Lemma exec_keeps_pairs db op :
  keeps_pairs op = true → assigned_pairs (exec db op) = assigned_pairs db.
Proof.
  intros Hop. rewrite !assigned_pairs_statuses.
  destruct (quiet op) eqn:Eq; [by rewrite exec_quiet|].
  destruct op; try done; cbn [exec].
  - rewrite store_api_key_eq, update_assignment_of_user_eq.
    destruct (filter _ _); [done|]. cbn [snd]. rewrite statuses_amended.
    rewrite <- list_fmap_compose. apply list_fmap_ext. intros _ x _. simpl.
    by destruct (x.1.2 =? _).
  - rewrite store_api_secret_eq, update_assignment_of_user_eq.
    destruct (filter _ _); [done|]. cbn [snd]. rewrite statuses_amended.
    rewrite <- list_fmap_compose. apply list_fmap_ext. intros _ x _. simpl.
    by destruct (x.1.2 =? _).
  - rewrite reset_credentials_eq, update_assignment_of_user_eq.
    destruct (filter _ _); [done|]. cbn [snd]. rewrite statuses_amended.
    rewrite <- list_fmap_compose. apply list_fmap_ext. intros _ x _. simpl.
    by destruct (x.1.2 =? _).
Qed.

(** X18: an update that does not come from an administrator leaves the
    pairs of chat and manager as they are: only an administrator creates or
    removes an assignment. *)
Theorem only_administrators_assign self w u db :
  (∀ user, sender u = Some user → is_admin (config self) (user_ident user) = false) →
  assigned_pairs (step self db (w, u)) = assigned_pairs db.
Proof.
  intros Hsender. unfold step. cbn [fst snd].
  set (P := λ d, assigned_pairs d = assigned_pairs db).
  assert (∀ d op, keeps_pairs op = true → P d → P (exec d op)) as Hops
    by (intros d op Hop Hd; unfold P; by rewrite exec_keeps_pairs).
  assert (∀ op, quiet op = true → keeps_pairs op = true) as Hquiet
    by (intros op; by destruct op).
  pose proof (quiet_handlers_preserve P keeps_pairs Hops Hquiet self w u) as Hu.
  destruct u as [chat user|chat user message|chat user message|message user
                |chat user message|chat user message|query|query|chat user message];
    cbn [handle]; try (by apply Hu).
  - by apply (private_message_preserve P keeps_pairs Hops Hquiet self w).
  - by apply (reset_api_preserve P keeps_pairs Hops Hquiet self w).
  - unfold handle_assign_callback. destruct query as [query|]; [|done].
    simpl in Hsender. destruct (query_from_user query) as [user|]; [|done].
    by rewrite bind_send, (Hsender user eq_refl).
  - unfold handle_clear_assignments. destruct user as [user|]; [|done].
    destruct message as [message|]; [|done]. by rewrite (Hsender user eq_refl).
Qed.

(** ** The keyboard of [/assign_manager] *)

Lemma split_sep_none sep n s :
  all_chars (λ c, negb (Ascii.eqb c sep)) s = true → Py.split_sep sep n s = [s].
Proof. intros Hs. destruct n; [done|]. simpl. by rewrite split_at_none. Qed.

Lemma split_assign_data c k :
  let data := "assign_sm:" +:+ Py.str c +:+ ":" +:+ Py.str k in
  Py.split_sep ":" (String.length data) data = ["assign_sm"; Py.str c; Py.str k].
Proof.
  cbv zeta.
  change ("assign_sm:" +:+ ?x) with ("assign_sm" +:+ ":" +:+ x).
  rewrite !string_length_app.
  change (String.length "assign_sm") with 9%nat. change (String.length ":") with 1%nat.
  cbn [Nat.add Py.split_sep].
  rewrite (split_at_app_str ":" "assign_sm") by done.
  rewrite (split_at_app_str ":" (Py.str c)) by apply str_no_colon.
  by rewrite (split_at_none ":" (Py.str k)) by apply str_no_colon.
Qed.

Lemma concat_map_fmap {A B} (f : A → B) (ls : list (list A)) :
  concat (map (map f) ls) = f <$> concat ls.
Proof.
  induction ls as [|l ls IH]; [done|]. simpl. by rewrite fmap_app, IH.
Qed.

(** What [handle_assign_command] shows an administrator in a group
    without manager. *)
Lemma assign_command_keyboard self w chat user message db :
  is_group (chat_type chat) = true →
  is_admin (config self) (user_ident user) = true →
  ¬ chat_assigned db (chat_ident chat) →
  let db1 := (Storage.record_group_chat (now w) (chat_ident chat) (chat_title chat) db).2 in
  let candidates :=
    candidate_of_row <$>
      Sql.limit 25 (Sql.order_by Storage.order_key
                      (filter (λ u, Storage.unassigned db1 u = true)
                         (Sql.order_by Storage.rowid (tbl_users db1)))) in
  let r := handle_assign_command self w (Some chat) (Some user) (Some message) db in
  r.1.1 = inr tt ∧ r.2 = db1
  ∧ (∀ text markup, reply_text (message_chat_id message) text (Some markup) ∈ sent r →
       concat markup = assign_button (chat_ident chat) <$> candidates).
Proof.
  intros Hgroup Hadmin Hno. cbv zeta. unfold handle_assign_command. cbv zeta.
  rewrite Hgroup, Hadmin. cbn [negb].
  rewrite bind_call.
  assert (∃ db1, Storage.record_group_chat (now w) (chat_ident chat) (chat_title chat) db
                 = (inr tt, db1)
                 ∧ tbl_assignments db1 = tbl_assignments db) as (db1 & Edb1 & Hass).
  { rewrite record_group_chat_eq. destruct (Sql.fetchone _ _); by eexists. }
  rewrite Edb1. cbn [snd].
  rewrite bind_get_group_assignment.
  assert (head (assignment_join (λ a, assignments.chat_id a =? chat_ident chat) db1) = None)
    as ->.
  { destruct (head _) as [v|] eqn:E; [|done]. exfalso. apply Hno.
    apply head_Some_elem_of, assignment_join_elem in E as (x & _ & _ & Hx & Hp & _).
    rewrite Hass in Hx. exists x. split; [done|lia]. }
  rewrite bind_list_unassigned_users.
  destruct (candidate_of_row <$> _) as [|cand cands] eqn:Ecands.
  - split_and!; [done..|]. intros text markup Hin. unfold sent in Hin. simpl in Hin.
    apply list_elem_of_singleton in Hin. done.
  - split_and!; [done..|]. intros text markup Hin. unfold sent in Hin. cbn [fst snd send] in Hin.
    apply list_elem_of_singleton in Hin. injection Hin as _ ->.
    unfold assign_button. rewrite concat_map_fmap. unfold _chunk.
    by rewrite (chunk_go_concat 2 [] (cand :: cands)).
Qed.

Lemma record_group_chat_frame now c t db :
  ∃ db1, Storage.record_group_chat now c t db = (inr tt, db1)
         ∧ tbl_users db1 = tbl_users db
         ∧ tbl_assignments db1 = tbl_assignments db.
Proof. rewrite record_group_chat_eq. destruct (Sql.fetchone _ _); by eexists. Qed.

Lemma unassigned_candidate db limit cand :
  cand ∈ candidate_of_row <$>
    Sql.limit limit (Sql.order_by Storage.order_key
                       (filter (λ u, Storage.unassigned db u = true)
                          (Sql.order_by Storage.rowid (tbl_users db)))) →
  ∃ u, u ∈ tbl_users db ∧ cand = candidate_of_row u
       ∧ ¬ user_assigned db (users.telegram_id u).
Proof.
  intros (u & -> & Hu)%list_elem_of_fmap. apply listed_rows in Hu as [Hun Hu].
  exists u. split_and!; [done..|]. intros (a & Ha & Hau).
  unfold Storage.unassigned in Hun. apply negb_true_iff in Hun.
  assert (existsb (λ a, assignments.user_id a =? users.telegram_id u) (tbl_assignments db)
          = true) as E; [|congruence].
  apply existsb_exists. exists a. split; [by apply list_elem_of_In|lia].
Qed.

(** An administrator presses a well-formed button in the chat it names. *)
Lemma assign_callback_press self w query admin chat c k u db :
  query_from_user query = Some admin →
  is_admin (config self) (user_ident admin) = true →
  query_data query = Some ("assign_sm:" +:+ Py.str c +:+ ":" +:+ Py.str k) →
  message_chat <$> query_message query = Some chat →
  chat_ident chat = c →
  get_chat_member_raises w = false →
  u ∈ tbl_users db → users.telegram_id u = k →
  ¬ chat_assigned db c → ¬ user_assigned db k →
  let r := handle_assign_callback self w (Some query) db in
  r.1.1 = inr tt
  ∧ tbl_assignments r.2 = tbl_assignments db ++ [new_assignment (now w) c k]
  ∧ tbl_users r.2 = tbl_users db.
Proof.
  intros Hfrom Hadmin Hdata Hchat Hc Hraise Hu Hk Hnc Hnu. cbv zeta.
  unfold handle_assign_callback. rewrite bind_send, Hfrom. cbv zeta.
  rewrite Hadmin, Hdata. cbn [negb default from_option id].
  rewrite (split_assign_data c k), !int_str, Hchat.
  rewrite bool_decide_eq_false_2 by (intros ?; congruence).
  rewrite bind_call.
  destruct (record_group_chat_frame (now w) c (chat_title chat) db)
    as (db1 & -> & Husers & Hass).
  rewrite bind_get_user.
  destruct (Sql.fetchone _ (tbl_users db1)) as [row|] eqn:Erow.
  2:{ exfalso. rewrite fetchone_None in Erow. rewrite Husers in Erow.
      specialize (Erow u Hu). simpl in Erow. lia. }
  cbn [fmap option_fmap option_map]. rewrite Hraise.
  rewrite bind_then. unfold try_call. rewrite assign_sales_manager_eq, Erow.
  destruct (Sql.fetchone (λ a, assignments.chat_id a =? c) _) as [x|] eqn:Ec.
  { exfalso. apply Hnc. apply fetchone_key in Ec as [? ?]. exists x. by rewrite <- Hass. }
  destruct (Sql.fetchone (λ a, assignments.user_id a =? k) _) as [x|] eqn:Ex.
  { exfalso. apply Hnu. apply fetchone_key in Ex as [? ?]. exists x. by rewrite <- Hass. }
  destruct (with_chat_frame (now w) c db1) as (Husers' & Hass' & _).
  destruct (private_message_forbidden w); cbn; rewrite Hass; split_and!; try done;
    by rewrite <- Husers, <- Husers'.
Qed.

(** X19: every button of the keyboard of [/assign_manager] works. When an
    administrator of a group without manager is shown the keyboard, each of
    its buttons carries the label of a recorded user; when an administrator
    then presses the button in that group and the membership check passes,
    the handler ends normally and appends to the assignments one row, for
    this group and that user, in the status pending_key. *)
Theorem assign_keyboard_buttons_work
    self w w' chat admin message text markup b query presser chat' db :
  is_group (chat_type chat) = true →
  is_admin (config self) (user_ident admin) = true →
  ¬ chat_assigned db (chat_ident chat) →
  reply_text (message_chat_id message) text (Some markup)
    ∈ sent (handle_assign_command self w (Some chat) (Some admin) (Some message) db) →
  b ∈ concat markup →
  query_from_user query = Some presser →
  is_admin (config self) (user_ident presser) = true →
  query_data query = callback_data b →
  message_chat <$> query_message query = Some chat' →
  chat_ident chat' = chat_ident chat →
  get_chat_member_raises w' = false →
  let shown := handle_assign_command self w (Some chat) (Some admin) (Some message) db in
  let r := handle_assign_callback self w' (Some query) shown.2 in
  ∃ u, u ∈ tbl_users db
       ∧ button_text b = display_label (candidate_of_row u)
       ∧ r.1.1 = inr tt
       ∧ tbl_assignments r.2
         = tbl_assignments db
             ++ [new_assignment (now w') (chat_ident chat) (users.telegram_id u)].
Proof.
  intros Hgroup Hadmin Hno Hsent Hb Hfrom Hpresser Hdata Hchat Hsame Hmember. cbv zeta.
  destruct (assign_command_keyboard self w chat admin message db Hgroup Hadmin Hno)
    as (_ & -> & Hmarkup).
  rewrite (Hmarkup text markup Hsent) in Hb.
  apply list_elem_of_fmap in Hb as (cand & -> & Hcand).
  destruct (record_group_chat_frame (now w) (chat_ident chat) (chat_title chat) db)
    as (db1 & Edb1 & Husers & Hass).
  rewrite Edb1 in Hcand |- *. cbn [snd] in Hcand |- *.
  apply unassigned_candidate in Hcand as (u & Hu & -> & Hnu).
  exists u. rewrite <- Husers, <- Hass. split_and!; [done|done|..];
    eapply (assign_callback_press self w' query presser chat' (chat_ident chat)
              (users.telegram_id u) u db1); try done.
  all: intros (a & Ha & Hk); apply Hno; exists a; by rewrite <- Hass.
Qed.

Lemma assign_keyboard_buttons_work_witness :
  let db := run demo_bot [(demo_world, start (Some manager_chat) (Some manager))] in
  let r := handle_assign_callback demo_bot demo_world
             (presses administrator group_555 "assign_sm:555:111") db in
  ∃ u, u ∈ tbl_users db
       ∧ display_label manager_candidate = display_label (candidate_of_row u)
       ∧ r.1.1 = inr tt
       ∧ tbl_assignments r.2
         = tbl_assignments db
             ++ [new_assignment "2025-01-01T00:00:00Z" 555 (users.telegram_id u)].
Proof.
  cbv zeta.
  refine (assign_keyboard_buttons_work demo_bot demo_world demo_world group_555
            administrator (mkMessage group_555 (Some "/assign_manager")) _ _
            (assign_button 555 manager_candidate)
            (mkQuery (Some administrator) (Some "assign_sm:555:111")
               (Some (mkMessage group_555 None)))
            administrator group_555
            (run demo_bot [(demo_world, start (Some manager_chat) (Some manager))])
            _ _ _ _ _ _ _ _ _ _ _).
  - reflexivity.
  - reflexivity.
  - intros (a & Ha & _). vm_compute in Ha. by apply elem_of_nil in Ha.
  - vm_compute. apply list_elem_of_here.
  - vm_compute. apply list_elem_of_here.
  - reflexivity.
  - reflexivity.
  - reflexivity.
  - reflexivity.
  - reflexivity.
  - reflexivity.
Defined.

(** ** The answer to an inline query *)

Lemma inline_results_eq q choices : ∀ idx results,
  (length results < 25)%nat →
  inline_results q idx choices results =
    results ++ take (25 - length results)
                 ((λ p, uom_article p.1 p.2)
                    <$> filter (λ p, inline_match q p.2 = true) (enumerate_from idx choices)).
Proof.
  induction choices as [|o choices IH]; intros idx results Hlen.
  - simpl. by rewrite take_nil, app_nil_r.
  - cbn [inline_results enumerate_from]. unfold inline_match at 1.
    destruct (Py.truthy q && negb (Py.contains (Py.lower o) q)) eqn:E.
    + rewrite filter_cons_False.
      2:{ cbn [snd]. unfold inline_match. apply andb_true_iff in E as [-> E2].
          apply negb_true_iff in E2. rewrite E2. done. }
      by apply IH.
    + rewrite filter_cons_True.
      2:{ cbn [snd]. unfold inline_match. apply andb_false_iff in E as [->|E2]; [done|].
          apply negb_false_iff in E2. rewrite E2. by rewrite orb_true_r. }
      cbv zeta. rewrite fmap_cons. cbn [fst snd].
      rewrite length_app. cbn [length].
      destruct (25 <=? length results + 1)%nat eqn:E25.
      * apply Nat.leb_le in E25.
        replace (25 - length results)%nat with 1%nat by lia. simpl. by rewrite take_0.
      * apply Nat.leb_gt in E25. rewrite IH by (rewrite length_app; simpl; lia).
        rewrite length_app. cbn [length].
        replace (25 - length results)%nat with (S (25 - (length results + 1))) by lia.
        cbn [take]. by rewrite <- app_assoc.
Qed.

Lemma enumerate_from_lookup l : ∀ idx i p,
  enumerate_from idx l !! i = Some p → p.1 = idx + Z.of_nat i ∧ l !! i = Some p.2.
Proof.
  induction l as [|x l IH]; intros idx i p Hp; [done|].
  destruct i as [|i]; simpl in Hp.
  - injection Hp as <-. simpl. split; [lia|done].
  - apply IH in Hp as [-> Hp]. split; [lia|done].
Qed.

Lemma enumerate_from_above l : ∀ idx p, p ∈ enumerate_from idx l → idx ≤ p.1.
Proof.
  intros idx p (i & Hi)%list_elem_of_lookup_1. apply enumerate_from_lookup in Hi as [-> _]. lia.
Qed.

Lemma enumerate_from_NoDup l : ∀ idx, NoDup ((enumerate_from idx l).*1).
Proof.
  induction l as [|x l IH]; intros idx; simpl; constructor; [|apply IH].
  intros (p & Hp1 & Hp)%list_elem_of_fmap. apply enumerate_from_above in Hp. lia.
Qed.

Lemma append_inj_r s a b : s +:+ a = s +:+ b → a = b.
Proof.
  induction s as [|c s IH]; [done|].
  change (String c s +:+ ?x) with (String c (s +:+ x)). intros [= E]. by apply IH.
Qed.

Lemma str_inj a b : Py.str a = Py.str b → a = b.
Proof. intros E. pose proof (int_str a) as Ha. rewrite E, int_str in Ha. congruence. Qed.

Lemma matching_articles_ids q choices :
  NoDup (article_id <$> take 25 (matching_articles q choices)).
Proof.
  unfold matching_articles.
  eapply sublist_NoDup; [|apply fmap_sublist, sublist_take].
  rewrite <- list_fmap_compose.
  assert (∀ l : list (Z * string), NoDup l.*1 →
            NoDup ((article_id ∘ (λ p, uom_article p.1 p.2)) <$> l)) as H.
  { intros l Hl.
    replace ((article_id ∘ (λ p, uom_article p.1 p.2)) <$> l)
      with ((λ i, "uom-" +:+ Py.str i) <$> l.*1) by (by rewrite <- list_fmap_compose).
    apply NoDup_fmap_2; [|done]. intros i j E. by apply append_inj_r, str_inj in E. }
  apply H. eapply sublist_NoDup; [|apply fmap_sublist, sublist_filter].
  apply enumerate_from_NoDup.
Qed.

(** X20: whenever [handle_inline_query] answers, the answer is personal
    and holds, in the order of the options, the first 25 options that
    contain the lower-cased, stripped query (all of them for an empty query)
    among the units of measure of the sender's draft in the stage await_uom,
    each as an article with the identifier uom-<index of the option>. The
    cache time is 5 when the sender has no draft in that stage or the draft
    lists no unit, and then the answer is empty; it is 0 whenever the draft
    lists a unit, also when no unit contains the query and the answer is
    empty. The identifiers of an answer are pairwise different, and the
    store is not changed. *)
Theorem inline_query_answer inline_query db a :
  (handle_inline_query inline_query db).1 = inr (Some a) →
  ∃ query user,
    inline_query = Some query ∧ inline_from_user query = Some user
    ∧ let choices := uoms_awaited db (user_ident user) in
      let query_text := Py.lower (Py.strip (Py.or_else (inline_query_text query) "")) in
      answer_results a = take 25 (matching_articles query_text choices)
      ∧ cache_time a = (if choices is [] then 5 else 0)
      ∧ is_personal a = true
      ∧ NoDup (article_id <$> answer_results a)
      ∧ (handle_inline_query inline_query db).2 = db.
Proof.
  destruct inline_query as [query|]; [|done]. cbn [handle_inline_query].
  destruct (inline_from_user query) as [user|] eqn:Euser; [|done].
  intros Ha. exists query, user. split; [done|]. split; [done|]. cbv zeta.
  revert Ha. unfold mbind, conn_bind. rewrite get_item_draft_eq. unfold uoms_awaited.
  destruct (Sql.fetchone _ _) as [row|]; cbn [fmap option_fmap option_map].
  2:{ intros [= <-]. split_and!; try done. constructor. }
  destruct (draft_truthy (item_drafts.state row)) eqn:Et.
  2:{ cbn [negb orb]. intros [= <-].
      destruct (item_drafts.state row) as [[?|] [?|] [?|] [?|] [?|]]; try done.
      rewrite bool_decide_eq_false_2 by done. split_and!; try done. constructor. }
  cbn [negb orb]. case_bool_decide as Es.
  { rewrite bool_decide_eq_false_2 by done. intros [= <-]. split_and!; try done. constructor. }
  rewrite bool_decide_eq_true_2 by done.
  destruct (draft_choices _ _) as [|c cs] eqn:Ec.
  { intros [= <-]. split_and!; try done. constructor. }
  unfold mret, conn_ret. intros Ha.
  set (results := inline_results _ 0 (c :: cs) []) in Ha.
  assert (a = mkInlineAnswer results 0 true) as -> by (simpl in Ha; congruence).
  subst results. cbn [answer_results cache_time is_personal].
  rewrite inline_results_eq by (simpl; lia). cbn [app length]. rewrite Nat.sub_0_r.
  split_and!; try done. apply matching_articles_ids.
Qed.

(** ** [/status] *)

(** X21: on a store that a sequence of storage operations leads to,
    [handle_status] ends normally, leaves the store as it is and sends one
    reply without keyboard. In a group the reply is the text for a group
    without manager exactly when the group has no assignment; elsewhere it is
    the text for a user without group exactly when the user has no
    assignment. *)
Theorem status_report self w chat user message (ops : list Op) :
  let db := foldl exec empty_database ops in
  let r := handle_status self w (Some chat) (Some user) (Some message) db in
  r.1.1 = inr tt ∧ r.2 = db
  ∧ ∃ text,
      sent r = [reply_text (message_chat_id message) text None]
      ∧ if is_group (chat_type chat)
        then text = no_manager_text ↔ ¬ chat_assigned db (chat_ident chat)
        else text = no_group_text ↔ ¬ user_assigned db (user_ident user).
Proof.
  intros db. pose proof (run_consistent ops) as Hdb. fold db in Hdb. cbv zeta.
  unfold handle_status. cbv zeta. destruct (is_group (chat_type chat)).
  - rewrite bind_get_group_assignment.
    pose proof (group_lookup_none db (chat_ident chat) Hdb) as Hnone.
    destruct (head _) as [a|].
    + split_and!; [done..|]. eexists. split; [reflexivity|].
      change ("Guruh: " +:+ ?x) with (String "G" ("uruh: " +:+ x)).
      split; [discriminate|]. intros Hno. by apply Hnone in Hno.
    + split_and!; [done..|]. eexists. split; [reflexivity|].
      split; [intros _; by apply Hnone|done].
  - rewrite bind_get_user_assignment.
    pose proof (user_lookup_none db (user_ident user) Hdb) as Hnone.
    destruct (head _) as [a|].
    + split_and!; [done..|]. eexists. split; [reflexivity|].
      change ("Guruh: " +:+ ?x) with (String "G" ("uruh: " +:+ x)).
      split; [discriminate|]. intros Hno. by apply Hnone in Hno.
    + split_and!; [done..|]. eexists. split; [reflexivity|].
      split; [intros _; by apply Hnone|done].
Qed.

(** ** The order of the unassigned users *)

Section Stable.
Context {A : Type} (key : A → Sql.value) (Q : relation A).

(** Sorted by the key, and in the order [Q] among equal keys. *)
Let stable (a b : A) : Prop := key_le key a b ∧ (key_le key b a → Q a b).

Lemma insert_row_stable r l :
  StronglySorted stable l → Forall (Q r) l → StronglySorted stable (Sql.insert_row key r l).
Proof.
  induction 1 as [|x l Hl IH Hx]; intros Hr; simpl.
  - repeat constructor.
  - apply Forall_cons in Hr as [Hrx Hr].
    destruct (Sql.leb (key r) (key x)) eqn:E.
    + constructor; [by constructor|]. constructor; [by split|].
      rewrite Forall_forall in Hx, Hr. apply Forall_forall. intros y Hy. split.
      * unfold key_le. etrans; [exact E|]. apply (Hx y Hy).
      * intros _. by apply Hr.
    + constructor; [by apply IH|].
      rewrite insert_row_perm. constructor; [|exact Hx]. split.
      * destruct (sql_leb_total (key r) (key x)) as [E'|E']; [congruence|exact E'].
      * unfold key_le, Sql.le. congruence.
Qed.

Lemma order_by_stable l : StronglySorted Q l → StronglySorted stable (Sql.order_by key l).
Proof.
  induction 1 as [|x l Hl IH Hx]; [constructor|].
  change (Sql.order_by key (x :: l)) with (Sql.insert_row key x (Sql.order_by key l)).
  apply insert_row_stable; [exact IH|]. by rewrite order_by_perm.
Qed.

End Stable.

Lemma filter_sorted {A} (R : relation A) (P : A → Prop) `{∀ x, Decision (P x)} (l : list A) :
  StronglySorted R l → StronglySorted R (filter P l).
Proof.
  induction 1 as [|x l Hl IH Hx]; [constructor|]. rewrite filter_cons.
  destruct (decide (P x)); [|exact IH]. constructor; [exact IH|].
  rewrite Forall_forall in Hx. apply Forall_forall.
  intros y [_ Hy]%list_elem_of_filter. by apply Hx.
Qed.

(** X22: for a limit that SQLite stores, [list_unassigned_users] returns
    normally and changes nothing; the rows it returns are the recorded users
    without an assignment row, sorted ascending by the key of the query (the
    space-trimmed [first_name || ' ' || last_name] when the first name is
    present and the trimmed text is not empty, else the username when
    present, else the numeric id; numbers before texts, texts by code
    point) and by ascending id among users with equal keys, all of them when
    the limit is negative and the first [limit] of them otherwise. *)
Theorem list_unassigned_users_sorted limit db :
  int64 limit = true →
  ∃ rows sorted_all,
    Storage.list_unassigned_users limit db = (inr (candidate_of_row <$> rows), db)
    ∧ sorted_all ≡ₚ filter (λ u, Storage.unassigned db u = true) (tbl_users db)
    ∧ StronglySorted listed_before sorted_all
    ∧ rows = (if limit <? 0 then sorted_all else take (Z.to_nat limit) sorted_all)
    ∧ (∀ u, u ∈ rows →
         u ∈ tbl_users db ∧ ¬ user_assigned db (users.telegram_id u)).
Proof.
  intros _.
  set (scan := filter (λ u, Storage.unassigned db u = true)
                 (Sql.order_by Storage.rowid (tbl_users db))).
  exists (Sql.limit limit (Sql.order_by Storage.order_key scan)),
         (Sql.order_by Storage.order_key scan).
  split_and!.
  - done.
  - unfold scan. by rewrite !order_by_perm.
  - eapply StronglySorted_weaken; [|apply (order_by_stable _ (key_le Storage.rowid))].
    + intros a b [Hab Hba]. unfold key_le in Hab, Hba. rewrite !order_key_in_words in Hab, Hba.
      split; [exact Hab|]. intros Hle. specialize (Hba Hle).
      unfold key_le, Storage.rowid, Sql.le in Hba. simpl in Hba. lia.
    + apply filter_sorted, order_by_sorted.
  - done.
  - intros u [Hun Hu]%listed_rows. split; [done|].
    intros (a & Ha & Hau). apply unassigned_iff in Hun. apply Hun. by exists a.
Qed.

(** ** Scenarios of the further properties *)

Lemma rendered_buttons_parse_back_witness :
  ∃ b, rendered_button "uom" ["Nos"; "Kg"] 0 555 111 b.
Proof.
  eexists.
  refine (rendered_buttons_parse_back "uom" "uoms" uom_prompt ["Nos"; "Kg"] 0 555 111 _ _ _ _ _).
  - vm_compute. reflexivity.
  - vm_compute. apply list_elem_of_here.
  - apply list_elem_of_here.
Defined.

Lemma credential_steps_witness :
  ∃ a,
    (Storage.get_user_assignment 111 after_assignment).1 = inr (Some a)
    ∧ (Storage.get_user_assignment 111
         (Storage.store_api_key 111 "3739e78cec4e139" after_assignment).2).1
      = inr (Some (amend (λ _, Some "3739e78cec4e139") id (λ _, Some "pending_secret") id a)).
Proof.
  eexists. split; [vm_compute; reflexivity|].
  refine (proj1 (credential_steps 111 "3739e78cec4e139" "2a428d03deaceb8" true
                   after_assignment _ _)).
  vm_compute. reflexivity.
Defined.

Lemma storage_raises_only_assignment_error_witness :
  ∃ e,
    raised empty_database (reset_credentials 111) = Some e
    ∧ (∃ msg, e = AssignmentError msg)
    ∧ checks_assignment (reset_credentials 111) = true
    ∧ exec empty_database (reset_credentials 111) = empty_database.
Proof.
  eexists. split; [vm_compute; reflexivity|].
  refine (storage_raises_only_assignment_error empty_database (reset_credentials 111) _ _ _).
  - reflexivity.
  - vm_compute. reflexivity.
Defined.

Lemma record_user_upsert_witness :
  (Storage.record_user "2025-01-01T00:00:00Z" 111 None (Some "Ali") None empty_database).1
  = inr true.
Proof.
  exact (proj1 (record_user_upsert "2025-01-01T00:00:00Z" 111 None (Some "Ali") None
                  empty_database eq_refl)).
Defined.

Lemma record_group_chat_upsert_witness :
  (Storage.get_chat 555
     (Storage.record_group_chat "2025-01-02T00:00:00Z" 555 None after_assignment).2).1
  = inr (Some (chats.mk 555 (Some "Savdo") "2025-01-01T00:00:00Z" "2025-01-02T00:00:00Z")).
Proof.
  exact (proj1 (proj2 (record_group_chat_upsert "2025-01-02T00:00:00Z" 555 None
                         after_assignment eq_refl))).
Defined.

Lemma item_draft_round_trip_witness :
  (Storage.get_item_draft 111
     (Storage.save_item_draft "2025-01-01T00:00:00Z" 111 draft_at_uom empty_database).2).1
  = inr (Some draft_at_uom).
Proof.
  exact (proj1 (proj2 (item_draft_round_trip "2025-01-01T00:00:00Z" 111 draft_at_uom
                         empty_database eq_refl))).
Defined.

Lemma store_customer_doc_effect_witness :
  (Storage.store_customer_doc 555 "CUST-0001" after_assignment).1 = inr tt
  ∧ (Storage.store_customer_doc 777 "CUST-0001" after_assignment).2 = after_assignment.
Proof.
  split.
  - exact (proj1 (store_customer_doc_effect 555 "CUST-0001" after_assignment eq_refl)).
  - apply (proj1 (proj2 (store_customer_doc_effect 777 "CUST-0001" after_assignment eq_refl))).
    intros (a & Ha & Hc). vm_compute in Ha.
    apply list_elem_of_singleton in Ha. subst a. discriminate Hc.
Defined.


Lemma list_unassigned_users_sorted_witness :
  (Storage.list_unassigned_users 2 three_users).1
  = inr [mkCandidate 3 None (Some "Ali") None "2025-01-02T00:00:00Z";
         mkCandidate 5 None (Some "Ali") None "2025-01-01T00:00:00Z"]
  ∧ ∃ rows sorted_all,
      Storage.list_unassigned_users 2 three_users
      = (inr (candidate_of_row <$> rows), three_users)
      ∧ sorted_all ≡ₚ filter (λ u, Storage.unassigned three_users u = true)
                        (tbl_users three_users)
      ∧ StronglySorted listed_before sorted_all
      ∧ rows = (if 2 <? 0 then sorted_all else take (Z.to_nat 2) sorted_all)
      ∧ (∀ u, u ∈ rows →
           u ∈ tbl_users three_users ∧ ¬ user_assigned three_users (users.telegram_id u)).
Proof.
  split; [vm_compute; reflexivity|].
  apply (list_unassigned_users_sorted 2 three_users). reflexivity.
Defined.

Lemma assign_sales_manager_success_witness :
  let r := Storage.assign_sales_manager "2025-01-02T00:00:00Z" 555 111 after_start in
  r.1 = inr tt
  ∧ tbl_assignments r.2
    = tbl_assignments after_start ++ [new_assignment "2025-01-02T00:00:00Z" 555 111].
Proof.
  cbv zeta.
  assert (user_recorded after_start 111) as Hu.
  { eexists. split; [vm_compute; apply list_elem_of_here|reflexivity]. }
  assert (¬ chat_assigned after_start 555) as Hc.
  { intros (a & Ha & _). vm_compute in Ha. by apply elem_of_nil in Ha. }
  assert (¬ user_assigned after_start 111) as Hn.
  { intros (a & Ha & _). vm_compute in Ha. by apply elem_of_nil in Ha. }
  destruct (assign_sales_manager_success "2025-01-02T00:00:00Z" 555 111 after_start Hu Hc Hn)
    as (H1 & H2 & _).
  split; [exact H1|exact H2].
Defined.

Lemma override_env_round_trip_witness :
  ∃ c,
    Config.load_assignment_config plain_host
      (Config.override_env_for_tests ∅ "123:ABC" 42 None) = inr c
    ∧ Config.token c = "123:ABC"
    ∧ Config.admin_ids c = {[ 42 ]}
    ∧ Config.db_path c = Config.DEFAULT_DB_PATH
    ∧ ∀ j, is_admin (bot_config c) j = bool_decide (j = 42).
Proof.
  refine (override_env_round_trip plain_host ∅ "123:ABC" 42 _ _ _).
  - discriminate.
  - reflexivity.
  - reflexivity.
Defined.

Lemma only_administrators_assign_witness :
  assigned_pairs
    (step demo_bot after_start
       (demo_world, assign_callback (presses manager group_555 "assign_sm:555:111")))
  = assigned_pairs after_start.
Proof.
  refine (only_administrators_assign demo_bot demo_world
            (assign_callback (presses manager group_555 "assign_sm:555:111"))
            after_start _).
  intros user Huser. simpl in Huser. injection Huser as <-. vm_compute. reflexivity.
Defined.

Lemma inline_query_answer_witness :
  let db := (Storage.save_item_draft "2025-01-01T00:00:00Z" 111 draft_at_uom empty_database).2 in
  let inline_query := Some (mkInlineQuery (Some manager) (Some " K ")) in
  let a := mkInlineAnswer [uom_article 1 "Kg"] 0 true in
  (handle_inline_query inline_query db).1 = inr (Some a)
  ∧ ∃ query user,
      inline_query = Some query ∧ inline_from_user query = Some user
      ∧ answer_results a
        = take 25 (matching_articles
                     (Py.lower (Py.strip (Py.or_else (inline_query_text query) "")))
                     (uoms_awaited db (user_ident user)))
      ∧ cache_time a = (if uoms_awaited db (user_ident user) is [] then 5 else 0)
      ∧ is_personal a = true
      ∧ NoDup (article_id <$> answer_results a)
      ∧ (handle_inline_query inline_query db).2 = db.
Proof.
  cbv zeta. split; [vm_compute; reflexivity|].
  refine (inline_query_answer _ _ _ _). vm_compute. reflexivity.
Defined.
